(** * Holochain DHT gossip and the JavaScript ribosome's validation hook

    A shallow embedding of [gossip.go] (change log, peer cursor table,
    gossip request handling) and of the validation part of [jsnucleus.go],
    together with the properties of the specification that concern them.

    Conventions.
    - A Go [int] is a [Z]; arithmetic that can overflow goes through [wrap]
      (64-bit two's complement).
    - A Go [string] and a [[]byte] are both a [string] (a list of 8-bit
      characters); the conversions [string(b)] and [[]byte(s)] are the
      identity.
    - The buntdb database is a finite map from keys to values; a transaction
      carries the map it works on and whether it may write.
    - A Go function with results [(v, err)] returns the pair [(v, err)] with
      [err : option error], [None] being [nil].  Code that can panic returns
      an [outcome]. *)

From Stdlib Require Import ZArith Lia Ascii String List Decimal DecimalString DecimalZ.
From stdpp Require Import base option list strings gmap sorting.

Local Open Scope string_scope.
Local Open Scope Z_scope.

(** ** Errors *)

(** The [error] values the code creates, compares against or passes on. *)
Inductive error : Type :=
  | ErrNotFound                       (* buntdb.ErrNotFound *)
  | ErrTxNotWritable                  (* buntdb.ErrTxNotWritable *)
  | ErrSyntax (s : string)            (* strconv: invalid syntax *)
  | ErrRange (s : string)             (* strconv: value out of range *)
  | ErrDHTErrNoGossipersAvailable
  | ErrDHTExpectedGossipReqInBody
  | ErrNoSuchIdx
  | ValidationFailedErr
  | Errorf (msg : string).            (* fmt.Errorf, errors.New *)

#[global] Instance error_eq_dec : EqDecision error.
Proof. solve_decision. Defined.

(** [err == sentinel] on an optional error. *)
Definition is_err (err : option error) (e : error) : bool :=
  match err with
  | Some e' => bool_decide (e' = e)
  | None => false
  end.

(** [err == nil]. *)
Definition is_nil (err : option error) : bool :=
  match err with
  | Some _ => false
  | None => true
  end.

(** Normal return or panic. *)
Inductive outcome (A : Type) : Type :=
  | Returned (a : A)
  | Panicked.
Arguments Returned {A} a.
Arguments Panicked {A}.

(** ** Integers and their decimal form *)

Definition MaxInt : Z := 2 ^ 63 - 1.
Definition MinInt : Z := - 2 ^ 63.

Definition in_int (z : Z) : Prop := MinInt <= z <= MaxInt.

(** Two's complement wrap-around of a 64-bit [int]. *)
Definition wrap (z : Z) : Z := (z + 2 ^ 63) mod 2 ^ 64 - 2 ^ 63.

(** [fmt.Sprintf("%d", z)]. *)
Definition FormatInt (z : Z) : string := NilZero.string_of_int (Z.to_int z).

(** The sign of a number in text, and the text after it. *)
Definition sign_split (s : string) : bool * string :=
  match s with
  | String "-" rest => (true, rest)
  | String "+" rest => (false, rest)
  | _ => (false, s)
  end.

(** [strconv.Atoi]: an optional sign followed by one or more decimal digits.
    A syntax error yields 0, a value out of range yields the nearest
    bound, both with an error. *)
Definition Atoi (s : string) : Z * option error :=
  let '(neg, digits) := sign_split s in
  match NilZero.uint_of_string digits with
  | None => (0, Some (ErrSyntax s))
  | Some d =>
      let n := Z.of_uint d in
      if neg then
        if Z.ltb (2 ^ 63) n then (MinInt, Some (ErrRange s)) else (- n, None)
      else
        if Z.leb (2 ^ 63) n then (MaxInt, Some (ErrRange s)) else (n, None)
  end.

(** ** The keyed store *)

Abbreviation DB := (gmap string string) (only parsing).

Record Tx : Type := mkTx {
  tx_db : DB;
  tx_writable : bool
}.

(** [tx.Get(key)]. *)
Definition tx_Get (tx : Tx) (key : string) : string * option error :=
  match tx_db tx !! key with
  | Some v => (v, None)
  | None => (EmptyString, Some ErrNotFound)
  end.

(** [tx.Set(key, value, nil)]; only the error result is used by the code. *)
Definition tx_Set (tx : Tx) (key value : string) : Tx * option error :=
  if tx_writable tx
  then (mkTx (<[key := value]> (tx_db tx)) true, None)
  else (tx, Some ErrTxNotWritable).

(** [db.View(fn)]: [fn] runs on a read-only transaction that is rolled back
    afterwards.  The result of [fn] here is what the closure hands back: the
    values it assigned to the variables it captures, and its error. *)
Definition View {R : Type} (db : DB) (fn : Tx -> R) : R :=
  fn (mkTx db false).

(** [db.Update(fn)]: [fn] runs on a writable transaction, committed when
    [fn] returns nil and rolled back otherwise. *)
Definition Update {A : Type} (db : DB) (fn : Tx -> Tx * (A * option error))
  : DB * (A * option error) :=
  let '(tx', (a, err)) := fn (mkTx db true) in
  match err with
  | None => (tx_db tx', (a, None))
  | Some e => (db, (a, Some e))
  end.

(** getIntVal returns an integer value at a given key, and assumes the value
    0 if the key doesn't exist. *)
Definition getIntVal (key : string) (tx : Tx) : Z * option error :=
  let '(val, err) := tx_Get tx key in
  if is_err err ErrNotFound then (0, None)
  else match err with
       | Some e => (0, Some e)
       | None => Atoi val
       end.

(** ** Strings *)

(** [strings.Split(s, sep)] for a one-byte separator. *)
Fixpoint Split (s : string) (sep : ascii) : list string :=
  match s with
  | EmptyString => [EmptyString]
  | String c rest =>
      if Ascii.eqb c sep then EmptyString :: Split rest sep
      else match Split rest sep with
           | [] => [String c EmptyString]
           | h :: t => String c h :: t
           end
  end.

Definition byte_of (z : Z) : ascii := ascii_of_N (Z.to_N z).

(** The conversion [string(i)] of an integer: the UTF-8 encoding of the code
    point [i], or of U+FFFD when [i] is not a valid code point. *)
Definition string_of_rune (r : Z) : string :=
  if (r <? 0) || (1114111 <? r) || ((55296 <=? r) && (r <=? 57343)) then
    String (byte_of 239) (String (byte_of 191) (String (byte_of 189) EmptyString))
  else if r <? 128 then
    String (byte_of r) EmptyString
  else if r <? 2048 then
    String (byte_of (Z.lor 192 (Z.shiftr r 6)))
      (String (byte_of (Z.lor 128 (Z.land r 63))) EmptyString)
  else if r <? 65536 then
    String (byte_of (Z.lor 224 (Z.shiftr r 12)))
      (String (byte_of (Z.lor 128 (Z.land (Z.shiftr r 6) 63)))
         (String (byte_of (Z.lor 128 (Z.land r 63))) EmptyString))
  else
    String (byte_of (Z.lor 240 (Z.shiftr r 18)))
      (String (byte_of (Z.lor 128 (Z.land (Z.shiftr r 12) 63)))
         (String (byte_of (Z.lor 128 (Z.land (Z.shiftr r 6) 63)))
            (String (byte_of (Z.lor 128 (Z.land r 63))) EmptyString))).

(** ** Messages and puts *)

(** [peer.ID] is a string type; a [Hash] is its multihash bytes. *)
Abbreviation PeerID := string (only parsing).
Abbreviation Hash := string (only parsing).

(** GossipReq holds a gossip request *)
Record GossipReq : Type := mkGossipReq {
  MyIdx : Z;
  YourIdx : Z
}.

(** The dynamically typed [Body] of a message: nothing, a gossip request, or
    a payload of another type. *)
Inductive MsgBody : Type :=
  | BodyNil
  | BodyGossipReq (t : GossipReq)
  | BodyOther (payload : string).

Record Message : Type := mkMessage {
  Type_ : Z;
  Time : Z;
  From : PeerID;
  Body : MsgBody
}.

(** The zero value [Message{}]. *)
Definition zeroMessage : Message := mkMessage 0 0 EmptyString BodyNil.

(** Put holds a put or link for gossiping *)
Record Put : Type := mkPut {
  Put_idx : Z;
  Put_M : Message
}.

(** The order [sort.Slice] is asked for in GetPuts: by [idx]. *)
Definition idx_le (p q : Put) : Prop := Put_idx p <= Put_idx q.

#[global] Instance idx_le_dec : RelDecision idx_le.
Proof. intros p q. unfold idx_le. apply _. Defined.

(** Gossip holds a gossip message *)
Record Gossip : Type := mkGossip {
  Puts : list Put
}.

(** A dynamically typed response ([interface{}]). *)
Inductive Response : Type :=
  | RespNil
  | RespGossip (g : Gossip)
  | RespOther (payload : string).

(** gossipWithReq, the element type of the channel [gchan]. *)
Record gossipWithReq : Type := mkGossipWithReq {
  req_id : PeerID
}.

(** What [glog.Logf] is called with, one constructor per call site. *)
Inductive LogEvent : Type :=
  | LogUpdating (id : PeerID) (newIdx : Z)
  | LogGotRequest (m : Message)
  | LogWants (from : PeerID) (yourIdx myIdx : Z)
  | LogGossipingBack (idx myIdx : Z) (from : PeerID)
  | LogNoAddresses (from : PeerID)
  | LogWith (id : PeerID)
  | LogReceivedPuts (puts : list Put)
  | LogRunning (count : Z)
  | LogPutFingerprint (idx : Z) (f : Hash)
  | LogCallingActionReceiver (idx : Z)
  | LogActionReceiverReturned (idx : Z) (r : Response) (e : option error)
  | LogAlreadyHave (f : Hash)
  | LogErrHaveFingerprint (e : error)
  | LogErrFingerprint (p : Put).

(** The part of [DHT] (and of the node around it) that gossip reads and
    writes: the store, the in-flight markers, the gossip log, the channel of
    pending gossipWith requests (oldest first), and the requests handed to
    the transport so far (oldest first). *)
Record DHT : Type := mkDHT {
  db : DB;
  gossips : gmap PeerID bool;
  glog : list LogEvent;
  gchan : list gossipWithReq;
  net : list (PeerID * Z * GossipReq)
}.

Definition set_db (d : DHT) (db' : DB) : DHT :=
  mkDHT db' (gossips d) (glog d) (gchan d) (net d).
Definition set_gossips (d : DHT) (g : gmap PeerID bool) : DHT :=
  mkDHT (db d) g (glog d) (gchan d) (net d).
Definition Logf (d : DHT) (ev : LogEvent) : DHT :=
  mkDHT (db d) (gossips d) (glog d ++ [ev])%list (gchan d) (net d).
Definition chan_send (d : DHT) (r : gossipWithReq) : DHT :=
  mkDHT (db d) (gossips d) (glog d) (gchan d ++ [r])%list (net d).
Definition net_send (d : DHT) (id : PeerID) (t : Z) (body : GossipReq) : DHT :=
  mkDHT (db d) (gossips d) (glog d) (gchan d) (net d ++ [(id, t, body)])%list.

(** ** What gossip.go uses and does not define *)

(** Declared elsewhere in the package or in its libraries: the message-type
    constant, the message codec and fingerprint, the printed forms of hashes
    and peer IDs, the ordering of a store index, the transport and the action
    receiver.  [index_less name] orders the items of the index [name] and
    [pivot_le name pivot item] says whether [item] is at or after [pivot] in
    that order.  [Send id t body] is [h.Send(GossipProtocol, id, t, body)].
    [ActionReceiver] works on the store. *)
Class Externals : Type := {
  GOSSIP_REQUEST : Z;
  ByteEncoder : Message -> string * option error;
  ByteDecoder : string -> Message -> Message * option error;
  Fingerprint : Message -> Hash * option error;
  Hash_String : Hash -> string;
  IDB58Encode : PeerID -> string;
  index_less : string -> string * string -> string * string -> bool;
  pivot_le : string -> string -> string * string -> bool;
  Send : PeerID -> Z -> GossipReq -> Response * option error;
  ActionReceiver : DB -> Message -> DB * (Response * option error);
  PeerAddrs : PeerID -> list string
}.

(** Modelled from the spec: the index declarations of the store, which are
    made where the DHT is created.  The spec's store layout has the index
    [idx] over the keys [idx:<n>] and the index [peer] over the keys
    [peer:<base58>]; the result is the key prefix an index covers. *)
Definition index_prefix (name : string) : option string :=
  if String.eqb name "idx" then Some "idx:"
  else if String.eqb name "peer" then Some "peer:"
  else None.

(** The iteration of a scan: [cb] is called on each item with the variables
    it captures, until it returns false. *)
Fixpoint iterate {A : Type} (cb : string -> string -> A -> outcome (A * bool))
    (items : list (string * string)) (acc : A) : outcome A :=
  match items with
  | [] => Returned acc
  | (key, value) :: rest =>
      match cb key value acc with
      | Panicked => Panicked
      | Returned (acc', true) => iterate cb rest acc'
      | Returned (acc', false) => Returned acc'
      end
  end.

Section Gossip.

Context `{Ext : Externals}.

(** The order of the items of an index. *)
Definition item_before (name : string) (a b : string * string) : Prop :=
  Is_true (index_less name a b).

#[global] Instance item_before_dec (name : string) : RelDecision (item_before name).
Proof. intros a b. unfold item_before. apply _. Defined.

(** The items of an index from a pivot on, in the order of the index. *)
Definition index_items (tx : Tx) (name pre pivot : string) : list (string * string) :=
  filter (fun it => Is_true (pivot_le name pivot it))
    (merge_sort (item_before name)
       (filter (fun it => Is_true (String.prefix pre (fst it)))
          (map_to_list (tx_db tx)))).

(** [tx.AscendGreaterOrEqual(index, pivot, cb)]; the scan itself fails only
    when the index does not exist. *)
Definition AscendGreaterOrEqual {A : Type} (tx : Tx) (index pivot : string)
    (cb : string -> string -> A -> outcome (A * bool)) (acc : A)
  : outcome (A * option error) :=
  match index_prefix index with
  | None => Returned (acc, Some ErrNotFound)
  | Some pre =>
      match iterate cb (index_items tx index pre pivot) acc with
      | Panicked => Panicked
      | Returned acc' => Returned (acc', None)
      end
  end.

(** ** The change log *)

(** incIdx adds a new index record to dht for gossiping later *)
Definition incIdx (tx : Tx) (m : option Message) : Tx * (string * option error) :=
  match m with
  | None => (tx, (EmptyString, None))
  | Some m =>
      let '(idx, err) := getIntVal "_idx" tx in
      match err with
      | Some e => (tx, (EmptyString, Some e))
      | None =>
          let idx := wrap (idx + 1) in
          let index := FormatInt idx in
          let '(tx, err) := tx_Set tx "_idx" index in
          match err with
          | Some e => (tx, (index, Some e))
          | None =>
              let '(b, err) := ByteEncoder m in
              match err with
              | Some e => (tx, (index, Some e))
              | None =>
                  let msg := b in
                  let '(tx, err) := tx_Set tx ("idx:" +:+ index) msg in
                  match err with
                  | Some e => (tx, (index, Some e))
                  | None =>
                      let '(f, err) := Fingerprint m in
                      match err with
                      | Some e => (tx, (index, Some e))
                      | None =>
                          let '(tx, err) := tx_Set tx ("f:" +:+ Hash_String f) index in
                          (tx, (index, err))
                      end
                  end
              end
          end
      end
  end.

(** GetIdx returns the current put index for gossip *)
Definition GetIdx (d : DHT) : Z * option error :=
  View (db d) (fun tx =>
    let '(idx, e) := getIntVal "_idx" tx in
    match e with
    | Some e => (idx, Some e)
    | None => (idx, None)
    end).

(** GetIdxMessage returns the messages that causes the change at a given
    index.  The closure tests the result variable [err] of the enclosing
    function, which is still nil while the closure runs. *)
Definition GetIdxMessage (d : DHT) (idx : Z) : Message * option error :=
  let msg := zeroMessage in
  let err : option error := None in
  View (db d) (fun tx =>
    let '(msgStr, e) := tx_Get tx ("idx:" +:+ FormatInt idx) in
    if is_err e ErrNotFound then (msg, Some ErrNoSuchIdx)
    else match e with
         | Some e => (msg, Some e)
         | None =>
             let '(msg, e) := ByteDecoder msgStr msg in
             match err with
             | Some _ => (msg, e)
             | None => (msg, None)
             end
         end).

(** GetFingerprint returns the index that of the message that made a change
    or -1 if we don't have it *)
Definition GetFingerprint (d : DHT) (f : Hash) : Z * option error :=
  let index := -1 in
  View (db d) (fun tx =>
    let '(idxStr, e) := tx_Get tx ("f:" +:+ Hash_String f) in
    if is_err e ErrNotFound then (index, None)
    else match e with
         | Some e => (index, Some e)
         | None =>
             let '(index, e) := Atoi idxStr in
             match e with
             | Some e => (index, Some e)
             | None => (index, None)
             end
         end).

(** HaveFingerprint returns true if we have seen the given fingerprint *)
Definition HaveFingerprint (d : DHT) (f : Hash) : bool * option error :=
  let '(index, err) := GetFingerprint d f in
  match err with
  | None => (Z.leb 0 index, None)
  | Some e => (false, Some e)
  end.

(** The callback of the scan in GetPuts.  Its decode error is a variable of
    its own ([err := ...]), not the one of GetPuts. *)
Definition GetPuts_cb (since : Z) (key value : string) (puts : list Put)
  : outcome (list Put * bool) :=
  let x := Split key ":" in
  match x !! 1%nat with
  | None => Panicked
  | Some x1 =>
      let '(idx, _) := Atoi x1 in
      if Z.leb since idx then
        let p := mkPut idx zeroMessage in
        if negb (String.eqb value EmptyString) then
          let '(m, err) := ByteDecoder value (Put_M p) in
          match err with
          | Some _ => Returned (puts, false)
          | None => Returned ((puts ++ [mkPut (Put_idx p) m])%list, true)
          end
        else Returned ((puts ++ [p])%list, true)
      else Returned (puts, true)
  end.

(** [sort.Slice(puts, func(i, j) { puts[i].idx < puts[j].idx })], which
    promises a permutation in ascending order of [idx] (and no more: it is
    not stable). *)
Definition sort_puts (puts : list Put) : list Put :=
  merge_sort idx_le puts.

(** GetPuts returns a list of puts after the given index *)
Definition GetPuts (d : DHT) (since : Z) : outcome (list Put * option error) :=
  let puts : list Put := [] in
  View (db d) (fun tx =>
    match AscendGreaterOrEqual tx "idx" (string_of_rune since) (GetPuts_cb since) puts with
    | Panicked => Panicked
    | Returned (puts, err) => Returned (sort_puts puts, err)
    end).

(** ** The peer cursor table *)

(** GetGossiper loads returns last known index of the gossiper, and adds them
    if not didn't exist before *)
Definition GetGossiper (d : DHT) (id : PeerID) : DHT * (Z * option error) :=
  let key := "peer:" +:+ IDB58Encode id in
  (d, View (db d) (fun tx =>
    let '(idx, e) := getIntVal key tx in
    match e with
    | Some e => (idx, Some e)
    | None => (idx, None)
    end)).

(** The transaction of UpdateGossiper. *)
Definition UpdateGossiper_tx (id : PeerID) (newIdx : Z) (tx : Tx)
  : Tx * (unit * option error) :=
  let key := "peer:" +:+ IDB58Encode id in
  let '(idx, e) := getIntVal key tx in
  match e with
  | Some e => (tx, (tt, Some e))
  | None =>
      if newIdx <? idx then (tx, (tt, None))
      else
        let sidx := FormatInt newIdx in
        let '(tx, err) := tx_Set tx key sidx in
        match err with
        | Some e => (tx, (tt, Some e))
        | None => (tx, (tt, None))
        end
  end.

(** UpdateGossiper updates a gossiper *)
Definition UpdateGossiper (d : DHT) (id : PeerID) (newIdx : Z) : DHT * option error :=
  let d := Logf d (LogUpdating id newIdx) in
  let '(db', (_, err)) := Update (db d) (UpdateGossiper_tx id newIdx) in
  (set_db d db', err).

(** ** Gossip *)

Definition GossipReceiver (d : DHT) (m : Message)
  : outcome (DHT * (Response * option error)) :=
  if Z.eqb (Type_ m) GOSSIP_REQUEST then
    let d := Logf d (LogGotRequest m) in
    match Body m with
    | BodyGossipReq t =>
        let d := Logf d (LogWants (From m) (YourIdx t) (MyIdx t)) in
        match GetPuts d (YourIdx t) with
        | Panicked => Panicked
        | Returned (puts, err) =>
            let g := mkGossip puts in
            let response := RespGossip g in
            let '(d, (idx, e)) := GetGossiper d (From m) in
            if is_nil e && (idx <? MyIdx t) then
              let d := Logf d (LogGossipingBack idx (MyIdx t) (From m)) in
              let d := if (Z.of_nat (length (PeerAddrs (From m))) =? 0)
                       then Logf d (LogNoAddresses (From m)) else d in
              let d := chan_send d (mkGossipWithReq (From m)) in
              Returned (d, (response, err))
            else Returned (d, (response, err))
        end
    | _ => Returned (d, (RespNil, Some ErrDHTExpectedGossipReqInBody))
    end
  else
    Returned (d, (RespNil,
      Some (Errorf ("message type " +:+ FormatInt (Type_ m)
                    +:+ " not in holochain-gossip protocol")))).

(** The body of the loop over the received puts in gossipWith. *)
Definition apply_put (d : DHT) (idx : Z) (p : Put) : DHT :=
  let '(f, e) := Fingerprint (Put_M p) in
  match e with
  | None =>
      let d := Logf d (LogPutFingerprint idx f) in
      let '(exists_, e) := HaveFingerprint d f in
      if negb exists_ && is_nil e then
        let d := Logf d (LogCallingActionReceiver idx) in
        let '(db', (r, e)) := ActionReceiver (db d) (Put_M p) in
        let d := set_db d db' in
        Logf d (LogActionReceiverReturned idx r e)
      else
        match e with
        | None => Logf d (LogAlreadyHave f)
        | Some e => Logf d (LogErrHaveFingerprint e)
        end
  | Some _ => Logf d (LogErrFingerprint p)
  end.

(** [for i, p := range puts { idx = i + yourIdx + 1; ... }], from position
    [i] on; the result carries the last value of [idx]. *)
Fixpoint run_puts (d : DHT) (yourIdx : Z) (i : Z) (idx : Z) (puts : list Put)
  : DHT * Z :=
  match puts with
  | [] => (d, idx)
  | p :: rest =>
      let idx := wrap (wrap (i + yourIdx) + 1) in
      run_puts (apply_put d idx p) yourIdx (i + 1) idx rest
  end.

(** gossipWith after the in-flight marker is set and before it is released. *)
Definition gossipWith_marked (d : DHT) (id : PeerID) : DHT * outcome (option error) :=
  let '(myIdx, err) := GetIdx d in
  match err with
  | Some e => (d, Returned (Some e))
  | None =>
      let '(d, (yourIdx, err)) := GetGossiper d id in
      match err with
      | Some e => (d, Returned (Some e))
      | None =>
          let body := mkGossipReq myIdx (wrap (yourIdx + 1)) in
          let d := net_send d id GOSSIP_REQUEST body in
          let '(r, err) := Send id GOSSIP_REQUEST body in
          match err with
          | Some e => (d, Returned (Some e))
          | None =>
              match r with
              | RespGossip gossip =>
                  let puts := Puts gossip in
                  let d := Logf d (LogReceivedPuts puts) in
                  let count := Z.of_nat (length puts) in
                  if 0 <? count then
                    let d := Logf d (LogRunning count) in
                    let '(d, idx) := run_puts d yourIdx 0 0 puts in
                    let '(d, err) := UpdateGossiper d id idx in
                    (d, Returned err)
                  else (d, Returned None)
              | _ => (d, Panicked)
              end
          end
      end
  end.

(** gossipWith gossips with an peer asking for everything after since.  The
    deferred [delete(dht.gossips, id)] runs however the marked part ends. *)
Definition gossipWith (d : DHT) (id : PeerID) : DHT * outcome (option error) :=
  let d := Logf d (LogWith id) in
  match gossips d !! id with
  | Some _ => (d, Returned None)
  | None =>
      let d := set_gossips d (<[id := true]> (gossips d)) in
      let '(d, r) := gossipWith_marked d id in
      (set_gossips d (delete id (gossips d)), r)
  end.

(** The marked part of gossipWith when other goroutines act while Send
    blocks: [during] is what they do to the DHT between the moment the
    request is handed to the transport and the moment Send returns.  With
    nothing happening in between this is gossipWith_marked. *)
Definition gossipWith_marked_during (during : DHT -> DHT) (d : DHT) (id : PeerID)
  : DHT * outcome (option error) :=
  let '(myIdx, err) := GetIdx d in
  match err with
  | Some e => (d, Returned (Some e))
  | None =>
      let '(d, (yourIdx, err)) := GetGossiper d id in
      match err with
      | Some e => (d, Returned (Some e))
      | None =>
          let body := mkGossipReq myIdx (wrap (yourIdx + 1)) in
          let d := net_send d id GOSSIP_REQUEST body in
          let d := during d in
          let '(r, err) := Send id GOSSIP_REQUEST body in
          match err with
          | Some e => (d, Returned (Some e))
          | None =>
              match r with
              | RespGossip gossip =>
                  let puts := Puts gossip in
                  let d := Logf d (LogReceivedPuts puts) in
                  let count := Z.of_nat (length puts) in
                  if 0 <? count then
                    let d := Logf d (LogRunning count) in
                    let '(d, idx) := run_puts d yourIdx 0 0 puts in
                    let '(d, err) := UpdateGossiper d id idx in
                    (d, Returned err)
                  else (d, Returned None)
              | _ => (d, Panicked)
              end
          end
      end
  end.

(** gossipWith with what happens while its Send blocks. *)
Definition gossipWith_during (during : DHT -> DHT) (d : DHT) (id : PeerID)
  : DHT * outcome (option error) :=
  let d := Logf d (LogWith id) in
  match gossips d !! id with
  | Some _ => (d, Returned None)
  | None =>
      let d := set_gossips d (<[id := true]> (gossips d)) in
      let '(d, r) := gossipWith_marked_during during d id in
      (set_gossips d (delete id (gossips d)), r)
  end.

End Gossip.

(** ** The JavaScript ribosome: validation *)

(** A value of the JavaScript VM, as far as the host inspects it. *)
Inductive Value : Type :=
  | VUndefined
  | VNull
  | VBoolean (b : bool)
  | VNumber (n : Z)
  | VString (s : string)
  | VObject (printed : string)
  | VError (name message : string).

Definition IsBoolean (v : Value) : bool :=
  match v with
  | VBoolean _ => true
  | _ => false
  end.

(** [v.ToBoolean()]: the value of a boolean, the truthiness of anything
    else. *)
Definition ToBoolean (v : Value) : bool * option error :=
  match v with
  | VBoolean b => (b, None)
  | VUndefined | VNull => (false, None)
  | VNumber n => (negb (n =? 0), None)
  | VString s => (negb (String.eqb s EmptyString), None)
  | VObject _ | VError _ _ => (true, None)
  end.

(** The double quote character, and a string in double quotes. *)
Definition dq : string := String (ascii_of_nat 34) EmptyString.
Definition quoted (s : string) : string := dq +:+ s +:+ dq.

(** [strings.Replace(s, old, new, -1)] for a one-byte [old]. *)
Fixpoint Replace (s : string) (old : ascii) (new : string) : string :=
  match s with
  | EmptyString => EmptyString
  | String c rest =>
      if Ascii.eqb c old then new +:+ Replace rest old new
      else String c (Replace rest old new)
  end.

(** jsSanatizeString makes sure all quotes are quoted and returns are
    removed *)
Definition jsSanitizeString (s : string) : string :=
  let s0 := Replace s (ascii_of_nat 10) EmptyString in
  let s1 := Replace s0 (ascii_of_nat 13) EmptyString in
  let s2 := Replace s1 (ascii_of_nat 34) ("\" +:+ dq) in
  s2.

Definition mkJSSources (sources : list string) : string :=
  "[" +:+ dq +:+ String.concat (dq +:+ "," +:+ dq) sources +:+ dq +:+ "]".

Record EntryDef : Type := mkEntryDef {
  Name : string;
  DataFormat : string
}.

(** What [entry.Content()] returns: a string, or a value of another type
    with its printed form. *)
Inductive Content : Type :=
  | ContentString (s : string)
  | ContentOther (printed : string).

(** [fmt.Sprintf("%v", c)]. *)
Definition Content_String (c : Content) : string :=
  match c with
  | ContentString s => s
  | ContentOther printed => printed
  end.

Record Header : Type := mkHeader {
  EntryLink : Hash;
  Header_Type : string;
  Header_Time : Z
}.

(** Declared elsewhere: the VM and the printed form of its values, the data
    format constants, the RFC3339 form of a time, the text of
    [ValidationFailedErr] and the printed form of a hash. *)
Class JSExternals : Type := {
  VM : Type;
  vm_Run : VM -> string -> VM * (Value * option error);
  Value_String : Value -> string;
  DataFormatRawJS : string;
  DataFormatString : string;
  DataFormatLinks : string;
  DataFormatJSON : string;
  FormatRFC3339 : Z -> string;
  ValidationFailedErr_text : string;
  EntryLink_String : Hash -> string
}.

Section Ribosome.

Context `{JSExt : JSExternals}.

(** [err.Error()]. *)
Definition Error (e : error) : string :=
  match e with
  | ErrNotFound => "not found"
  | ErrTxNotWritable => "tx not writable"
  | ErrSyntax s => "strconv.Atoi: parsing " +:+ quoted s +:+ ": invalid syntax"
  | ErrRange s => "strconv.Atoi: parsing " +:+ quoted s +:+ ": value out of range"
  | ErrDHTErrNoGossipersAvailable => "no gossipers available"
  | ErrDHTExpectedGossipReqInBody => "expected gossip request"
  | ErrNoSuchIdx => "no such change index"
  | ValidationFailedErr => ValidationFailedErr_text
  | Errorf msg => msg
  end.

(** JSRibosome holds data needed for the Javascript VM *)
Record JSRibosome : Type := mkJSRibosome {
  vm : VM
}.

Definition prepareJSValidateEntryArgs (def : EntryDef) (entry : Content)
    (sources : list string) : outcome (string * string * option error) :=
  match entry with
  | ContentOther _ => Panicked
  | ContentString c =>
      if String.eqb (DataFormat def) DataFormatRawJS then
        Returned (c, mkJSSources sources, None)
      else if String.eqb (DataFormat def) DataFormatString then
        Returned (quoted (jsSanitizeString c), mkJSSources sources, None)
      else if String.eqb (DataFormat def) DataFormatLinks
              || String.eqb (DataFormat def) DataFormatJSON then
        Returned ("JSON.parse(" +:+ quoted (jsSanitizeString c) +:+ ")",
                  mkJSSources sources, None)
      else
        Returned (EmptyString, EmptyString,
                  Some (Errorf ("data format not implemented: " +:+ DataFormat def)))
  end.

Definition runValidate (jsr : JSRibosome) (fnName code : string)
  : JSRibosome * option error :=
  let '(vm', (v, err)) := vm_Run (vm jsr) code in
  let jsr := mkJSRibosome vm' in
  match err with
  | Some e => (jsr, Some (Errorf ("Error executing " +:+ fnName +:+ ": " +:+ Error e)))
  | None =>
      if IsBoolean v then
        if IsBoolean v then
          let '(b, err) := ToBoolean v in
          match err with
          | Some e => (jsr, Some e)
          | None => if negb b then (jsr, Some ValidationFailedErr) else (jsr, None)
          end
        else (jsr, None)
      else
        (jsr, Some (Errorf (fnName +:+ " should return boolean, got: "
                            +:+ Value_String v)))
  end.

(** The header object and the call that validateEntry formats. *)
Definition header_object (header : Header) : string :=
  "{" +:+ quoted "EntryLink" +:+ ":" +:+ quoted (EntryLink_String (EntryLink header))
  +:+ "," +:+ quoted "Type" +:+ ":" +:+ quoted (Header_Type header)
  +:+ "," +:+ quoted "Time" +:+ ":" +:+ quoted (FormatRFC3339 (Header_Time header))
  +:+ "}".

Definition validate_call (fnName name e hdr srcs : string) : string :=
  fnName +:+ "(" +:+ quoted name +:+ "," +:+ e +:+ "," +:+ hdr +:+ "," +:+ srcs +:+ ")".

(** validateEntry; a nil [header] is dereferenced. *)
Definition validateEntry (jsr : JSRibosome) (fnName : string) (def : EntryDef)
    (entry : Content) (header : option Header) (sources : list string)
  : JSRibosome * outcome (option error) :=
  match prepareJSValidateEntryArgs def entry sources with
  | Panicked => (jsr, Panicked)
  | Returned (e, srcs, Some err) => (jsr, Returned (Some err))
  | Returned (e, srcs, None) =>
      match header with
      | None => (jsr, Panicked)
      | Some header =>
          let hdr := header_object header in
          let code := validate_call fnName (Name def) e hdr srcs in
          let '(jsr, err) := runValidate jsr fnName code in
          if negb (is_nil err) && is_err err ValidationFailedErr then
            (jsr, Returned (Some (Errorf ("Invalid entry: " +:+ Content_String entry))))
          else (jsr, Returned err)
      end
  end.

Definition mkOttoErr (jsr : JSRibosome) (msg : string) : Value :=
  VError "HolochainError" msg.

(** Modelled from the spec: the Do of the commit action, whose code
    (action.go) is not among the sources.  The spec has "Commit(entryType,
    entry): validates, appends header to chain, returns entry hash", and of
    a validation hook that returned false "callers surface this as invalid
    entry", with the text "Invalid entry: <entry>" in its scenario of a
    vetoed commit.  [validate] is the validation of the entry by the
    ribosome and [append] the writing to the chain. *)
Definition Commit_Do (validate : string -> string -> outcome (option error))
    (append : string -> string -> option Hash * option error)
    (entryType entryStr : string) : outcome (option Hash * option error) :=
  match validate entryType entryStr with
  | Panicked => Panicked
  | Returned (Some err) =>
      if is_err (Some err) ValidationFailedErr
      then Returned (None, Some (Errorf ("Invalid entry: " +:+ entryStr)))
      else Returned (None, Some err)
  | Returned None => Returned (append entryType entryStr)
  end.

(** The [commit] function NewJSRibosome gives to scripts, from the point on
    where jsProcessArgs has stored the entry type and the entry string:
    [processed] is the error of jsProcessArgs, and [Do entryType entryStr] is
    [NewCommitAction(entryType, &entry).Do(h)], whose result is nil or a
    hash; a panic of the action goes through the function. *)
Definition commit (jsr : JSRibosome)
    (Do : string -> string -> outcome (option Hash * option error))
    (processed : option error) (entryType entryStr : string) : outcome Value :=
  match processed with
  | Some err => Returned (mkOttoErr jsr (Error err))
  | None =>
      match Do entryType entryStr with
      | Panicked => Panicked
      | Returned (r, Some err) => Returned (mkOttoErr jsr (Error err))
      | Returned (r, None) =>
          let entryHash := match r with
                           | Some h => h
                           | None => EmptyString
                           end in
          Returned (VString (EntryLink_String entryHash))
      end
  end.

End Ribosome.

(** ** The wording of the claims *)

Section Statements.

Context `{Ext : Externals}.

(** The fingerprint of [m] is recorded in the change log. *)
Definition fingerprint_recorded (tx : Tx) (m : Message) : Prop :=
  is_Some (tx_db tx !! ("f:" +:+ Hash_String (fst (Fingerprint m)))).

(** "Fails (duplicate)". *)
Definition fails_as_duplicate (tx : Tx) (m : Message) : Prop :=
  snd (snd (incIdx tx (Some m))) <> None.

(** "Does not advance [_idx]". *)
Definition idx_not_advanced (tx : Tx) (m : Message) : Prop :=
  tx_db (fst (incIdx tx (Some m))) !! "_idx" = tx_db tx !! "_idx".

(** "Does not overwrite [idx:*] or [f:*]". *)
Definition log_keys_kept (tx : Tx) (m : Message) : Prop :=
  forall k : string,
    String.prefix "idx:" k = true \/ String.prefix "f:" k = true ->
    is_Some (tx_db tx !! k) ->
    tx_db (fst (incIdx tx (Some m))) !! k = tx_db tx !! k.

(** "The highest successfully inspected index" of a batch received for a
    cursor [yourIdx]: the index of the last put whose fingerprint could be
    computed, [yourIdx] when there is none. *)
Fixpoint highest_inspected (yourIdx : Z) (i : Z) (puts : list Put) : Z :=
  match puts with
  | [] => yourIdx
  | p :: rest =>
      let later := highest_inspected yourIdx (i + 1) rest in
      if is_nil (snd (Fingerprint (Put_M p)))
      then Z.max (i + yourIdx + 1) later
      else later
  end.

(** The number of puts the log shows as looked at: each put leaves either
    the line with its fingerprint or the line that its fingerprint could not
    be calculated. *)
Definition looked_at (ev : LogEvent) : bool :=
  match ev with
  | LogPutFingerprint _ _ | LogErrFingerprint _ => true
  | _ => false
  end.

Definition inspections (log : list LogEvent) : nat :=
  length (filter (fun ev => Is_true (looked_at ev)) log).

(** Two DHTs that differ in their logs at most: same store, same markers,
    same channel, same requests handed to the transport. *)
Definition same_but_log (d1 d2 : DHT) : Prop :=
  db d1 = db d2 /\ gossips d1 = gossips d2 /\ gchan d1 = gchan d2 /\ net d1 = net d2.

(** What the log [log] shows of the turn of the put [p], at position [idx],
    in the loop of gossipWith, and what that turn did to the store: [before]
    is the DHT when the turn comes and [after] the DHT when it is over.  A
    fingerprint that cannot be computed and a failing HaveFingerprint leave
    their line and the store as it was; a put that is not known yet goes to
    the action receiver, whose result, error included, is logged and whose
    store is the store afterwards. *)
Definition put_logged (log : list LogEvent) (before after : DHT) (idx : Z) (p : Put)
  : Prop :=
  match Fingerprint (Put_M p) with
  | (_, Some _) => LogErrFingerprint p ∈ log /\ db after = db before
  | (f, None) =>
      LogPutFingerprint idx f ∈ log
      /\ match HaveFingerprint before f with
         | (false, None) =>
             LogCallingActionReceiver idx ∈ log
             /\ LogActionReceiverReturned idx
                  (fst (snd (ActionReceiver (db before) (Put_M p))))
                  (snd (snd (ActionReceiver (db before) (Put_M p)))) ∈ log
             /\ db after = fst (ActionReceiver (db before) (Put_M p))
         | (true, None) => LogAlreadyHave f ∈ log /\ db after = db before
         | (_, Some e) => LogErrHaveFingerprint e ∈ log /\ db after = db before
         end
  end.

End Statements.

(** ** A small instance, for examples *)

Module Sample.

(** A codec that writes a message with a payload body as ["m"] followed by
    the payload, cannot encode another body, and cannot decode anything that
    does not start with ["m"]; the fingerprint is the encoding. *)
Definition encode (m : Message) : string * option error :=
  match Body m with
  | BodyOther payload => (String "m" payload, None)
  | _ => (EmptyString, Some (Errorf "cannot encode body"))
  end.

Definition decode (b : string) (m : Message) : Message * option error :=
  match b with
  | String "m" payload => (mkMessage (Type_ m) (Time m) (From m) (BodyOther payload), None)
  | _ => (m, Some (Errorf "cannot decode"))
  end.

Definition suffix_number (it : string * string) : Z :=
  match Split (fst it) ":" !! 1%nat with
  | Some x1 => fst (Atoi x1)
  | None => 0
  end.

Definition msg (payload : string) : Message :=
  mkMessage 2 0 "peerA" (BodyOther payload).

(** The receiver accepts every message but the one with payload ["bad"],
    and records an accepted payload in the store. *)
Definition receive (db : DB) (m : Message) : DB * (Response * option error) :=
  match Body m with
  | BodyOther payload =>
      if String.eqb payload "bad" then (db, (RespNil, Some (Errorf "rejected")))
      else (<["entry:" +:+ payload := payload]> db, (RespOther "ok", None))
  | _ => (db, (RespNil, Some (Errorf "rejected")))
  end.

(** The peer answers every request with three puts: one that applies, one
    the receiver rejects and one whose fingerprint cannot be computed. *)
Definition answer : list Put :=
  [mkPut 0 (msg "one"); mkPut 0 (msg "bad"); mkPut 0 zeroMessage].

#[export] Instance ext : Externals := {|
  GOSSIP_REQUEST := 9;
  ByteEncoder := encode;
  ByteDecoder := decode;
  Fingerprint := encode;
  Hash_String := fun h => h;
  IDB58Encode := fun id => id;
  index_less := fun _ a b => suffix_number a <? suffix_number b;
  pivot_le := fun _ _ _ => true;
  Send := fun _ _ _ => (RespGossip (mkGossip answer), None);
  ActionReceiver := receive;
  PeerAddrs := fun _ => []
|}.

Definition empty : DHT := mkDHT ∅ ∅ [] [] [].

Definition with_db (m : DB) : DHT := mkDHT m ∅ [] [] [].

(** A log with one message, as incIdx leaves it. *)
Definition one_db : DB :=
  <["f:mone" := "1"]> (<["idx:1" := "mone"]> (<["_idx" := "1"]> ∅)).

(** A log whose second record does not decode. *)
Definition corrupt_db : DB :=
  <["idx:2" := "???"]> (<["idx:1" := "mone"]> (<["_idx" := "2"]> ∅)).

(** A script whose validation function answers false for every entry but
    the one that mentions ["number"], for which it answers 7. *)
Definition run (vm : unit) (code : string) : unit * (Value * option error) :=
  match index 0 "number" code with
  | Some _ => (vm, (VNumber 7, None))
  | None => (vm, (VBoolean false, None))
  end.

#[export] Instance jsext : JSExternals := {|
  VM := unit;
  vm_Run := run;
  Value_String := fun v => match v with VNumber _ => "7" | _ => "value" end;
  DataFormatRawJS := "js";
  DataFormatString := "string";
  DataFormatLinks := "links";
  DataFormatJSON := "json";
  FormatRFC3339 := fun _ => "1970-01-01T00:00:00Z";
  ValidationFailedErr_text := "Validation Failed";
  EntryLink_String := fun h => h
|}.

Definition jsr : JSRibosome := mkJSRibosome tt.
Definition post : EntryDef := mkEntryDef "post" "string".
Definition header : Header := mkHeader "QmHash" "post" 0.

End Sample.

(** ** The rest of gossip.go: choosing a peer to gossip with *)

(** Declared in the libraries: the decoding of a printed peer ID, and the
    random source, [Intn n] being the value [rand.Intn(n)] returns. *)
Class PeerExternals : Type := {
  IDB58Decode : string -> PeerID * option error;
  Intn : Z -> Z
}.

Section Choosing.

Context `{Ext : Externals} `{PExt : PeerExternals}.

(** [tx.Ascend(index, cb)]: every item of the index, in its order. *)
Definition Ascend {A : Type} (tx : Tx) (index : string)
    (cb : string -> string -> A -> outcome (A * bool)) (acc : A)
  : outcome (A * option error) :=
  match index_prefix index with
  | None => Returned (acc, Some ErrNotFound)
  | Some pre =>
      match iterate cb
              (merge_sort (item_before index)
                 (filter (fun it => Is_true (String.prefix pre (fst it)))
                    (map_to_list (tx_db tx)))) acc with
      | Panicked => Panicked
      | Returned acc' => Returned (acc', None)
      end
  end.

(** The callback of the scan in FindGossiper. *)
Definition FindGossiper_cb (key value : string) (glist : list PeerID)
  : outcome (list PeerID * bool) :=
  let x := Split key ":" in
  match x !! 1%nat with
  | None => Panicked
  | Some x1 =>
      let '(id, e) := IDB58Decode x1 in
      match e with
      | Some _ => Returned (glist, false)
      | None => Returned ((glist ++ [id])%list, true)
      end
  end.

(** FindGossiper picks a random DHT node to gossip with.  The error of the
    scan is assigned inside the closure, which returns nil, and is then
    overwritten by the result of View. *)
Definition FindGossiper (d : DHT) : outcome (PeerID * option error) :=
  let glist : list PeerID := [] in
  View (db d) (fun tx =>
    match Ascend tx "peer" FindGossiper_cb glist with
    | Panicked => Panicked
    | Returned (glist, _) =>
        if Z.of_nat (length glist) =? 0 then
          Returned (EmptyString, Some ErrDHTErrNoGossipersAvailable)
        else
          let r := Intn (Z.of_nat (length glist)) in
          if r <? 0 then Panicked
          else match glist !! Z.to_nat r with
               | Some g => Returned (g, None)
               | None => Panicked
               end
    end).

(** The peers a scan of the [peer] index can yield. *)
Definition known_peer (d : DHT) (g : string) : Prop :=
  exists k v x1 : string,
    db d !! k = Some v
    /\ String.prefix "peer:" k = true
    /\ Split k ":" !! 1%nat = Some x1
    /\ IDB58Decode x1 = (g, None).

(** gossip picks a random node in my neighborhood and sends gossips with it *)
Definition gossip (d : DHT) : outcome (DHT * option error) :=
  match FindGossiper d with
  | Panicked => Panicked
  | Returned (g, Some e) => Returned (d, Some e)
  | Returned (g, None) => Returned (chan_send d (mkGossipWithReq g), None)
  end.

(** Successive calls of UpdateGossiper for one peer; errors are dropped, as
    a caller that only logs them does. *)
Definition UpdateGossiper_all (d : DHT) (id : PeerID) (ns : list Z) : DHT :=
  fold_left (fun d n => fst (UpdateGossiper d id n)) ns d.

(** A message appended to the log in a transaction of its own. *)
Definition append_message (d : DHT) (m : Message) : DHT * (string * option error) :=
  let '(db', r) := Update (db d) (fun tx => incIdx tx (Some m)) in
  (set_db d db', r).

(** The put GetPuts makes of a record of the log. *)
Definition put_of_record (key value : string) : Put :=
  mkPut (match Split key ":" !! 1%nat with
         | Some x1 => fst (Atoi x1)
         | None => 0
         end)
        (if String.eqb value EmptyString then zeroMessage
         else fst (ByteDecoder value zeroMessage)).

End Choosing.

(** ** The rest of jsnucleus.go *)

(** Whether a character occurs in a string, and whether every double quote
    of a string comes right after a backslash ([esc] says whether the
    character before the string is one). *)
Fixpoint has_char (c : ascii) (s : string) : bool :=
  match s with
  | EmptyString => false
  | String a rest => Ascii.eqb a c || has_char c rest
  end.

Fixpoint quotes_escaped (esc : bool) (s : string) : bool :=
  match s with
  | EmptyString => true
  | String a rest =>
      if Ascii.eqb a (ascii_of_nat 34) then esc && quotes_escaped false rest
      else quotes_escaped (Ascii.eqb a "\") rest
  end.

(** [v.IsObject()], [v.Class() == "Error"] and [v.ToString()] where the
    host decides by them. *)
Definition IsObject (v : Value) : bool :=
  match v with
  | VObject _ | VError _ _ => true
  | _ => false
  end.

Definition IsErrorObject (v : Value) : bool :=
  match v with
  | VError _ _ => true
  | _ => false
  end.

(** An exposed function of a nucleus. *)
Record Interface : Type := mkInterface {
  Interface_Name : string;
  Schema : Z
}.

Record FunctionDef : Type := mkFunctionDef {
  FunctionDef_Name : string;
  CallingType : string
}.

(** Declared elsewhere: the calling-type constants, [strings.Title],
    [json.Marshal] on the links of a link action and on a chain, the string
    form of a value that is not a string, and the types of links and
    chains. *)
Class ActionExternals : Type := {
  Links : Type;
  ChainT : Type;
  json_Marshal_links : Links -> string * option error;
  json_Marshal_chain : ChainT -> string * option error;
  Title : string -> string;
  STRING_CALLING : string;
  JSON_CALLING : string;
  ToString_other : Value -> string * option error
}.

Section MoreRibosome.

Context `{JSExt : JSExternals} `{AExt : ActionExternals}.

(** The actions a validation call is built for, with the fields the
    ribosome reads; [ActionOther] is an action of another type, with the
    name of that type. *)
Inductive Action : Type :=
  | ActionPut (entry : Content) (header : option Header)
  | ActionCommit (entry : Content) (header : option Header)
  | ActionMod (entry : Content) (header : option Header) (replaces : Hash)
  | ActionDel (entry_Hash : Hash)
  | ActionLink (validationBase : Hash) (links : Links)
  | ActionOther (type_name : string).

Record ValidationPackage : Type := mkValidationPackage {
  Chain : option ChainT
}.

(** [action.Name()], declared with the actions. *)
Variable Action_Name : Action -> string.

Definition ToString (v : Value) : string * option error :=
  match v with
  | VString s => (s, None)
  | _ => ToString_other v
  end.

(** ChainGenesis runs the application genesis function *)
Definition ChainGenesis (jsr : JSRibosome) : JSRibosome * option error :=
  let '(vm', (v, err)) := vm_Run (vm jsr) "genesis()" in
  let jsr := mkJSRibosome vm' in
  match err with
  | Some e => (jsr, Some (Errorf ("Error executing genesis: " +:+ Error e)))
  | None =>
      if IsBoolean v then
        let '(b, err) := ToBoolean v in
        match err with
        | Some e => (jsr, Some e)
        | None => if negb b then (jsr, Some (Errorf "genesis failed")) else (jsr, None)
        end
      else
        (jsr, Some (Errorf ("genesis should return boolean, got: " +:+ Value_String v)))
  end.

Definition prepareJSEntryArgs (def : EntryDef) (entry : Content) (header : option Header)
  : outcome (string * option error) :=
  match entry with
  | ContentOther _ => Panicked
  | ContentString entryStr =>
      let rendered :=
        if String.eqb (DataFormat def) DataFormatRawJS then Some entryStr
        else if String.eqb (DataFormat def) DataFormatString then
          Some (quoted (jsSanitizeString entryStr))
        else if String.eqb (DataFormat def) DataFormatLinks
                || String.eqb (DataFormat def) DataFormatJSON then
          Some ("JSON.parse(" +:+ quoted (jsSanitizeString entryStr) +:+ ")")
        else None in
      match rendered with
      | None =>
          Returned (EmptyString,
                    Some (Errorf ("data format not implemented: " +:+ DataFormat def)))
      | Some args =>
          let hdr :=
            match header with
            | Some header => header_object header
            | None =>
                "{" +:+ quoted "EntryLink" +:+ ":" +:+ quoted EmptyString
                +:+ "," +:+ quoted "Type" +:+ ":" +:+ quoted EmptyString
                +:+ "," +:+ quoted "Time" +:+ ":" +:+ quoted EmptyString +:+ "}"
            end in
          Returned (args +:+ "," +:+ hdr, None)
      end
  end.

Definition prepareJSValidateArgs (action : Action) (def : EntryDef)
  : outcome (string * option error) :=
  match action with
  | ActionPut entry header => prepareJSEntryArgs def entry header
  | ActionCommit entry header => prepareJSEntryArgs def entry header
  | ActionMod entry header replaces =>
      match prepareJSEntryArgs def entry header with
      | Panicked => Panicked
      | Returned (args, None) =>
          Returned (args +:+ "," +:+ quoted (EntryLink_String replaces), None)
      | Returned (args, Some e) => Returned (args, Some e)
      end
  | ActionDel entry_Hash => Returned (quoted (EntryLink_String entry_Hash), None)
  | ActionLink validationBase links =>
      let '(j, err) := json_Marshal_links links in
      match err with
      | None =>
          Returned (quoted (EntryLink_String validationBase) +:+ ",JSON.parse("
                    +:+ quoted (jsSanitizeString j) +:+ ")", None)
      | Some e => Returned (EmptyString, Some e)
      end
  | ActionOther type_name =>
      Returned (EmptyString,
                Some (Errorf ("can't prepare args for " +:+ type_name +:+ ": ")))
  end.

Definition buildJSValidateAction (action : Action) (def : EntryDef)
    (pkg : option ValidationPackage) (sources : list string)
  : outcome (string * option error) :=
  let fnName := "validate" +:+ Title (Action_Name action) in
  match prepareJSValidateArgs action def with
  | Panicked => Panicked
  | Returned (args, Some e) => Returned (EmptyString, Some e)
  | Returned (args, None) =>
      let srcs := mkJSSources sources in
      let chain := match pkg with
                   | None => None
                   | Some pkg => Chain pkg
                   end in
      match chain with
      | None =>
          Returned (fnName +:+ "(" +:+ quoted (Name def) +:+ "," +:+ args +:+ ","
                    +:+ "{}" +:+ "," +:+ srcs +:+ ")", None)
      | Some c =>
          let '(j, err) := json_Marshal_chain c in
          match err with
          | Some e => Returned (EmptyString, Some e)
          | None =>
              let pkgObj := "{" +:+ quoted "Chain" +:+ ":" +:+ j +:+ "}" in
              Returned (fnName +:+ "(" +:+ quoted (Name def) +:+ "," +:+ args +:+ ","
                        +:+ pkgObj +:+ "," +:+ srcs +:+ ")", None)
          end
      end
  end.

(** ValidateAction builds the correct validation function based on the
    action an calls it *)
Definition ValidateAction (jsr : JSRibosome) (action : Action) (def : EntryDef)
    (pkg : option ValidationPackage) (sources : list string)
  : JSRibosome * outcome (option error) :=
  match buildJSValidateAction action def pkg sources with
  | Panicked => (jsr, Panicked)
  | Returned (code, Some e) => (jsr, Returned (Some e))
  | Returned (code, None) =>
      let '(jsr, err) := runValidate jsr (Action_Name action) code in
      (jsr, Returned err)
  end.

(** The code Call builds for a function; [params] is asserted to be a
    string where it is used, and there is no code for a calling type that
    is neither of the two. *)
Definition Call_code (fn : FunctionDef) (params : Content) : outcome (option string) :=
  if String.eqb (CallingType fn) STRING_CALLING then
    match params with
    | ContentString p =>
        Returned (Some (FunctionDef_Name fn +:+ "(" +:+ quoted (jsSanitizeString p) +:+ ");"))
    | ContentOther _ => Panicked
    end
  else if String.eqb (CallingType fn) JSON_CALLING then
    match params with
    | ContentString p =>
        if String.eqb p EmptyString then
          Returned (Some ("JSON.stringify(" +:+ FunctionDef_Name fn +:+ "());"))
        else
          Returned (Some ("JSON.stringify(" +:+ FunctionDef_Name fn +:+ "(JSON.parse("
                          +:+ quoted (jsSanitizeString p) +:+ ")));"))
    | ContentOther _ => Panicked
    end
  else Returned None.

(** Call calls the zygo function that was registered with expose *)
Definition Call (jsr : JSRibosome) (fn : FunctionDef) (params : Content)
  : JSRibosome * outcome (option string * option error) :=
  match Call_code fn params with
  | Panicked => (jsr, Panicked)
  | Returned None => (jsr, Returned (None, Some (Errorf "params type not implemented")))
  | Returned (Some code) =>
      let '(vm', (v, err)) := vm_Run (vm jsr) code in
      let jsr := mkJSRibosome vm' in
      match err with
      | Some e => (jsr, Returned (None, Some e))
      | None =>
          if IsObject v && IsErrorObject v then
            match v with
            | VError _ message => (jsr, Returned (None, Some (Errorf message)))
            | _ => (jsr, Returned (None, None))
            end
          else
            let '(result, err) := ToString v in
            (jsr, Returned (Some result, err))
      end
  end.

(** The nucleus of the earlier interface: its VM and its exposed
    functions. *)
Record JSNucleus : Type := mkJSNucleus {
  z_vm : VM;
  interfaces : list Interface
}.

(** GetInterface returns an Interface of the given name *)
Definition GetInterface (z : JSNucleus) (iface : string) : option Interface * option error :=
  let i := List.find (fun x => String.eqb (Interface_Name x) iface) (interfaces z) in
  match i with
  | None => (None, Some (Errorf ("couldn't find exposed function: " +:+ iface)))
  | Some x => (Some x, None)
  end.

(** Interfaces returns the list of application exposed functions the
    nucleus *)
Definition Interfaces (z : JSNucleus) : list Interface := interfaces z.

(** expose registers an interfaces defined in the DNA for calling by
    external clients *)
Definition expose (z : JSNucleus) (iface : Interface) : JSNucleus * option error :=
  (mkJSNucleus (z_vm z) (interfaces z ++ [iface])%list, None).

End MoreRibosome.

(** ** A second small instance *)

Module Fixture.

(** Printed peer IDs are the IDs themselves when they start with ["peer"];
    the random source always gives the last position. *)
#[export] Instance pext : PeerExternals := {|
  IDB58Decode := fun s =>
    if String.prefix "peer" s then (s, None)
    else (EmptyString, Some (Errorf "not a peer id"));
  Intn := fun n => n - 1
|}.

#[export] Instance aext : ActionExternals := {|
  Links := string;
  ChainT := string;
  json_Marshal_links := fun l => (l, None);
  json_Marshal_chain := fun c => (c, None);
  Title := fun s =>
    match s with
    | String "c" rest => String "C" rest
    | String "p" rest => String "P" rest
    | _ => s
    end;
  STRING_CALLING := "string";
  JSON_CALLING := "json";
  ToString_other := fun v =>
    match v with
    | VBoolean true => ("true", None)
    | VBoolean false => ("false", None)
    | _ => ("value", None)
    end
|}.

Definition action_name (a : Action) : string :=
  match a with
  | ActionPut _ _ => "put"
  | ActionCommit _ _ => "commit"
  | ActionMod _ _ _ => "mod"
  | ActionDel _ => "del"
  | ActionLink _ _ => "link"
  | ActionOther _ => "other"
  end.

(** A store with the cursors of two peers. *)
Definition peers_db : gmap string string :=
  <["peer:peerB" := "3"]> (<["peer:peerA" := "7"]> ∅).

(** The sample instance with another transport: one that fails, one whose
    peer has nothing to give, one whose peer answers with something that is
    no Gossip, and one whose peer gives the message of [one_db] again. *)
Definition ext_with (send : string -> Z -> GossipReq -> Response * option error)
  : Externals := {|
  GOSSIP_REQUEST := 9;
  ByteEncoder := Sample.encode;
  ByteDecoder := Sample.decode;
  Fingerprint := Sample.encode;
  Hash_String := fun h => h;
  IDB58Encode := fun id => id;
  index_less := fun _ a b => Sample.suffix_number a <? Sample.suffix_number b;
  pivot_le := fun _ _ _ => true;
  Send := send;
  ActionReceiver := Sample.receive;
  PeerAddrs := fun _ => []
|}.

Definition down : Externals :=
  ext_with (fun _ _ _ => (RespNil, Some (Errorf "timeout"))).
Definition quiet : Externals :=
  ext_with (fun _ _ _ => (RespGossip (mkGossip []), None)).
Definition confused : Externals :=
  ext_with (fun _ _ _ => (RespOther "pong", None)).
Definition again : Externals :=
  ext_with (fun _ _ _ => (RespGossip (mkGossip [mkPut 0 (Sample.msg "one")]), None)).

(** A script that answers true to code that mentions ["good"], a
    HolochainError to code that mentions ["fail"], and a string
    otherwise. *)
Definition script (vm : unit) (code : string) : unit * (Value * option error) :=
  match index 0 "good" code, index 0 "fail" code with
  | Some _, _ => (vm, (VBoolean true, None))
  | None, Some _ => (vm, (VError "HolochainError" "boom", None))
  | None, None => (vm, (VString "done", None))
  end.

Definition scripted : JSExternals := {|
  VM := unit;
  vm_Run := script;
  Value_String := fun _ => "value";
  DataFormatRawJS := "js";
  DataFormatString := "string";
  DataFormatLinks := "links";
  DataFormatJSON := "json";
  FormatRFC3339 := fun _ => "1970-01-01T00:00:00Z";
  ValidationFailedErr_text := "Validation Failed";
  EntryLink_String := fun h => h
|}.

Definition scripted_jsr : @JSRibosome scripted := @mkJSRibosome scripted tt.

End Fixture.

(** ** Facts about the decimal form *)

(** Goals about the bounds of an [int]. *)
Ltac int_range := unfold in_int, MinInt, MaxInt in *; lia.

Lemma Atoi_unsigned (d : uint) :
  d <> Nil ->
  Atoi (NilZero.string_of_uint d) =
    if Z.leb (2 ^ 63) (Z.of_uint d) then (MaxInt, Some (ErrRange (NilZero.string_of_uint d)))
    else (Z.of_uint d, None).
Proof.
  intros Hd. pose proof (NilZero.usu d Hd) as Hu.
  destruct d; try congruence; unfold Atoi;
    cbn [NilZero.string_of_uint NilEmpty.string_of_uint sign_split] in *;
    rewrite Hu; reflexivity.
Qed.

Lemma Atoi_negative (d : uint) :
  d <> Nil ->
  Atoi (String "-" (NilZero.string_of_uint d)) =
    if Z.ltb (2 ^ 63) (Z.of_uint d)
    then (MinInt, Some (ErrRange (String "-" (NilZero.string_of_uint d))))
    else (- Z.of_uint d, None).
Proof.
  intros Hd. unfold Atoi. cbn [sign_split]. rewrite (NilZero.usu d Hd). reflexivity.
Qed.

Lemma to_uint_nonnil (p : positive) : Pos.to_uint p <> Nil.
Proof.
  intros H. pose proof (DecimalPos.Unsigned.of_to p) as Hp.
  rewrite H in Hp. discriminate.
Qed.

Lemma of_uint_to_uint (p : positive) : Z.of_uint (Pos.to_uint p) = Z.pos p.
Proof.
  unfold Z.of_uint. rewrite DecimalPos.Unsigned.of_to. reflexivity.
Qed.

Lemma Atoi_FormatInt (z : Z) : in_int z -> Atoi (FormatInt z) = (z, None).
Proof.
  unfold in_int, MinInt, MaxInt, FormatInt. intros Hz.
  destruct z as [|p|p]; cbn [Z.to_int NilZero.string_of_int].
  - reflexivity.
  - rewrite Atoi_unsigned by apply to_uint_nonnil.
    rewrite of_uint_to_uint.
    destruct (Z.leb_spec (2 ^ 63) (Z.pos p)); [lia | reflexivity].
  - rewrite Atoi_negative by apply to_uint_nonnil.
    rewrite of_uint_to_uint.
    destruct (Z.ltb_spec (2 ^ 63) (Z.pos p)); [lia | reflexivity].
Qed.


(** ** Facts about the store *)

Lemma wrap_range (z : Z) : in_int (wrap z).
Proof.
  unfold in_int, wrap, MinInt, MaxInt.
  pose proof (Z.mod_pos_bound (z + 2 ^ 63) (2 ^ 64) ltac:(lia)). lia.
Qed.

Lemma wrap_id (z : Z) : in_int z -> wrap z = z.
Proof.
  intros Hz. unfold wrap. rewrite Z.mod_small by int_range. lia.
Qed.

Lemma Atoi_range (s : string) (z : Z) : Atoi s = (z, None) -> in_int z.
Proof.
  unfold Atoi, in_int, MinInt, MaxInt.
  destruct (sign_split s) as [neg digits].
  destruct (NilZero.uint_of_string digits) as [d|]; [|discriminate].
  assert (0 <= Z.of_uint d) by (unfold Z.of_uint; lia).
  destruct neg.
  - destruct (Z.ltb_spec (2 ^ 63) (Z.of_uint d)); [discriminate|].
    intros [= <-]. lia.
  - destruct (Z.leb_spec (2 ^ 63) (Z.of_uint d)); [discriminate|].
    intros [= <-]. lia.
Qed.

Lemma getIntVal_absent (key : string) (tx : Tx) :
  tx_db tx !! key = None -> getIntVal key tx = (0, None).
Proof. intros H. unfold getIntVal, tx_Get. rewrite H. reflexivity. Qed.

Lemma getIntVal_present (key v : string) (tx : Tx) :
  tx_db tx !! key = Some v -> getIntVal key tx = Atoi v.
Proof. intros H. unfold getIntVal, tx_Get. rewrite H. reflexivity. Qed.

Lemma getIntVal_range (key : string) (tx : Tx) (z : Z) :
  getIntVal key tx = (z, None) -> in_int z.
Proof.
  destruct (tx_db tx !! key) as [v|] eqn:Hk.
  - rewrite (getIntVal_present _ _ _ Hk). apply Atoi_range.
  - rewrite (getIntVal_absent _ _ Hk). intros [= <-]. int_range.
Qed.

(** The value read back after a decimal number was stored. *)
Lemma getIntVal_stored (key : string) (m : gmap string string) (w : bool) (z : Z) :
  in_int z -> getIntVal key (mkTx (<[key := FormatInt z]> m) w) = (z, None).
Proof.
  intros Hz. erewrite getIntVal_present.
  - apply Atoi_FormatInt, Hz.
  - cbn. apply lookup_insert_eq.
Qed.

(** getIntVal looks at its key only. *)
Lemma getIntVal_ext (key : string) (tx tx' : Tx) :
  tx_db tx !! key = tx_db tx' !! key -> getIntVal key tx = getIntVal key tx'.
Proof. intros H. unfold getIntVal, tx_Get. rewrite H. reflexivity. Qed.

Section GossipFacts.

Context `{Ext : Externals}.

(** *** incIdx *)

Lemma incIdx_appends (tx : Tx) (m : Message) (i : Z) (b : string) (f : string) :
  tx_writable tx = true ->
  getIntVal "_idx" tx = (i, None) ->
  ByteEncoder m = (b, None) ->
  Fingerprint m = (f, None) ->
  let index := FormatInt (wrap (i + 1)) in
  incIdx tx (Some m) =
    (mkTx (<["f:" +:+ Hash_String f := index]>
             (<["idx:" +:+ index := b]> (<["_idx" := index]> (tx_db tx)))) true,
     (index, None)).
Proof.
  intros Hw Hi Hb Hf index.
  unfold incIdx. rewrite Hi. fold index.
  unfold tx_Set at 1. rewrite Hw. rewrite Hb.
  unfold tx_Set. cbn [tx_writable tx_db]. rewrite Hf. reflexivity.
Qed.

(** C1, as the code has it: incIdx does not look for the fingerprint.  On a
    writable transaction whose [_idx] reads [i], with a message that encodes
    and has a fingerprint [f] (already recorded or not), incIdx returns the
    next index [i+1] (wrapped to an int) and no error, stores it under
    [_idx], stores the encoding under [idx:<i+1>], overwrites [f:<f>] with
    it, and leaves every other key as it was. *)
Theorem incIdx_duplicate_appends (tx : Tx) (m : Message) (i : Z) (b f : string) :
  tx_writable tx = true ->
  getIntVal "_idx" tx = (i, None) ->
  ByteEncoder m = (b, None) ->
  Fingerprint m = (f, None) ->
  is_Some (tx_db tx !! ("f:" +:+ Hash_String f)) ->
  let index := FormatInt (wrap (i + 1)) in
  let tx' := fst (incIdx tx (Some m)) in
  snd (incIdx tx (Some m)) = (index, None)
  /\ getIntVal "_idx" tx' = (wrap (i + 1), None)
  /\ tx_db tx' !! ("idx:" +:+ index) = Some b
  /\ tx_db tx' !! ("f:" +:+ Hash_String f) = Some index
  /\ forall k : string,
       k <> "_idx" -> k <> "idx:" +:+ index -> k <> "f:" +:+ Hash_String f ->
       tx_db tx' !! k = tx_db tx !! k.
Proof.
  intros Hw Hi Hb Hf _ index tx'. subst tx'.
  rewrite (incIdx_appends tx m i b f Hw Hi Hb Hf). fold index.
  cbn [fst snd tx_db]. repeat split.
  - erewrite getIntVal_present; [apply Atoi_FormatInt, wrap_range|].
    cbn [tx_db]. rewrite !lookup_insert_ne by discriminate.
    apply lookup_insert_eq.
  - rewrite lookup_insert_ne by discriminate. apply lookup_insert_eq.
  - apply lookup_insert_eq.
  - intros k H1 H2 H3. rewrite !lookup_insert_ne by congruence. reflexivity.
Qed.

(** *** The peer cursor table *)

Lemma GetGossiper_eq (d : DHT) (p : string) :
  GetGossiper d p = (d, getIntVal ("peer:" +:+ IDB58Encode p) (mkTx (db d) false)).
Proof.
  unfold GetGossiper, View.
  destruct (getIntVal _ _) as [idx [e|]]; reflexivity.
Qed.

Lemma UpdateGossiper_eq (d : DHT) (p : string) (n c : Z) :
  snd (GetGossiper d p) = (c, None) ->
  UpdateGossiper d p n =
    (set_db (Logf d (LogUpdating p n))
       (if n <? c then db d else <["peer:" +:+ IDB58Encode p := FormatInt n]> (db d)),
     None).
Proof.
  rewrite GetGossiper_eq. cbn [snd]. intros Hc.
  unfold UpdateGossiper, Update, UpdateGossiper_tx.
  rewrite (getIntVal_ext _ (mkTx (db (Logf d (LogUpdating p n))) true) (mkTx (db d) false))
    by reflexivity.
  rewrite Hc. destruct (n <? c); reflexivity.
Qed.

Lemma cursor_after_update (d : DHT) (p : string) (n c : Z) :
  in_int n ->
  snd (GetGossiper d p) = (c, None) ->
  snd (GetGossiper (fst (UpdateGossiper d p n)) p) = (Z.max c n, None).
Proof.
  intros Hn Hc. rewrite (UpdateGossiper_eq d p n c Hc). cbn [fst].
  rewrite GetGossiper_eq. cbn [snd set_db db].
  rewrite GetGossiper_eq in Hc. cbn [snd] in Hc.
  destruct (Z.ltb_spec n c).
  - rewrite Hc. f_equal. lia.
  - rewrite getIntVal_stored by exact Hn. f_equal. lia.
Qed.

(** C4, as the code has it: when the cursor of [p] reads [c] (0 for an
    unknown peer) and [y < x], UpdateGossiper with [x] and then with [y]
    returns no error twice and leaves the cursor at the larger of [c] and
    [x], so at [x] exactly when [x] is not below [c]; the second call does
    not change the store. *)
Theorem UpdateGossiper_lower_ignored (d : DHT) (p : string) (x y c : Z) :
  in_int x ->
  y < x ->
  snd (GetGossiper d p) = (c, None) ->
  let d1 := fst (UpdateGossiper d p x) in
  let d2 := fst (UpdateGossiper d1 p y) in
  snd (UpdateGossiper d p x) = None
  /\ snd (UpdateGossiper d1 p y) = None
  /\ db d2 = db d1
  /\ snd (GetGossiper d2 p) = (Z.max c x, None)
  /\ (c <= x -> snd (GetGossiper d2 p) = (x, None)).
Proof.
  intros Hx Hy Hc d1 d2.
  pose proof (cursor_after_update d p x c Hx Hc) as H1. fold d1 in H1.
  pose proof (UpdateGossiper_eq d1 p y (Z.max c x) H1) as H2.
  assert (Hd2 : db d2 = db d1).
  { subst d2. rewrite H2. cbn [fst set_db db].
    destruct (Z.ltb_spec y (Z.max c x)); [reflexivity | lia]. }
  assert (Hcur : snd (GetGossiper d2 p) = (Z.max c x, None)).
  { rewrite GetGossiper_eq. cbn [snd]. rewrite Hd2.
    rewrite GetGossiper_eq in H1. exact H1. }
  repeat split.
  - rewrite (UpdateGossiper_eq d p x c Hc). reflexivity.
  - rewrite H2. reflexivity.
  - exact Hd2.
  - exact Hcur.
  - intros Hcx. rewrite Hcur. f_equal. lia.
Qed.

(** C9: for a peer without a [peer:] key GetGossiper returns 0 and no
    error, and it leaves the DHT, the store included, exactly as it was: the
    key is still absent afterwards. *)
Theorem GetGossiper_unknown_not_added (d : DHT) (p : string) :
  db d !! ("peer:" +:+ IDB58Encode p) = None ->
  GetGossiper d p = (d, (0, None))
  /\ db (fst (GetGossiper d p)) !! ("peer:" +:+ IDB58Encode p) = None.
Proof.
  intros H. rewrite GetGossiper_eq. rewrite getIntVal_absent by exact H.
  split; [reflexivity | exact H].
Qed.

(** *** Reading a message of the log *)

(** C10: when the value under [idx:<i>] is there and ByteDecoder fails on
    it with an error [e], GetIdxMessage returns what ByteDecoder left in the
    message together with a nil error. *)
Theorem GetIdxMessage_decode_error_dropped (d : DHT) (i : Z) (v : string)
    (m : Message) (e : error) :
  db d !! ("idx:" +:+ FormatInt i) = Some v ->
  ByteDecoder v zeroMessage = (m, Some e) ->
  GetIdxMessage d i = (m, None).
Proof.
  intros Hv Hm. unfold GetIdxMessage, View, tx_Get. cbn [tx_db].
  rewrite Hv. cbn [is_err]. rewrite Hm. reflexivity.
Qed.

(** *** Scanning the log *)

Lemma Split_nonempty (s : string) (sep : ascii) : Split s sep <> [].
Proof.
  induction s as [|c rest IH]; cbn; [discriminate|].
  destruct (Ascii.eqb c sep); [discriminate|].
  destruct (Split rest sep); [contradiction | discriminate].
Qed.

Lemma prefix_append (p s : string) :
  String.prefix p s = true -> exists rest, s = p +:+ rest.
Proof.
  revert s. induction p as [|a p IH]; intros s H.
  - exists s. reflexivity.
  - destruct s as [|b s]; [discriminate|].
    cbn -[ascii_dec] in H. destruct (ascii_dec a b) as [->|]; [|discriminate].
    destruct (IH s H) as [rest ->]. exists rest. reflexivity.
Qed.

(** A key of the index [idx] has a second field. *)
Lemma Split_idx_key (key : string) :
  String.prefix "idx:" key = true -> is_Some (Split key ":" !! 1%nat).
Proof.
  intros H. destruct (prefix_append _ _ H) as [rest ->].
  change ("idx:" +:+ rest) with (String "i" (String "d" (String "x" (String ":" rest)))).
  cbn. pose proof (Split_nonempty rest ":") as Hne.
  destruct (Split rest ":") as [|h t]; [contradiction|].
  exists h. reflexivity.
Qed.

Lemma index_items_prefix (tx : Tx) (name pre pivot k v : string) :
  (k, v) ∈ index_items tx name pre pivot -> String.prefix pre k = true.
Proof.
  unfold index_items. intros H.
  apply list_elem_of_filter in H as [_ H].
  rewrite merge_sort_Permutation in H.
  apply list_elem_of_filter in H as [H _].
  cbn in H. apply Is_true_true in H. exact H.
Qed.

(** An invariant of the captured variables that every call of the callback
    keeps, holds at the end of the scan, and the scan does not panic when
    the callback does not. *)
Lemma iterate_invariant {A : Type} (P : A -> Prop)
    (cb : string -> string -> A -> outcome (A * bool))
    (items : list (string * string)) (acc : A) :
  P acc ->
  (forall k v a, (k, v) ∈ items -> P a ->
     exists a' b, cb k v a = Returned (a', b) /\ P a') ->
  exists a', iterate cb items acc = Returned a' /\ P a'.
Proof.
  revert acc. induction items as [|[k v] rest IH]; intros acc Hacc Hcb.
  - exists acc. split; [reflexivity | exact Hacc].
  - destruct (Hcb k v acc ltac:(left) Hacc) as (a' & b & Hk & Ha').
    cbn. rewrite Hk. destruct b.
    + apply IH; [exact Ha'|].
      intros k' v' a Hin. apply Hcb. right. exact Hin.
    + exists a'. split; [reflexivity | exact Ha'].
Qed.

Lemma GetPuts_cb_since (since : Z) (key value : string) (puts : list Put) :
  is_Some (Split key ":" !! 1%nat) ->
  Forall (fun p => since <= Put_idx p) puts ->
  exists puts' b,
    GetPuts_cb since key value puts = Returned (puts', b)
    /\ Forall (fun p => since <= Put_idx p) puts'.
Proof.
  intros [x1 Hx1] Hputs. unfold GetPuts_cb. rewrite Hx1.
  destruct (Atoi x1) as [idx o].
  destruct (Z.leb_spec since idx) as [Hle|Hlt].
  - destruct (negb (String.eqb value EmptyString)).
    + destruct (ByteDecoder value _) as [m [e|]]; cbn [Put_M Put_idx].
      * eauto.
      * eexists _, _. split; [reflexivity|].
        apply Forall_app. split; [exact Hputs|]. repeat constructor. exact Hle.
    + eexists _, _. split; [reflexivity|].
      apply Forall_app. split; [exact Hputs|]. repeat constructor. exact Hle.
  - eauto.
Qed.

(** GetPuts returns, with a nil error, the sorted list of what the scan
    collected, all of it at or after [since]. *)
Lemma GetPuts_returns (d : DHT) (since : Z) :
  exists puts,
    GetPuts d since = Returned (sort_puts puts, None)
    /\ Forall (fun p => since <= Put_idx p) puts.
Proof.
  unfold GetPuts, View, AscendGreaterOrEqual. cbn [index_prefix String.eqb Ascii.eqb Bool.eqb].
  destruct (iterate_invariant (Forall (fun p => since <= Put_idx p))
              (GetPuts_cb since)
              (index_items (mkTx (db d) false) "idx" "idx:" (string_of_rune since)) [])
    as (puts & Hit & Hputs).
  - constructor.
  - intros k v a Hin Ha. apply GetPuts_cb_since; [|exact Ha].
    apply Split_idx_key. eapply index_items_prefix. exact Hin.
  - exists puts. rewrite Hit. split; [reflexivity | exact Hputs].
Qed.

#[local] Instance idx_le_trans : Transitive idx_le.
Proof. intros p q r. unfold idx_le. lia. Qed.

#[local] Instance idx_le_total : Total idx_le.
Proof. intros p q. unfold idx_le. lia. Qed.

(** C2: GetPuts returns, for every store and every [s], a list in ascending
    order of [idx] whose elements all have [idx >= s]; on the empty store it
    returns the empty list. *)
Theorem GetPuts_ascending_since (d : DHT) (s : Z) :
  (exists puts,
      GetPuts d s = Returned (puts, None)
      /\ StronglySorted idx_le puts
      /\ Forall (fun p => s <= Put_idx p) puts)
  /\ GetPuts (set_db d ∅) s = Returned ([], None).
Proof.
  split.
  - destruct (GetPuts_returns d s) as (puts & Hget & Hall).
    exists (sort_puts puts). split; [exact Hget|]. split.
    + apply StronglySorted_merge_sort; apply _.
    + unfold sort_puts. rewrite merge_sort_Permutation. exact Hall.
  - unfold GetPuts, View, AscendGreaterOrEqual, index_items.
    cbn [index_prefix String.eqb Ascii.eqb Bool.eqb set_db db tx_db].
    rewrite map_to_list_empty. reflexivity.
Qed.

(** *** Gossip *)

Lemma apply_put_fields (d : DHT) (idx : Z) (p : Put) :
  gossips (apply_put d idx p) = gossips d
  /\ gchan (apply_put d idx p) = gchan d
  /\ net (apply_put d idx p) = net d.
Proof.
  unfold apply_put.
  destruct (Fingerprint (Put_M p)) as [f [e|]]; [repeat split|].
  destruct (HaveFingerprint _ f) as [ex e].
  destruct (negb ex && is_nil e).
  - destruct (ActionReceiver _ _) as [db' [r e']]. repeat split.
  - destruct e; repeat split.
Qed.

Lemma run_puts_fields (puts : list Put) (d : DHT) (yourIdx i idx0 : Z) :
  gossips (fst (run_puts d yourIdx i idx0 puts)) = gossips d
  /\ gchan (fst (run_puts d yourIdx i idx0 puts)) = gchan d
  /\ net (fst (run_puts d yourIdx i idx0 puts)) = net d.
Proof.
  revert d i idx0. induction puts as [|p rest IH]; intros d i idx0; cbn [run_puts].
  - repeat split.
  - destruct (IH (apply_put d (wrap (wrap (i + yourIdx) + 1)) p) (i + 1)
                (wrap (wrap (i + yourIdx) + 1))) as (H1 & H2 & H3).
    destruct (apply_put_fields d (wrap (wrap (i + yourIdx) + 1)) p) as (H4 & H5 & H6).
    rewrite H1, H2, H3, H4, H5, H6. repeat split.
Qed.

Lemma UpdateGossiper_fields (d : DHT) (p : string) (n : Z) :
  gossips (fst (UpdateGossiper d p n)) = gossips d
  /\ gchan (fst (UpdateGossiper d p n)) = gchan d
  /\ net (fst (UpdateGossiper d p n)) = net d.
Proof.
  unfold UpdateGossiper. destruct (Update _ _) as [db' [u e]]. repeat split.
Qed.

(** The store is all that the loop over the puts reads. *)
Lemma HaveFingerprint_db (d1 d2 : DHT) (f : Hash) :
  db d1 = db d2 -> HaveFingerprint d1 f = HaveFingerprint d2 f.
Proof.
  intros H. unfold HaveFingerprint, GetFingerprint. rewrite H. reflexivity.
Qed.

Lemma apply_put_db (d1 d2 : DHT) (idx : Z) (p : Put) :
  db d1 = db d2 -> db (apply_put d1 idx p) = db (apply_put d2 idx p).
Proof.
  intros H. unfold apply_put.
  destruct (Fingerprint (Put_M p)) as [f [e|]]; [exact H|].
  rewrite (HaveFingerprint_db (Logf d1 (LogPutFingerprint idx f))
             (Logf d2 (LogPutFingerprint idx f)) f) by exact H.
  destruct (HaveFingerprint _ f) as [ex e].
  destruct (negb ex && is_nil e).
  - cbn [db Logf]. rewrite H.
    destruct (ActionReceiver _ _) as [db' [r e']]. reflexivity.
  - destruct e; exact H.
Qed.

Lemma run_puts_db (puts : list Put) (d1 d2 : DHT) (yourIdx i idx0 : Z) :
  db d1 = db d2 ->
  db (fst (run_puts d1 yourIdx i idx0 puts)) = db (fst (run_puts d2 yourIdx i idx0 puts))
  /\ snd (run_puts d1 yourIdx i idx0 puts) = snd (run_puts d2 yourIdx i idx0 puts).
Proof.
  revert d1 d2 i idx0.
  induction puts as [|p rest IH]; intros d1 d2 i idx0 H; cbn [run_puts fst snd].
  - split; [exact H | reflexivity].
  - apply IH. apply apply_put_db. exact H.
Qed.

Lemma UpdateGossiper_db (d1 d2 : DHT) (p : string) (n : Z) :
  db d1 = db d2 ->
  db (fst (UpdateGossiper d1 p n)) = db (fst (UpdateGossiper d2 p n))
  /\ snd (UpdateGossiper d1 p n) = snd (UpdateGossiper d2 p n).
Proof.
  intros H. unfold UpdateGossiper. cbn [db Logf]. rewrite H.
  destruct (Update _ _) as [db' [u e]]. split; reflexivity.
Qed.

Lemma run_puts_same (puts : list Put) (d1 d2 : DHT) (yourIdx i idx0 : Z) :
  same_but_log d1 d2 ->
  same_but_log (fst (run_puts d1 yourIdx i idx0 puts)) (fst (run_puts d2 yourIdx i idx0 puts))
  /\ snd (run_puts d1 yourIdx i idx0 puts) = snd (run_puts d2 yourIdx i idx0 puts).
Proof.
  intros (H1 & H2 & H3 & H4).
  destruct (run_puts_db puts d1 d2 yourIdx i idx0 H1) as [Hd Hs].
  destruct (run_puts_fields puts d1 yourIdx i idx0) as (A1 & A2 & A3).
  destruct (run_puts_fields puts d2 yourIdx i idx0) as (B1 & B2 & B3).
  split; [|exact Hs]. unfold same_but_log.
  rewrite Hd, A1, A2, A3, B1, B2, B3. repeat split; assumption.
Qed.

Lemma UpdateGossiper_same (d1 d2 : DHT) (p : string) (n : Z) :
  same_but_log d1 d2 ->
  same_but_log (fst (UpdateGossiper d1 p n)) (fst (UpdateGossiper d2 p n))
  /\ snd (UpdateGossiper d1 p n) = snd (UpdateGossiper d2 p n).
Proof.
  intros (H1 & H2 & H3 & H4).
  destruct (UpdateGossiper_db d1 d2 p n H1) as [Hd Hs].
  destruct (UpdateGossiper_fields d1 p n) as (A1 & A2 & A3).
  destruct (UpdateGossiper_fields d2 p n) as (B1 & B2 & B3).
  split; [|exact Hs]. unfold same_but_log.
  rewrite Hd, A1, A2, A3, B1, B2, B3. repeat split; assumption.
Qed.

(** With the marker of [id] set, what happens while Send blocks is run on a
    DHT that has the marker. *)
Lemma gossipWith_marked_during_guard (during : DHT -> DHT) (d : DHT) (id : string)
    (b : bool) :
  gossips d !! id = Some b ->
  gossipWith_marked_during during d id =
    gossipWith_marked_during
      (fun d' => match gossips d' !! id with
                 | Some _ => during d'
                 | None => d'
                 end) d id.
Proof.
  intros Hb. unfold gossipWith_marked_during.
  destruct (GetIdx d) as [myIdx [e|]]; [reflexivity|].
  rewrite GetGossiper_eq.
  destruct (getIntVal _ _) as [yourIdx [e|]]; [reflexivity|].
  cbn [gossips net_send]. rewrite Hb. reflexivity.
Qed.

(** What happens while Send blocks, when it changes the log at most, shows
    in the log at most. *)
Lemma gossipWith_marked_during_same (during : DHT -> DHT) (d : DHT) (id : string) :
  (forall d', is_Some (gossips d' !! id) -> same_but_log (during d') d') ->
  is_Some (gossips d !! id) ->
  same_but_log (fst (gossipWith_marked_during during d id)) (fst (gossipWith_marked d id))
  /\ snd (gossipWith_marked_during during d id) = snd (gossipWith_marked d id).
Proof.
  intros Hduring Hb. unfold gossipWith_marked_during, gossipWith_marked.
  destruct (GetIdx d) as [myIdx [e|]]; [repeat split|].
  rewrite GetGossiper_eq.
  destruct (getIntVal _ _) as [yourIdx [e|]]; [repeat split|].
  match goal with
  | |- context [during ?d0] => pose proof (Hduring d0 Hb) as Hs; set (d1 := d0) in *
  end.
  destruct (Send _ _ _) as [r [e|]]; [split; [exact Hs | reflexivity]|].
  destruct r as [|g|x]; try (split; [exact Hs | reflexivity]).
  destruct (0 <? _); [|split; [exact Hs | reflexivity]].
  match goal with
  | |- context [run_puts ?a ?y ?i ?k ?ps] =>
      match goal with
      | |- context [run_puts ?b y i k ps] =>
          lazymatch a with
          | b => fail
          | _ => destruct (run_puts_same ps a b y i k Hs) as [Hr1 Hr2];
                 destruct (run_puts a y i k ps) as [da ka];
                 destruct (run_puts b y i k ps) as [db_ kb]
          end
      end
  end.
  cbn [fst snd] in Hr1, Hr2. subst kb.
  destruct (UpdateGossiper_same da db_ id ka Hr1) as [Hu1 Hu2].
  destruct (UpdateGossiper da id ka) as [da' ea].
  destruct (UpdateGossiper db_ id ka) as [db' eb].
  cbn [fst snd] in *. subst eb. split; [exact Hu1 | reflexivity].
Qed.

(** C5: while the marker of [id] is set, gossipWith writes its first log
    line and returns nil: nothing is handed to the transport, and the
    store, the markers and the channel stay as they are.  gossipWith holds
    the marker while its Send blocks: whatever happens in that time happens
    on a DHT with the marker set.  So a second gossipWith for the same peer,
    called when the marker is free and the first call is blocked in Send,
    changes neither what the first call returns nor the store, the markers,
    the channel or what is handed to the transport: one request is sent, not
    two.  The marker is gone when gossipWith has returned, however it
    ended. *)
Theorem gossipWith_in_flight (d : DHT) (id : string) :
  (is_Some (gossips d !! id) ->
     gossipWith d id = (Logf d (LogWith id), Returned None)
     /\ net (fst (gossipWith d id)) = net d
     /\ db (fst (gossipWith d id)) = db d
     /\ gossips (fst (gossipWith d id)) = gossips d
     /\ gchan (fst (gossipWith d id)) = gchan d)
  /\ (gossips d !! id = None ->
     let dm := set_gossips (Logf d (LogWith id)) (<[id := true]> (gossips d)) in
     gossipWith d id =
       (set_gossips (fst (gossipWith_marked dm id))
          (delete id (gossips (fst (gossipWith_marked dm id)))),
        snd (gossipWith_marked dm id))
     /\ gossipWith dm id = (Logf dm (LogWith id), Returned None)
     /\ gossips (fst (gossipWith d id)) !! id = None)
  /\ gossipWith_during (fun d' => d') d id = gossipWith d id
  /\ (forall during : DHT -> DHT,
       gossipWith_during during d id =
         gossipWith_during
           (fun d' => match gossips d' !! id with
                      | Some _ => during d'
                      | None => d'
                      end) d id)
  /\ (gossips d !! id = None ->
     let twice := gossipWith_during (fun d' => fst (gossipWith d' id)) d id in
     snd twice = snd (gossipWith d id)
     /\ same_but_log (fst twice) (fst (gossipWith d id))
     /\ gossips (fst twice) !! id = None).
Proof.
  assert (Hset : forall d0 : DHT, is_Some (gossips d0 !! id) ->
                   gossipWith d0 id = (Logf d0 (LogWith id), Returned None)).
  { intros d0 [b Hb]. unfold gossipWith. cbn [gossips Logf]. rewrite Hb. reflexivity. }
  split; [|split; [|split; [|split]]].
  - intros Hb. rewrite (Hset d Hb). repeat split.
  - intros Hn dm.
    assert (H : gossipWith d id =
                  (set_gossips (fst (gossipWith_marked dm id))
                     (delete id (gossips (fst (gossipWith_marked dm id)))),
                   snd (gossipWith_marked dm id))).
    { unfold gossipWith. cbn [gossips Logf]. rewrite Hn. fold dm.
      destruct (gossipWith_marked dm id) as [d' r]. reflexivity. }
    split; [exact H|]. split.
    + unfold gossipWith. cbn [gossips Logf set_gossips dm].
      rewrite lookup_insert_eq. reflexivity.
    + rewrite H. cbn [fst gossips set_gossips]. apply lookup_delete_eq.
  - reflexivity.
  - intros during. unfold gossipWith_during. cbn [gossips Logf].
    destruct (gossips d !! id) as [b|] eqn:Hid; [reflexivity|].
    rewrite (gossipWith_marked_during_guard during _ id true)
      by (cbn [gossips set_gossips]; apply lookup_insert_eq).
    reflexivity.
  - intros Hn twice. subst twice.
    set (dm := set_gossips (Logf d (LogWith id)) (<[id := true]> (gossips d))).
    assert (Hg : gossipWith d id =
                   (set_gossips (fst (gossipWith_marked dm id))
                      (delete id (gossips (fst (gossipWith_marked dm id)))),
                    snd (gossipWith_marked dm id))).
    { unfold gossipWith. cbn [gossips Logf]. rewrite Hn. fold dm.
      destruct (gossipWith_marked dm id) as [d' r]. reflexivity. }
    rewrite Hg. unfold gossipWith_during. cbn [gossips Logf]. rewrite Hn. fold dm.
    assert (Hm : is_Some (gossips dm !! id)).
    { exists true. cbn [dm gossips set_gossips]. apply lookup_insert_eq. }
    destruct (gossipWith_marked_during_same (fun d' => fst (gossipWith d' id)) dm id)
      as [(H1 & H2 & H3 & H4) Hr].
    { intros d' Hd'. cbn beta. rewrite (Hset d' Hd'). repeat split. }
    { exact Hm. }
    destruct (gossipWith_marked_during _ dm id) as [da ra].
    destruct (gossipWith_marked dm id) as [db_ rb].
    cbn [fst snd] in *. subst rb.
    split; [reflexivity|]. split.
    + unfold same_but_log. cbn [db gossips gchan net set_gossips].
      rewrite H1, H2, H3, H4. repeat split.
    + cbn [gossips set_gossips]. apply lookup_delete_eq.
Qed.

Lemma length_neq_snoc {A : Type} (l : list A) (x : A) : l <> (l ++ [x])%list.
Proof.
  intros H. apply (f_equal length) in H. rewrite length_app in H. cbn in H. lia.
Qed.

(** C6: a GOSSIP_REQUEST with body [{MyIdx, YourIdx}] is answered with the
    puts GetPuts returns for [YourIdx], and a request to gossip with the
    sender is put on the channel exactly when GetGossiper gives, without
    error, a cursor for the sender that is below [MyIdx]; otherwise the
    channel stays as it is. *)
Theorem GossipReceiver_request (d : DHT) (m : Message) (t : GossipReq) :
  Type_ m = GOSSIP_REQUEST ->
  Body m = BodyGossipReq t ->
  exists (puts : list Put) (d' : DHT),
    GetPuts d (YourIdx t) = Returned (puts, None)
    /\ GossipReceiver d m = Returned (d', (RespGossip (mkGossip puts), None))
    /\ db d' = db d
    /\ ((exists cur, snd (GetGossiper d (From m)) = (cur, None) /\ cur < MyIdx t)
        <-> gchan d' = (gchan d ++ [mkGossipWithReq (From m)])%list)
    /\ (~ (exists cur, snd (GetGossiper d (From m)) = (cur, None) /\ cur < MyIdx t)
        -> gchan d' = gchan d).
Proof.
  intros Hty Hbody.
  destruct (GetPuts_returns d (YourIdx t)) as (raw & Hget & _).
  exists (sort_puts raw).
  unfold GossipReceiver. rewrite Hty, Z.eqb_refl, Hbody.
  change (GetPuts (Logf (Logf d (LogGotRequest m)) (LogWants (From m) (YourIdx t) (MyIdx t)))
            (YourIdx t)) with (GetPuts d (YourIdx t)).
  rewrite Hget. rewrite !GetGossiper_eq. cbn [snd db Logf].
  destruct (getIntVal ("peer:" +:+ IDB58Encode (From m)) (mkTx (db d) false))
    as [cur [e|]]; cbn [is_nil andb].
  - eexists. split; [reflexivity|]. split; [reflexivity|]. split; [reflexivity|].
    cbn [gchan]. split; [split|].
    + intros (c & Hc & _). discriminate.
    + intros H. exfalso. exact (length_neq_snoc _ _ H).
    + reflexivity.
  - destruct (Z.ltb_spec cur (MyIdx t)) as [Hlt|Hge].
    + eexists. split; [reflexivity|]. split; [reflexivity|]. split.
      { destruct (_ =? 0); reflexivity. }
      split; [split|].
      * intros _. destruct (_ =? 0); reflexivity.
      * intros _. exists cur. split; [reflexivity | exact Hlt].
      * intros H. exfalso. apply H. exists cur. split; [reflexivity | exact Hlt].
    + eexists. split; [reflexivity|]. split; [reflexivity|]. split; [reflexivity|].
      cbn [gchan]. split; [split|].
      * intros (c & [= <-] & Hc). lia.
      * intros H. exfalso. exact (length_neq_snoc _ _ H).
      * reflexivity.
Qed.

Lemma inspections_Logf (d : DHT) (ev : LogEvent) :
  inspections (glog (Logf d ev)) =
    (inspections (glog d) + (if looked_at ev then 1 else 0))%nat.
Proof.
  unfold inspections. cbn [glog Logf]. rewrite filter_app, length_app.
  f_equal. rewrite filter_cons. destruct (looked_at ev); cbn; reflexivity.
Qed.

(** What one turn of the loop does, when the action receiver leaves the key
    [key] alone: that key keeps its value, and the log shows one more put
    looked at, whether or not the put could be applied. *)
Lemma apply_put_frame (key : string) (d : DHT) (idx : Z) (p : Put) :
  (forall s m, fst (ActionReceiver s m) !! key = s !! key) ->
  db (apply_put d idx p) !! key = db d !! key
  /\ inspections (glog (apply_put d idx p)) = S (inspections (glog d)).
Proof.
  intros Hframe. unfold apply_put.
  destruct (Fingerprint (Put_M p)) as [f [e|]].
  - rewrite inspections_Logf. cbn [looked_at]. split; [reflexivity | lia].
  - destruct (HaveFingerprint _ f) as [ex e].
    destruct (negb ex && is_nil e).
    + cbn [db Logf].
      pose proof (Hframe (db d) (Put_M p)) as Hk.
      destruct (ActionReceiver (db d) (Put_M p)) as [db' [r e']].
      cbn [fst] in Hk. rewrite inspections_Logf. cbn [glog set_db looked_at].
      split; [exact Hk|].
      rewrite !inspections_Logf. cbn [looked_at]. lia.
    + destruct e; rewrite !inspections_Logf; cbn [looked_at]; split;
        (reflexivity || lia).
Qed.

Lemma run_puts_frame (key : string) (puts : list Put) (d : DHT) (yourIdx i idx0 : Z) :
  (forall s m, fst (ActionReceiver s m) !! key = s !! key) ->
  db (fst (run_puts d yourIdx i idx0 puts)) !! key = db d !! key
  /\ inspections (glog (fst (run_puts d yourIdx i idx0 puts))) =
       (inspections (glog d) + length puts)%nat.
Proof.
  intros Hframe. revert d i idx0.
  induction puts as [|p rest IH]; intros d i idx0; cbn [run_puts fst length].
  - split; [reflexivity | lia].
  - destruct (IH (apply_put d (wrap (wrap (i + yourIdx) + 1)) p) (i + 1)
                (wrap (wrap (i + yourIdx) + 1))) as [H1 H2].
    destruct (apply_put_frame key d (wrap (wrap (i + yourIdx) + 1)) p Hframe) as [H3 H4].
    rewrite H1, H2, H3, H4. split; [reflexivity | lia].
Qed.

(** The value of [idx] after the loop is the position of the last put. *)
Lemma run_puts_idx (puts : list Put) (d : DHT) (yourIdx i idx0 : Z) :
  puts <> [] ->
  0 <= i ->
  in_int yourIdx ->
  yourIdx + i + Z.of_nat (length puts) <= MaxInt ->
  snd (run_puts d yourIdx i idx0 puts) = yourIdx + i + Z.of_nat (length puts).
Proof.
  revert d i idx0. induction puts as [|p rest IH]; intros d i idx0 Hne Hi Hy Hmax.
  - contradiction.
  - cbn [run_puts]. cbn [length] in Hmax.
    assert (Hw : wrap (wrap (i + yourIdx) + 1) = yourIdx + i + 1).
    { rewrite (wrap_id (i + yourIdx)) by int_range.
      rewrite wrap_id by int_range. lia. }
    rewrite Hw. destruct rest as [|q rest'].
    + cbn. lia.
    + rewrite IH; [cbn [length]; lia | discriminate | lia | exact Hy | cbn [length] in *; lia].
Qed.

(** The log only grows, and every turn of the loop shows in it as one more
    put looked at, whatever the action receiver does. *)
Lemma apply_put_glog (d : DHT) (idx : Z) (p : Put) (ev : LogEvent) :
  ev ∈ glog d -> ev ∈ glog (apply_put d idx p).
Proof.
  intros H. unfold apply_put.
  destruct (Fingerprint (Put_M p)) as [f [e|]]; [cbn [glog Logf]; set_solver|].
  destruct (HaveFingerprint _ f) as [ex e].
  destruct (negb ex && is_nil e).
  - destruct (ActionReceiver _ _) as [db' [r e']]. cbn [glog Logf set_db]. set_solver.
  - destruct e; cbn [glog Logf]; set_solver.
Qed.

Lemma run_puts_glog (puts : list Put) (d : DHT) (yourIdx i idx0 : Z) (ev : LogEvent) :
  ev ∈ glog d -> ev ∈ glog (fst (run_puts d yourIdx i idx0 puts)).
Proof.
  revert d i idx0. induction puts as [|p rest IH]; intros d i idx0 H; cbn [run_puts].
  - exact H.
  - apply IH, apply_put_glog, H.
Qed.

Lemma UpdateGossiper_glog (d : DHT) (p : string) (n : Z) :
  glog (fst (UpdateGossiper d p n)) = glog (Logf d (LogUpdating p n)).
Proof.
  unfold UpdateGossiper. destruct (Update _ _) as [db' [u e]]. reflexivity.
Qed.

Lemma apply_put_inspections (d : DHT) (idx : Z) (p : Put) :
  inspections (glog (apply_put d idx p)) = S (inspections (glog d)).
Proof.
  unfold apply_put.
  destruct (Fingerprint (Put_M p)) as [f [e|]].
  - rewrite inspections_Logf. cbn [looked_at]. lia.
  - destruct (HaveFingerprint _ f) as [ex e].
    destruct (negb ex && is_nil e).
    + destruct (ActionReceiver _ _) as [db' [r e']].
      rewrite inspections_Logf. cbn [glog set_db looked_at].
      rewrite !inspections_Logf. cbn [looked_at]. lia.
    + destruct e; rewrite !inspections_Logf; cbn [looked_at]; lia.
Qed.

Lemma run_puts_inspections (puts : list Put) (d : DHT) (yourIdx i idx0 : Z) :
  inspections (glog (fst (run_puts d yourIdx i idx0 puts))) =
    (inspections (glog d) + length puts)%nat.
Proof.
  revert d i idx0. induction puts as [|p rest IH]; intros d i idx0; cbn [run_puts length].
  - cbn [fst]. lia.
  - rewrite IH, apply_put_inspections. lia.
Qed.

(** The loop over a list in two parts. *)
Lemma run_puts_app (l1 l2 : list Put) (d : DHT) (yourIdx i idx0 : Z) :
  run_puts d yourIdx i idx0 (l1 ++ l2) =
    run_puts (fst (run_puts d yourIdx i idx0 l1)) yourIdx (i + Z.of_nat (length l1))
      (snd (run_puts d yourIdx i idx0 l1)) l2.
Proof.
  revert d i idx0. induction l1 as [|p rest IH]; intros d i idx0.
  - cbn [app run_puts fst snd length]. rewrite Z.add_0_r. reflexivity.
  - cbn [app run_puts length]. rewrite IH. f_equal. lia.
Qed.

(** The value of [idx] after the loop, overflow included. *)
Lemma run_puts_last (puts : list Put) (d : DHT) (yourIdx i idx0 : Z) :
  puts <> [] ->
  snd (run_puts d yourIdx i idx0 puts) =
    wrap (wrap (i + Z.of_nat (length puts) - 1 + yourIdx) + 1).
Proof.
  revert d i idx0. induction puts as [|p rest IH]; intros d i idx0 Hne.
  - contradiction.
  - cbn [run_puts]. destruct rest as [|q rest'].
    + cbn [run_puts snd length]. do 3 f_equal. lia.
    + rewrite IH by discriminate. do 3 f_equal. cbn [length]. lia.
Qed.

(** One turn of the loop does what [put_logged] says, and what it says
    holds of any later log and of DHTs with the same stores. *)
Lemma apply_put_logged (d : DHT) (idx : Z) (p : Put) :
  put_logged (glog (apply_put d idx p)) d (apply_put d idx p) idx p.
Proof.
  unfold put_logged, apply_put.
  destruct (Fingerprint (Put_M p)) as [f [e|]].
  - split; [cbn [glog Logf]; set_solver | reflexivity].
  - rewrite (HaveFingerprint_db (Logf d (LogPutFingerprint idx f)) d f eq_refl).
    destruct (HaveFingerprint d f) as [[|] [e|]]; cbn [negb andb is_nil].
    + split; [|split]; [cbn [glog Logf]; set_solver .. | reflexivity].
    + split; [|split]; [cbn [glog Logf]; set_solver .. | reflexivity].
    + split; [|split]; [cbn [glog Logf]; set_solver .. | reflexivity].
    + cbn [db Logf].
      destruct (ActionReceiver (db d) (Put_M p)) as [db' [r e']].
      cbn [fst snd glog Logf set_db db].
      split; [|split; [|split]]; [set_solver .. | reflexivity].
Qed.

Lemma put_logged_later (log log' : list LogEvent) (b a b' a' : DHT) (idx : Z) (p : Put) :
  (forall ev, ev ∈ log -> ev ∈ log') ->
  db b = db b' ->
  db a = db a' ->
  put_logged log b a idx p -> put_logged log' b' a' idx p.
Proof.
  intros Hl Hb Ha. unfold put_logged.
  destruct (Fingerprint (Put_M p)) as [f [e|]].
  - intros [H1 H2]. split; [apply Hl, H1 | congruence].
  - rewrite (HaveFingerprint_db b b' f Hb). rewrite Hb, Ha.
    destruct (HaveFingerprint b' f) as [[|] [e|]]; intuition auto.
Qed.

(** C7, as the code has it: when the peer answers with a non-empty batch,
    every put of the batch has its turn, whatever happened to the puts
    before it.  In its turn a put whose fingerprint cannot be computed
    leaves the line of that error in the log and the store as it was; a put
    with a fingerprint leaves the line with its position and fingerprint,
    and then, when HaveFingerprint fails, the line of that error, when the
    fingerprint is known, the line that it is, and otherwise the line of the
    call of the action receiver and the line with what the receiver
    returned, its error included, the store being the one the receiver left.
    So the log shows [len(puts)] more puts looked at.  The error gossipWith
    returns is that of the one UpdateGossiper after the loop, which is
    called with the position of the last put, [yourIdx + len(puts)] as an
    int: when the cursor of the peer can be read after the loop, gossipWith
    returns nil and the cursor becomes the larger of the two.  When
    [yourIdx + len(puts)] is an int and the action receiver does not write
    the cursor of the peer, the cursor becomes [yourIdx + len(puts)]. *)
Theorem gossipWith_batch (d : DHT) (id : string) (myIdx yourIdx : Z) (puts : list Put) :
  gossips d !! id = None ->
  GetIdx d = (myIdx, None) ->
  snd (GetGossiper d id) = (yourIdx, None) ->
  Send id GOSSIP_REQUEST (mkGossipReq myIdx (wrap (yourIdx + 1)))
    = (RespGossip (mkGossip puts), None) ->
  puts <> [] ->
  let d' := fst (gossipWith d id) in
  let ran := fst (run_puts d yourIdx 0 0 puts) in
  let last := wrap (wrap (Z.of_nat (length puts) - 1 + yourIdx) + 1) in
  (forall (pre : list Put) (p : Put) (post : list Put),
      puts = (pre ++ p :: post)%list ->
      put_logged (glog d')
        (fst (run_puts d yourIdx 0 0 pre))
        (fst (run_puts d yourIdx 0 0 (pre ++ [p])))
        (wrap (wrap (Z.of_nat (length pre) + yourIdx) + 1)) p)
  /\ inspections (glog d') = (inspections (glog d) + length puts)%nat
  /\ snd (gossipWith d id) = Returned (snd (UpdateGossiper ran id last))
  /\ LogUpdating id last ∈ glog d'
  /\ db d' = db (fst (UpdateGossiper ran id last))
  /\ (forall c : Z,
        snd (GetGossiper ran id) = (c, None) ->
        snd (gossipWith d id) = Returned None
        /\ snd (GetGossiper d' id) = (Z.max c last, None))
  /\ (yourIdx + Z.of_nat (length puts) <= MaxInt ->
        last = yourIdx + Z.of_nat (length puts))
  /\ ((forall s m, fst (ActionReceiver s m) !! ("peer:" +:+ IDB58Encode id)
                   = s !! ("peer:" +:+ IDB58Encode id)) ->
        snd (GetGossiper ran id) = (yourIdx, None))
  /\ (yourIdx + Z.of_nat (length puts) <= MaxInt ->
      (forall s m, fst (ActionReceiver s m) !! ("peer:" +:+ IDB58Encode id)
                   = s !! ("peer:" +:+ IDB58Encode id)) ->
        snd (gossipWith d id) = Returned None
        /\ snd (GetGossiper d' id) = (yourIdx + Z.of_nat (length puts), None)).
Proof.
  intros Hn Hidx Hcur Hsend Hne d' ran last.
  rewrite GetGossiper_eq in Hcur. cbn [snd] in Hcur.
  pose proof (getIntVal_range _ _ _ Hcur) as Hy.
  set (dl := Logf (Logf (net_send
                 (set_gossips (Logf d (LogWith id)) (<[id := true]> (gossips d)))
                 id GOSSIP_REQUEST (mkGossipReq myIdx (wrap (yourIdx + 1))))
               (LogReceivedPuts puts)) (LogRunning (Z.of_nat (length puts)))).
  set (r := run_puts dl yourIdx 0 0 puts).
  set (u := UpdateGossiper (fst r) id (snd r)).
  assert (Hg : gossipWith d id =
                 (set_gossips (fst u) (delete id (gossips (fst u))), Returned (snd u))).
  { unfold gossipWith. cbn [gossips Logf]. rewrite Hn.
    unfold gossipWith_marked.
    change (GetIdx (set_gossips (Logf d (LogWith id)) (<[id:=true]> (gossips d))))
      with (GetIdx d).
    rewrite Hidx. rewrite GetGossiper_eq. cbn [db set_gossips Logf].
    rewrite Hcur, Hsend. cbn [Puts].
    destruct (Z.ltb_spec 0 (Z.of_nat (length puts))) as [_|Hlen];
      [|destruct puts; [contradiction | cbn [length] in Hlen; lia]].
    fold dl. fold r. destruct r as [d1 idx] eqn:Hr. cbn [fst snd] in u.
    subst u. destruct (UpdateGossiper d1 id idx) as [d2 e2]. reflexivity. }
  assert (Hdl : db dl = db d) by reflexivity.
  destruct (run_puts_db puts dl d yourIdx 0 0 Hdl) as [Hrdb Hrs].
  fold r in Hrdb, Hrs. fold ran in Hrdb.
  assert (Hlast : snd r = last).
  { unfold r. rewrite run_puts_last by exact Hne. reflexivity. }
  assert (Hinl : in_int last) by apply wrap_range.
  destruct (UpdateGossiper_db (fst r) ran id last Hrdb) as [Hudb Hus].
  assert (Hu : u = UpdateGossiper (fst r) id last).
  { unfold u. rewrite Hlast. reflexivity. }
  assert (Hlog : glog d' = glog (Logf (fst r) (LogUpdating id last))).
  { unfold d'. rewrite Hg. cbn [fst glog set_gossips]. rewrite Hu.
    apply UpdateGossiper_glog. }
  assert (Hdb : db d' = db (fst (UpdateGossiper ran id last))).
  { unfold d'. rewrite Hg. cbn [fst db set_gossips]. rewrite Hu. exact Hudb. }
  assert (Hret : snd (gossipWith d id) = Returned (snd (UpdateGossiper ran id last))).
  { rewrite Hg. cbn [snd]. rewrite Hu, Hus. reflexivity. }
  assert (Hcursor : forall c : Z,
             snd (GetGossiper ran id) = (c, None) ->
             snd (gossipWith d id) = Returned None
             /\ snd (GetGossiper d' id) = (Z.max c last, None)).
  { intros c Hc. split.
    - rewrite Hret, (UpdateGossiper_eq ran id last c Hc). reflexivity.
    - pose proof (cursor_after_update ran id last c Hinl Hc) as Hafter.
      rewrite GetGossiper_eq in Hafter |- *. cbn [snd] in Hafter |- *.
      rewrite <- Hafter. apply getIntVal_ext. cbn [tx_db]. rewrite Hdb. reflexivity. }
  assert (Hnowrap : yourIdx + Z.of_nat (length puts) <= MaxInt ->
                    last = yourIdx + Z.of_nat (length puts)).
  { intros Hmax. unfold last.
    assert (0 < Z.of_nat (length puts)).
    { destruct puts; [contradiction | cbn [length]; lia]. }
    rewrite (wrap_id (Z.of_nat (length puts) - 1 + yourIdx)) by int_range.
    rewrite wrap_id by int_range. lia. }
  assert (Hkept : (forall s m, fst (ActionReceiver s m) !! ("peer:" +:+ IDB58Encode id)
                               = s !! ("peer:" +:+ IDB58Encode id)) ->
                  snd (GetGossiper ran id) = (yourIdx, None)).
  { intros Hframe.
    destruct (run_puts_frame _ puts d yourIdx 0 0 Hframe) as [Hk _].
    rewrite GetGossiper_eq. cbn [snd]. rewrite <- Hcur.
    apply getIntVal_ext. cbn [tx_db]. exact Hk. }
  split; [|split; [|split; [|split; [|split; [|split; [|split; [|split]]]]]]].
  - intros pre p post Hputs.
    set (idxp := wrap (wrap (Z.of_nat (length pre) + yourIdx) + 1)).
    set (rpre := run_puts dl yourIdx 0 0 pre).
    assert (Hr : r = run_puts (apply_put (fst rpre) idxp p) yourIdx
                       (Z.of_nat (length pre) + 1) idxp post).
    { unfold r. rewrite Hputs, run_puts_app. fold rpre. cbn [run_puts].
      rewrite Z.add_0_l. reflexivity. }
    destruct (run_puts_db pre dl d yourIdx 0 0 Hdl) as [Hpre _]. fold rpre in Hpre.
    apply (put_logged_later (glog (apply_put (fst rpre) idxp p)) (glog d')
             (fst rpre) (apply_put (fst rpre) idxp p)).
    + intros ev Hev. rewrite Hlog. cbn [glog Logf]. apply elem_of_app. left.
      rewrite Hr. apply run_puts_glog, Hev.
    + exact Hpre.
    + rewrite run_puts_app. cbn [run_puts fst]. rewrite Z.add_0_l. fold idxp.
      apply apply_put_db, Hpre.
    + apply apply_put_logged.
  - rewrite Hlog, inspections_Logf. cbn [looked_at]. unfold r.
    rewrite run_puts_inspections. unfold dl.
    rewrite !inspections_Logf. cbn [looked_at glog set_gossips net_send].
    rewrite inspections_Logf. cbn [looked_at]. lia.
  - exact Hret.
  - rewrite Hlog. cbn [glog Logf]. apply elem_of_app. right. left.
  - exact Hdb.
  - exact Hcursor.
  - exact Hnowrap.
  - exact Hkept.
  - intros Hmax Hframe.
    destruct (Hcursor yourIdx (Hkept Hframe)) as [H1 H2].
    split; [exact H1|]. rewrite H2. rewrite (Hnowrap Hmax). f_equal. lia.
Qed.

End GossipFacts.

(** ** Facts about validation *)

Section RibosomeFacts.

Context `{JSExt : JSExternals} `{AExt : ActionExternals}.

Variable Action_Name : Action -> string.

Lemma runValidate_not_boolean (jsr : JSRibosome) (fnName code : string) (vm' : VM)
    (v : Value) :
  vm_Run (vm jsr) code = (vm', (v, None)) ->
  IsBoolean v = false ->
  runValidate jsr fnName code =
    (mkJSRibosome vm',
     Some (Errorf (fnName +:+ " should return boolean, got: " +:+ Value_String v))).
Proof.
  intros Hrun Hv. unfold runValidate. rewrite Hrun, Hv. reflexivity.
Qed.

Lemma runValidate_false (jsr : JSRibosome) (fnName code : string) (vm' : VM) :
  vm_Run (vm jsr) code = (vm', (VBoolean false, None)) ->
  runValidate jsr fnName code = (mkJSRibosome vm', Some ValidationFailedErr).
Proof.
  intros Hrun. unfold runValidate. rewrite Hrun. reflexivity.
Qed.

(** C8: when the script's function returns a value that is not a boolean,
    runValidate returns the error "<fnName> should return boolean, got:
    <value>"; when it returns false, runValidate returns
    ValidationFailedErr and validateEntry turns that into the error "Invalid
    entry: <entry content>".  A commit whose validation is validateEntry
    then hands the script the HolochainError "Invalid entry: <entry
    content>", and so does a commit whose validation is ValidateAction,
    which returns ValidationFailedErr as it is: nothing is appended in either
    case, whatever appending would do. *)
Theorem validate_false_or_not_boolean (jsr : JSRibosome) (fnName : string) :
  (forall (code : string) (vm' : VM) (v : Value),
      vm_Run (vm jsr) code = (vm', (v, None)) ->
      IsBoolean v = false ->
      snd (runValidate jsr fnName code) =
        Some (Errorf (fnName +:+ " should return boolean, got: " +:+ Value_String v)))
  /\ (forall (code : string) (vm' : VM),
      vm_Run (vm jsr) code = (vm', (VBoolean false, None)) ->
      snd (runValidate jsr fnName code) = Some ValidationFailedErr)
  /\ (forall (def : EntryDef) (c : string) (header : Header) (sources : list string)
             (e srcs : string) (vm' : VM),
      prepareJSValidateEntryArgs def (ContentString c) sources = Returned (e, srcs, None) ->
      vm_Run (vm jsr) (validate_call fnName (Name def) e (header_object header) srcs)
        = (vm', (VBoolean false, None)) ->
      snd (validateEntry jsr fnName def (ContentString c) (Some header) sources)
        = Returned (Some (Errorf ("Invalid entry: " +:+ c)))
      /\ forall (append : string -> string -> option Hash * option error)
                (entryType : string),
           commit jsr
             (Commit_Do
                (fun _ entryStr =>
                   snd (validateEntry jsr fnName def (ContentString entryStr)
                          (Some header) sources))
                append)
             None entryType c
           = Returned (VError "HolochainError" ("Invalid entry: " +:+ c)))
  /\ (forall (def : EntryDef) (c : string) (header : option Header)
             (pkg : option ValidationPackage) (sources : list string)
             (code : string) (vm' : VM),
      buildJSValidateAction Action_Name (ActionCommit (ContentString c) header)
        def pkg sources = Returned (code, None) ->
      vm_Run (vm jsr) code = (vm', (VBoolean false, None)) ->
      snd (ValidateAction Action_Name jsr (ActionCommit (ContentString c) header)
             def pkg sources)
        = Returned (Some ValidationFailedErr)
      /\ forall (append : string -> string -> option Hash * option error)
                (entryType : string),
           commit jsr
             (Commit_Do
                (fun _ entryStr =>
                   snd (ValidateAction Action_Name jsr
                          (ActionCommit (ContentString entryStr) header)
                          def pkg sources))
                append)
             None entryType c
           = Returned (VError "HolochainError" ("Invalid entry: " +:+ c))).
Proof.
  split; [|split; [|split]].
  - intros code vm' v Hrun Hv.
    rewrite (runValidate_not_boolean jsr fnName code vm' v Hrun Hv). reflexivity.
  - intros code vm' Hrun.
    rewrite (runValidate_false jsr fnName code vm' Hrun). reflexivity.
  - intros def c header sources e srcs vm' Hargs Hrun.
    assert (Hv : snd (validateEntry jsr fnName def (ContentString c) (Some header) sources)
                 = Returned (Some (Errorf ("Invalid entry: " +:+ c)))).
    { unfold validateEntry. rewrite Hargs.
      rewrite (runValidate_false jsr fnName _ vm' Hrun). reflexivity. }
    split; [exact Hv|].
    intros append entryType. unfold commit, Commit_Do. rewrite Hv. reflexivity.
  - intros def c header pkg sources code vm' Hcode Hrun.
    assert (Hv : snd (ValidateAction Action_Name jsr
                        (ActionCommit (ContentString c) header) def pkg sources)
                 = Returned (Some ValidationFailedErr)).
    { unfold ValidateAction. rewrite Hcode.
      rewrite (runValidate_false jsr _ code vm' Hrun). reflexivity. }
    split; [exact Hv|].
    intros append entryType. unfold commit, Commit_Do. rewrite Hv. reflexivity.
Qed.

End RibosomeFacts.

(** ** More facts about the change log *)

Section MoreGossipFacts.

Context `{Ext : Externals}.

Lemma GetIdx_eq (d : DHT) : GetIdx d = getIntVal "_idx" (mkTx (db d) false).
Proof. unfold GetIdx, View. destruct (getIntVal _ _) as [i [e|]]; reflexivity. Qed.

Lemma FormatInt_inj (j k : Z) : in_int j -> in_int k -> FormatInt j = FormatInt k -> j = k.
Proof.
  intros Hj Hk H. pose proof (Atoi_FormatInt j Hj) as H1.
  rewrite H, (Atoi_FormatInt k Hk) in H1. congruence.
Qed.

Lemma idx_key_inj (a b : string) : "idx:" +:+ a = "idx:" +:+ b -> a = b.
Proof.
  change ("idx:" +:+ a) with (String "i" (String "d" (String "x" (String ":" a)))).
  change ("idx:" +:+ b) with (String "i" (String "d" (String "x" (String ":" b)))).
  intros [= ->]. reflexivity.
Qed.

Lemma f_key_inj (a b : string) : "f:" +:+ a = "f:" +:+ b -> a = b.
Proof.
  change ("f:" +:+ a) with (String "f" (String ":" a)).
  change ("f:" +:+ b) with (String "f" (String ":" b)).
  intros [= ->]. reflexivity.
Qed.

Lemma append_message_eq (d : DHT) (m : Message) (i : Z) (b f : string) :
  GetIdx d = (i, None) ->
  ByteEncoder m = (b, None) ->
  Fingerprint m = (f, None) ->
  let index := FormatInt (wrap (i + 1)) in
  append_message d m =
    (set_db d (<["f:" +:+ Hash_String f := index]>
                 (<["idx:" +:+ index := b]> (<["_idx" := index]> (db d)))),
     (index, None)).
Proof.
  intros Hi Hb Hf index. rewrite GetIdx_eq in Hi.
  unfold append_message, Update.
  rewrite (incIdx_appends (mkTx (db d) true) m i b f eq_refl
             ltac:(rewrite <- Hi; apply getIntVal_ext; reflexivity) Hb Hf).
  reflexivity.
Qed.

(** X1: what is read back after a message was appended: the index it was given
    is the current index, the index of its fingerprint, and the
    fingerprint counts as seen when that index is not negative. *)
Theorem append_then_lookup (d : DHT) (m : Message) (i : Z) (b f : string) :
  GetIdx d = (i, None) ->
  i < MaxInt ->
  ByteEncoder m = (b, None) ->
  Fingerprint m = (f, None) ->
  let d' := fst (append_message d m) in
  snd (append_message d m) = (FormatInt (i + 1), None)
  /\ GetIdx d' = (i + 1, None)
  /\ GetFingerprint d' f = (i + 1, None)
  /\ HaveFingerprint d' f = (0 <=? i + 1, None).
Proof.
  intros Hi Hmax Hb Hf d'. subst d'.
  rewrite (append_message_eq d m i b f Hi Hb Hf).
  rewrite GetIdx_eq in Hi. pose proof (getIntVal_range _ _ _ Hi) as Hr.
  rewrite (wrap_id (i + 1)) by int_range.
  assert (Hin : in_int (i + 1)) by int_range.
  cbn [fst snd].
  assert (HF : GetFingerprint
                 (set_db d (<["f:" +:+ Hash_String f := FormatInt (i + 1)]>
                              (<["idx:" +:+ FormatInt (i + 1) := b]>
                                 (<["_idx" := FormatInt (i + 1)]> (db d))))) f
               = (i + 1, None)).
  { unfold GetFingerprint, View, tx_Get. cbn [tx_db db set_db].
    rewrite lookup_insert_eq. cbn [is_err].
    rewrite (Atoi_FormatInt _ Hin). reflexivity. }
  repeat split.
  - rewrite GetIdx_eq. cbn [db set_db].
    erewrite getIntVal_present; [apply Atoi_FormatInt, Hin|].
    cbn [tx_db]. rewrite !lookup_insert_ne by discriminate. apply lookup_insert_eq.
  - exact HF.
  - unfold HaveFingerprint. rewrite HF. reflexivity.
Qed.

(** X2: the message stored at an index is the one read back from it, when the
    codec gives back what it encoded; an index without a record is
    reported as ErrNoSuchIdx. *)
Theorem append_then_GetIdxMessage (d : DHT) (m : Message) (i : Z) (b f : string) :
  GetIdx d = (i, None) ->
  i < MaxInt ->
  ByteEncoder m = (b, None) ->
  Fingerprint m = (f, None) ->
  ByteDecoder b zeroMessage = (m, None) ->
  GetIdxMessage (fst (append_message d m)) (i + 1) = (m, None)
  /\ (forall j : Z,
        db d !! ("idx:" +:+ FormatInt j) = None ->
        GetIdxMessage d j = (zeroMessage, Some ErrNoSuchIdx)).
Proof.
  intros Hi Hmax Hb Hf Hdec. split.
  - rewrite (append_message_eq d m i b f Hi Hb Hf).
    rewrite GetIdx_eq in Hi. pose proof (getIntVal_range _ _ _ Hi) as Hr.
    rewrite (wrap_id (i + 1)) by int_range. cbn [fst].
    unfold GetIdxMessage, View, tx_Get. cbn [tx_db db set_db].
    rewrite lookup_insert_ne by discriminate. rewrite lookup_insert_eq.
    cbn [is_err]. rewrite Hdec. reflexivity.
  - intros j Hj. unfold GetIdxMessage, View, tx_Get. cbn [tx_db].
    rewrite Hj. reflexivity.
Qed.

(** X3: when the message cannot be encoded, or has no fingerprint, incIdx has
    by then moved [_idx] in its transaction; run in an Update, the error
    comes back and the store is as before. *)
Theorem append_failure_rolled_back (d : DHT) (m : Message) (i : Z) (e : error) :
  GetIdx d = (i, None) ->
  snd (ByteEncoder m) = Some e
  \/ (snd (ByteEncoder m) = None /\ snd (Fingerprint m) = Some e) ->
  db (fst (append_message d m)) = db d
  /\ snd (snd (append_message d m)) = Some e
  /\ tx_db (fst (incIdx (mkTx (db d) true) (Some m))) !! "_idx"
       = Some (FormatInt (wrap (i + 1))).
Proof.
  intros Hi Hfail. rewrite GetIdx_eq in Hi.
  assert (Hi' : getIntVal "_idx" (mkTx (db d) true) = (i, None)).
  { rewrite <- Hi. apply getIntVal_ext. reflexivity. }
  unfold append_message, Update, incIdx. rewrite Hi'.
  unfold tx_Set. cbn [tx_writable tx_db].
  destruct (ByteEncoder m) as [b [eb|]]; cbn [snd] in Hfail.
  - destruct Hfail as [[= ->]|[[=] _]]. cbn [fst snd db set_db tx_db].
    repeat split. apply lookup_insert_eq.
  - destruct Hfail as [[=]|[_ Hfp]].
    destruct (Fingerprint m) as [f [ef|]]; cbn [snd] in Hfp; [|discriminate].
    injection Hfp as ->. cbn [fst snd db set_db tx_db].
    repeat split. rewrite lookup_insert_ne by discriminate. apply lookup_insert_eq.
Qed.

(** X4: appending a message leaves the other records of the log alone: the
    message at every other index and the index of every other fingerprint
    read as before. *)
Theorem append_keeps_other_records (d : DHT) (m : Message) (i : Z) (b f : string) :
  GetIdx d = (i, None) ->
  i < MaxInt ->
  ByteEncoder m = (b, None) ->
  Fingerprint m = (f, None) ->
  let d' := fst (append_message d m) in
  (forall j : Z, in_int j -> j <> i + 1 -> GetIdxMessage d' j = GetIdxMessage d j)
  /\ (forall g : string, Hash_String g <> Hash_String f ->
        GetFingerprint d' g = GetFingerprint d g).
Proof.
  intros Hi Hmax Hb Hf d'. subst d'.
  rewrite (append_message_eq d m i b f Hi Hb Hf).
  rewrite GetIdx_eq in Hi. pose proof (getIntVal_range _ _ _ Hi) as Hr.
  rewrite (wrap_id (i + 1)) by int_range. cbn [fst]. split.
  - intros j Hj Hne. unfold GetIdxMessage, View, tx_Get. cbn [tx_db db set_db].
    rewrite lookup_insert_ne by discriminate.
    rewrite lookup_insert_ne.
    + rewrite lookup_insert_ne by discriminate. reflexivity.
    + intros H. apply idx_key_inj in H.
      apply FormatInt_inj in H; [congruence | int_range | exact Hj].
  - intros g Hg. unfold GetFingerprint, View, tx_Get. cbn [tx_db db set_db].
    rewrite lookup_insert_ne.
    + rewrite !lookup_insert_ne by discriminate. reflexivity.
    + intros H. apply f_key_inj in H. congruence.
Qed.

(** *** What GetPuts returns, record by record *)

Lemma index_items_elem (tx : Tx) (name pre pivot k v : string) :
  (k, v) ∈ index_items tx name pre pivot <->
  tx_db tx !! k = Some v
  /\ String.prefix pre k = true
  /\ pivot_le name pivot (k, v) = true.
Proof.
  unfold index_items.
  rewrite list_elem_of_filter, merge_sort_Permutation, list_elem_of_filter,
    elem_of_map_to_list.
  cbn [fst]. rewrite !Is_true_true. tauto.
Qed.

(** The callback of GetPuts on a key of the index. *)
Lemma GetPuts_cb_eq (since : Z) (key value : string) (puts : list Put) :
  String.prefix "idx:" key = true ->
  GetPuts_cb since key value puts =
    if Z.leb since (Put_idx (put_of_record key value)) then
      if negb (String.eqb value EmptyString)
         && negb (is_nil (snd (ByteDecoder value zeroMessage)))
      then Returned (puts, false)
      else Returned ((puts ++ [put_of_record key value])%list, true)
    else Returned (puts, true).
Proof.
  intros Hk. destruct (Split_idx_key key Hk) as [x1 Hx1].
  unfold GetPuts_cb, put_of_record. rewrite Hx1. cbn [Put_idx].
  destruct (Atoi x1) as [idx o]. cbn [fst].
  destruct (Z.leb since idx); [|reflexivity].
  destruct (String.eqb value EmptyString); cbn [negb andb]; [reflexivity|].
  cbn [Put_M Put_idx]. destruct (ByteDecoder value zeroMessage) as [m [e|]]; reflexivity.
Qed.

(** X5: GetPuts invents nothing: every put it returns is the put of a record
    stored under [idx:], with the number of its key as [idx], that number
    is not below [since], and the value of the record is empty or
    decodes. *)
Theorem GetPuts_from_records (d : DHT) (since : Z) :
  exists puts : list Put,
    GetPuts d since = Returned (puts, None)
    /\ forall p : Put, p ∈ puts ->
         exists k v : string,
           db d !! k = Some v
           /\ String.prefix "idx:" k = true
           /\ p = put_of_record k v
           /\ since <= Put_idx p
           /\ (v = EmptyString \/ snd (ByteDecoder v zeroMessage) = None).
Proof.
  set (ok := fun p : Put =>
         exists k v : string,
           db d !! k = Some v
           /\ String.prefix "idx:" k = true
           /\ p = put_of_record k v
           /\ since <= Put_idx p
           /\ (v = EmptyString \/ snd (ByteDecoder v zeroMessage) = None)).
  unfold GetPuts, View, AscendGreaterOrEqual.
  cbn [index_prefix String.eqb Ascii.eqb Bool.eqb].
  destruct (iterate_invariant (Forall ok) (GetPuts_cb since)
              (index_items (mkTx (db d) false) "idx" "idx:" (string_of_rune since)) [])
    as (raw & Hit & Hraw).
  - constructor.
  - intros k v a Hin Ha. apply index_items_elem in Hin as (Hkv & Hpre & _).
    cbn [tx_db] in Hkv. rewrite (GetPuts_cb_eq since k v a Hpre).
    destruct (Z.leb_spec since (Put_idx (put_of_record k v))) as [Hle|Hlt]; [|eauto].
    destruct (String.eqb_spec v EmptyString) as [Hv|Hv]; cbn [negb andb].
    + eexists _, _. split; [reflexivity|]. apply Forall_app. split; [exact Ha|].
      apply Forall_singleton. exists k, v.
      split; [exact Hkv|]. split; [exact Hpre|]. split; [reflexivity|].
      split; [exact Hle | left; exact Hv].
    + destruct (snd (ByteDecoder v zeroMessage)) as [e|] eqn:He; cbn [is_nil negb].
      * eauto.
      * eexists _, _. split; [reflexivity|]. apply Forall_app. split; [exact Ha|].
        apply Forall_singleton. exists k, v.
        split; [exact Hkv|]. split; [exact Hpre|]. split; [reflexivity|].
        split; [exact Hle | right; exact He].
  - exists (sort_puts raw). rewrite Hit. split; [reflexivity|].
    intros p Hp. unfold sort_puts in Hp. rewrite merge_sort_Permutation in Hp.
    rewrite Forall_forall in Hraw. apply Hraw. exact Hp.
Qed.

(** A scan whose callback never stops collects what each item adds. *)
Lemma iterate_collects {B : Type} (g : string -> string -> list B)
    (cb : string -> string -> list B -> outcome (list B * bool))
    (items : list (string * string)) (acc : list B) :
  (forall k v a, (k, v) ∈ items -> cb k v a = Returned ((a ++ g k v)%list, true)) ->
  exists rest : list B,
    iterate cb items acc = Returned (acc ++ rest)%list
    /\ forall k v x, (k, v) ∈ items -> x ∈ g k v -> x ∈ rest.
Proof.
  revert acc. induction items as [|[k v] items IH]; intros acc Hcb.
  - exists []. split; [cbn; rewrite app_nil_r; reflexivity|].
    intros k v x Hin. inversion Hin.
  - destruct (IH (acc ++ g k v)%list) as (rest & Hit & Hrest).
    { intros k' v' a Hin. apply Hcb. right. exact Hin. }
    exists (g k v ++ rest)%list. split.
    + cbn. rewrite Hcb by left. rewrite Hit, <- app_assoc. reflexivity.
    + intros k' v' x Hin Hx. apply elem_of_app.
      apply elem_of_cons in Hin as [[= -> ->]|Hin]; [left; exact Hx|].
      right. eapply Hrest; eassumption.
Qed.

(** X6: GetPuts leaves nothing out: when no record of the log fails to decode,
    every record that the scan reaches from its pivot and whose number is
    not below [since] has its put in the result. *)
Theorem GetPuts_complete (d : DHT) (since : Z) (k v : string) :
  (forall k' v' : string,
      db d !! k' = Some v' -> String.prefix "idx:" k' = true ->
      v' = EmptyString \/ snd (ByteDecoder v' zeroMessage) = None) ->
  db d !! k = Some v ->
  String.prefix "idx:" k = true ->
  pivot_le "idx" (string_of_rune since) (k, v) = true ->
  since <= Put_idx (put_of_record k v) ->
  exists puts : list Put,
    GetPuts d since = Returned (puts, None) /\ put_of_record k v ∈ puts.
Proof.
  intros Hdec Hkv Hpre Hpiv Hsince.
  unfold GetPuts, View, AscendGreaterOrEqual.
  cbn [index_prefix String.eqb Ascii.eqb Bool.eqb].
  destruct (iterate_collects
              (fun k v => if Z.leb since (Put_idx (put_of_record k v))
                          then [put_of_record k v] else [])
              (GetPuts_cb since)
              (index_items (mkTx (db d) false) "idx" "idx:" (string_of_rune since)) [])
    as (raw & Hit & Hraw).
  - intros k' v' a Hin. apply index_items_elem in Hin as (Hkv' & Hpre' & _).
    cbn [tx_db] in Hkv'. rewrite (GetPuts_cb_eq since k' v' a Hpre').
    destruct (Z.leb since (Put_idx (put_of_record k' v')));
      [|rewrite app_nil_r; reflexivity].
    destruct (Hdec k' v' Hkv' Hpre') as [->|Hd].
    + reflexivity.
    + rewrite Hd. cbn [is_nil negb]. rewrite andb_false_r. reflexivity.
  - rewrite Hit. cbn [app]. exists (sort_puts raw). split; [reflexivity|].
    unfold sort_puts. rewrite merge_sort_Permutation.
    apply (Hraw k v).
    + apply index_items_elem. cbn [tx_db]. auto.
    + destruct (Z.leb_spec since (Put_idx (put_of_record k v))); [left | lia].
Qed.

(** *** More on the peer cursor table *)

(** X7: whatever a series of updates asks for, the cursor ends at the largest
    value it has been given or had, and so never goes down. *)
Theorem UpdateGossiper_all_max (ns : list Z) (d : DHT) (p : string) (c : Z) :
  Forall in_int ns ->
  snd (GetGossiper d p) = (c, None) ->
  snd (GetGossiper (UpdateGossiper_all d p ns) p) = (fold_left Z.max ns c, None)
  /\ c <= fold_left Z.max ns c.
Proof.
  intros Hns. revert d c. induction Hns as [|n ns Hn Hns IH]; intros d c Hc.
  - cbn. split; [exact Hc | lia].
  - cbn [UpdateGossiper_all fold_left].
    destruct (IH (fst (UpdateGossiper d p n)) (Z.max c n)
                (cursor_after_update d p n c Hn Hc)) as [H1 H2].
    split; [exact H1 | lia].
Qed.

(** X8: UpdateGossiper writes at most the key of its peer: every other key of
    the store, the log and the cursors of other peers among them, reads as
    before, whether the call succeeds or not. *)
Theorem UpdateGossiper_other_keys (d : DHT) (p : string) (n : Z) (k : string) :
  k <> "peer:" +:+ IDB58Encode p ->
  db (fst (UpdateGossiper d p n)) !! k = db d !! k.
Proof.
  intros Hk. unfold UpdateGossiper, Update, UpdateGossiper_tx.
  destruct (getIntVal _ _) as [idx [e|]]; [reflexivity|].
  destruct (n <? idx); [reflexivity|].
  cbn. apply lookup_insert_ne. congruence.
Qed.

(** X9: a cursor that is not a number stops both the read and the update: the
    parse error is returned and the store stays as it is. *)
Theorem UpdateGossiper_unreadable (d : DHT) (p : string) (n : Z) (v : string) (e : error) :
  db d !! ("peer:" +:+ IDB58Encode p) = Some v ->
  snd (Atoi v) = Some e ->
  snd (snd (GetGossiper d p)) = Some e
  /\ snd (UpdateGossiper d p n) = Some e
  /\ db (fst (UpdateGossiper d p n)) = db d.
Proof.
  intros Hv He. split.
  - rewrite GetGossiper_eq. cbn [snd].
    erewrite getIntVal_present by exact Hv. exact He.
  - unfold UpdateGossiper, Update, UpdateGossiper_tx.
    erewrite getIntVal_present by exact Hv.
    destruct (Atoi v) as [idx o]. cbn [snd] in He. subst o. split; reflexivity.
Qed.

(** *** More on gossipWith *)

(** What the marked part of gossipWith does to markers, channel and
    transport: at most one request is sent, to the peer, with the current
    index and the index after the cursor. *)
Lemma gossipWith_marked_fields (d : DHT) (id : string) :
  gossips (fst (gossipWith_marked d id)) = gossips d
  /\ gchan (fst (gossipWith_marked d id)) = gchan d
  /\ (net (fst (gossipWith_marked d id)) = net d
      \/ net (fst (gossipWith_marked d id)) =
           (net d ++ [(id, GOSSIP_REQUEST,
                       mkGossipReq (fst (GetIdx d))
                         (wrap (fst (snd (GetGossiper d id)) + 1)))])%list).
Proof.
  unfold gossipWith_marked.
  destruct (GetIdx d) as [myIdx [e|]]; [repeat split; left; reflexivity|].
  rewrite GetGossiper_eq.
  destruct (getIntVal _ _) as [yourIdx [e|]]; [repeat split; left; reflexivity|].
  cbn [fst snd].
  destruct (Send _ _ _) as [r [e|]]; [repeat split; right; reflexivity|].
  destruct r as [|g|x]; try (repeat split; right; reflexivity).
  destruct (0 <? _); [|repeat split; right; reflexivity].
  match goal with
  | |- context [run_puts ?d0 ?y ?i ?k ?ps] =>
      destruct (run_puts_fields ps d0 y i k) as (H1 & H2 & H3);
      destruct (run_puts d0 y i k ps) as [d1 idx]
  end.
  cbn [fst] in H1, H2, H3.
  destruct (UpdateGossiper_fields d1 id idx) as (H4 & H5 & H6).
  destruct (UpdateGossiper d1 id idx) as [d2 e2]. cbn [fst] in *.
  rewrite H4, H5, H6, H1, H2, H3. repeat split. right. reflexivity.
Qed.

(** X10: gossipWith hands back the table of markers and the channel as it found
    them, however the exchange ends: no marker is left behind and none of
    another exchange is removed. *)
Theorem gossipWith_keeps_markers (d : DHT) (id : string) :
  gossips (fst (gossipWith d id)) = gossips d
  /\ gchan (fst (gossipWith d id)) = gchan d.
Proof.
  unfold gossipWith. cbn [gossips Logf].
  destruct (gossips d !! id) as [b|] eqn:Hid; [split; reflexivity|].
  match goal with
  | |- context [gossipWith_marked ?d0 id] =>
      destruct (gossipWith_marked_fields d0 id) as (H1 & H2 & _);
      destruct (gossipWith_marked d0 id) as [d1 r]
  end.
  cbn [fst gossips gchan set_gossips Logf] in *. rewrite H1, H2. split; [|reflexivity].
  apply delete_insert_id. exact Hid.
Qed.

(** X11: when the current index or the cursor of the peer cannot be read,
    gossipWith returns that error and nothing goes to the transport. *)
Theorem gossipWith_local_error (d : DHT) (id : string) (e : error) :
  gossips d !! id = None ->
  snd (GetIdx d) = Some e
  \/ (snd (GetIdx d) = None /\ snd (snd (GetGossiper d id)) = Some e) ->
  snd (gossipWith d id) = Returned (Some e)
  /\ net (fst (gossipWith d id)) = net d
  /\ db (fst (gossipWith d id)) = db d.
Proof.
  intros Hid Herr. unfold gossipWith. cbn [gossips Logf]. rewrite Hid.
  unfold gossipWith_marked.
  change (GetIdx (set_gossips (Logf d (LogWith id)) (<[id:=true]> (gossips d))))
    with (GetIdx d).
  rewrite GetGossiper_eq in *. cbn [db set_gossips Logf snd] in *.
  destruct (GetIdx d) as [myIdx [e1|]]; cbn [snd] in Herr.
  - destruct Herr as [[= ->]|[[=] _]]. repeat split.
  - destruct Herr as [[=]|[_ Herr]].
    destruct (getIntVal _ _) as [yourIdx [e2|]]; cbn [snd] in Herr; [|discriminate].
    injection Herr as ->. repeat split.
Qed.

(** X12: an exchange that starts sends exactly one request, to the peer, of
    type GOSSIP_REQUEST, carrying the current index as [MyIdx] and the
    index after the peer's cursor as [YourIdx]; this is so whatever the
    transport answers. *)
Theorem gossipWith_request (d : DHT) (id : string) (myIdx yourIdx : Z) :
  gossips d !! id = None ->
  GetIdx d = (myIdx, None) ->
  snd (GetGossiper d id) = (yourIdx, None) ->
  net (fst (gossipWith d id)) =
    (net d ++ [(id, GOSSIP_REQUEST, mkGossipReq myIdx (wrap (yourIdx + 1)))])%list.
Proof.
  intros Hid Hidx Hcur. rewrite GetGossiper_eq in Hcur. cbn [snd] in Hcur.
  unfold gossipWith. cbn [gossips Logf]. rewrite Hid.
  unfold gossipWith_marked.
  change (GetIdx (set_gossips (Logf d (LogWith id)) (<[id:=true]> (gossips d))))
    with (GetIdx d).
  rewrite Hidx, GetGossiper_eq. cbn [db set_gossips Logf]. rewrite Hcur.
  destruct (Send _ _ _) as [r [e|]]; [reflexivity|].
  destruct r as [|g|x]; try reflexivity.
  destruct (0 <? _); [|reflexivity].
  match goal with
  | |- context [run_puts ?d0 ?y ?i ?k ?ps] =>
      destruct (run_puts_fields ps d0 y i k) as (_ & _ & H3);
      destruct (run_puts d0 y i k ps) as [d1 idx]
  end.
  cbn [fst] in H3.
  destruct (UpdateGossiper_fields d1 id idx) as (_ & _ & H6).
  destruct (UpdateGossiper d1 id idx) as [d2 e2]. cbn [fst] in *.
  cbn [net set_gossips]. rewrite H6, H3. reflexivity.
Qed.

(** X13: when the transport fails, its error is what gossipWith returns, and the
    store, the cursor of the peer with it, is unchanged. *)
Theorem gossipWith_transport_error (d : DHT) (id : string) (myIdx yourIdx : Z)
    (r : Response) (e : error) :
  gossips d !! id = None ->
  GetIdx d = (myIdx, None) ->
  snd (GetGossiper d id) = (yourIdx, None) ->
  Send id GOSSIP_REQUEST (mkGossipReq myIdx (wrap (yourIdx + 1))) = (r, Some e) ->
  snd (gossipWith d id) = Returned (Some e)
  /\ db (fst (gossipWith d id)) = db d
  /\ snd (GetGossiper (fst (gossipWith d id)) id) = (yourIdx, None).
Proof.
  intros Hid Hidx Hcur Hsend.
  assert (H : snd (gossipWith d id) = Returned (Some e)
              /\ db (fst (gossipWith d id)) = db d).
  { rewrite GetGossiper_eq in Hcur. cbn [snd] in Hcur.
    unfold gossipWith. cbn [gossips Logf]. rewrite Hid.
    unfold gossipWith_marked.
    change (GetIdx (set_gossips (Logf d (LogWith id)) (<[id:=true]> (gossips d))))
      with (GetIdx d).
    rewrite Hidx, GetGossiper_eq. cbn [db set_gossips Logf].
    rewrite Hcur, Hsend. split; reflexivity. }
  destruct H as [H1 H2]. split; [exact H1|]. split; [exact H2|].
  rewrite GetGossiper_eq in *. cbn [snd] in *. rewrite H2. exact Hcur.
Qed.

(** X14: an answer without puts ends the exchange with no error and leaves the
    store, the cursor of the peer with it, unchanged; an answer that is not
    a Gossip makes gossipWith panic, with the store unchanged too. *)
Theorem gossipWith_no_puts (d : DHT) (id : string) (myIdx yourIdx : Z) (r : Response) :
  gossips d !! id = None ->
  GetIdx d = (myIdx, None) ->
  snd (GetGossiper d id) = (yourIdx, None) ->
  Send id GOSSIP_REQUEST (mkGossipReq myIdx (wrap (yourIdx + 1))) = (r, None) ->
  (forall g, r = RespGossip g -> Puts g = []) ->
  db (fst (gossipWith d id)) = db d
  /\ snd (gossipWith d id) =
       match r with
       | RespGossip _ => Returned None
       | _ => Panicked
       end.
Proof.
  intros Hid Hidx Hcur Hsend Hempty.
  rewrite GetGossiper_eq in Hcur. cbn [snd] in Hcur.
  unfold gossipWith. cbn [gossips Logf]. rewrite Hid.
  unfold gossipWith_marked.
  change (GetIdx (set_gossips (Logf d (LogWith id)) (<[id:=true]> (gossips d))))
    with (GetIdx d).
  rewrite Hidx, GetGossiper_eq. cbn [db set_gossips Logf].
  rewrite Hcur, Hsend.
  destruct r as [|g|x]; try (split; reflexivity).
  rewrite (Hempty g eq_refl). split; reflexivity.
Qed.

(** A put whose fingerprint is recorded is not given to the action
    receiver: a batch of such puts leaves the store as it is. *)
Lemma run_puts_known (puts : list Put) (d : DHT) (yourIdx i idx0 : Z) :
  Forall (fun p => exists f, Fingerprint (Put_M p) = (f, None)
                             /\ HaveFingerprint d f = (true, None)) puts ->
  db (fst (run_puts d yourIdx i idx0 puts)) = db d.
Proof.
  intros Hk. revert d i idx0 Hk.
  induction puts as [|p rest IH]; intros d i idx0 Hk; [reflexivity|].
  apply Forall_cons in Hk as [(f & Hf & Hhave) Hrest].
  cbn [run_puts].
  assert (Hd : db (apply_put d (wrap (wrap (i + yourIdx) + 1)) p) = db d).
  { unfold apply_put. rewrite Hf.
    change (HaveFingerprint (Logf d (LogPutFingerprint (wrap (wrap (i + yourIdx) + 1)) f)) f)
      with (HaveFingerprint d f).
    rewrite Hhave. reflexivity. }
  rewrite IH; [exact Hd|].
  eapply Forall_impl; [exact Hrest|].
  intros q (g & Hg & Hq). exists g. split; [exact Hg|].
  rewrite <- Hq. unfold HaveFingerprint, GetFingerprint. rewrite Hd. reflexivity.
Qed.

(** X15: receiving again what is already there changes nothing but the cursor:
    when every put of the answer has its fingerprint recorded, the store
    after gossipWith is the store before with the cursor of the peer set to
    [yourIdx + len(puts)]. *)
Theorem gossipWith_known_puts (d : DHT) (id : string) (myIdx yourIdx : Z)
    (puts : list Put) :
  gossips d !! id = None ->
  GetIdx d = (myIdx, None) ->
  snd (GetGossiper d id) = (yourIdx, None) ->
  Send id GOSSIP_REQUEST (mkGossipReq myIdx (wrap (yourIdx + 1)))
    = (RespGossip (mkGossip puts), None) ->
  puts <> [] ->
  yourIdx + Z.of_nat (length puts) <= MaxInt ->
  Forall (fun p => exists f, Fingerprint (Put_M p) = (f, None)
                             /\ HaveFingerprint d f = (true, None)) puts ->
  snd (gossipWith d id) = Returned None
  /\ db (fst (gossipWith d id)) =
       <["peer:" +:+ IDB58Encode id := FormatInt (yourIdx + Z.of_nat (length puts))]> (db d).
Proof.
  intros Hid Hidx Hcur Hsend Hne Hmax Hknown.
  rewrite GetGossiper_eq in Hcur. cbn [snd] in Hcur.
  pose proof (getIntVal_range _ _ _ Hcur) as Hy.
  unfold gossipWith. cbn [gossips Logf]. rewrite Hid.
  unfold gossipWith_marked.
  change (GetIdx (set_gossips (Logf d (LogWith id)) (<[id:=true]> (gossips d))))
    with (GetIdx d).
  rewrite Hidx, GetGossiper_eq. cbn [db set_gossips Logf].
  rewrite Hcur, Hsend. cbn [Puts].
  destruct (Z.ltb_spec 0 (Z.of_nat (length puts))) as [_|Hlen];
    [|destruct puts; [contradiction | cbn [length] in Hlen; lia]].
  match goal with
  | |- context [run_puts ?d0 yourIdx 0 0 puts] => set (dl := d0)
  end.
  assert (Hdl : db (fst (run_puts dl yourIdx 0 0 puts)) = db d).
  { rewrite run_puts_known; [reflexivity|].
    eapply Forall_impl; [exact Hknown|].
    intros q (g & Hg & Hq). exists g. split; [exact Hg | exact Hq]. }
  pose proof (run_puts_idx puts dl yourIdx 0 0 Hne ltac:(lia) Hy ltac:(lia)) as Hlast.
  destruct (run_puts dl yourIdx 0 0 puts) as [d1 idx]. cbn [fst snd] in Hdl, Hlast.
  assert (Hc1 : snd (GetGossiper d1 id) = (yourIdx, None)).
  { rewrite GetGossiper_eq. cbn [snd]. rewrite Hdl. exact Hcur. }
  rewrite (UpdateGossiper_eq d1 id idx yourIdx Hc1).
  cbn [fst snd db set_db set_gossips]. split; [reflexivity|].
  destruct (Z.ltb_spec idx yourIdx); [lia|].
  rewrite Hdl, Hlast. do 2 f_equal. lia.
Qed.

(** *** More on the request handler *)

(** X16: GossipReceiver only reads: whatever the message, it returns without
    panic and leaves the store, the markers and the transport as they
    are.  A message of another type is refused with nothing logged or
    queued; a gossip request with a body of another type is refused with
    ErrDHTExpectedGossipReqInBody and nothing queued. *)
Theorem GossipReceiver_reads_only (d : DHT) (m : Message) :
  (exists (d' : DHT) (r : Response * option error),
      GossipReceiver d m = Returned (d', r)
      /\ db d' = db d /\ gossips d' = gossips d /\ net d' = net d)
  /\ (Type_ m <> GOSSIP_REQUEST ->
      exists msg, GossipReceiver d m = Returned (d, (RespNil, Some (Errorf msg))))
  /\ (Type_ m = GOSSIP_REQUEST -> (forall t, Body m <> BodyGossipReq t) ->
      exists d', GossipReceiver d m
                   = Returned (d', (RespNil, Some ErrDHTExpectedGossipReqInBody))
                 /\ gchan d' = gchan d).
Proof.
  split; [|split].
  - unfold GossipReceiver.
    destruct (Type_ m =? GOSSIP_REQUEST); [|eexists _, _; repeat split].
    destruct (Body m) as [|t|x]; try (eexists _, _; repeat split; reflexivity).
    destruct (GetPuts_returns d (YourIdx t)) as (raw & Hget & _).
    change (GetPuts (Logf (Logf d (LogGotRequest m))
                       (LogWants (From m) (YourIdx t) (MyIdx t))) (YourIdx t))
      with (GetPuts d (YourIdx t)).
    rewrite Hget, GetGossiper_eq.
    destruct (getIntVal _ _) as [cur e].
    destruct (is_nil e && (cur <? MyIdx t)).
    + destruct (_ =? 0); eexists _, _; repeat split; reflexivity.
    + eexists _, _; repeat split; reflexivity.
  - intros Hty. unfold GossipReceiver.
    destruct (Z.eqb_spec (Type_ m) GOSSIP_REQUEST); [contradiction|]. eauto.
  - intros Hty Hbody. unfold GossipReceiver. rewrite Hty, Z.eqb_refl.
    destruct (Body m) as [|t|x]; [| exfalso; exact (Hbody t eq_refl) |];
      eexists; split; reflexivity.
Qed.

End MoreGossipFacts.

(** ** Facts about choosing a peer *)

Section ChoosingFacts.

Context `{Ext : Externals} `{PExt : PeerExternals}.

Lemma Split_peer_key (key : string) :
  String.prefix "peer:" key = true -> is_Some (Split key ":" !! 1%nat).
Proof.
  intros H. destruct (prefix_append _ _ H) as [rest ->].
  change ("peer:" +:+ rest)
    with (String "p" (String "e" (String "e" (String "r" (String ":" rest))))).
  cbn. pose proof (Split_nonempty rest ":") as Hne.
  destruct (Split rest ":") as [|h t]; [contradiction|].
  exists h. reflexivity.
Qed.

Lemma filter_none {A : Type} (P : A -> Prop) `{forall x, Decision (P x)} (l : list A) :
  (forall x, x ∈ l -> ~ P x) -> filter P l = [].
Proof.
  induction l as [|a l IH]; intros Hl; [reflexivity|].
  rewrite filter_cons_False by (apply Hl; left).
  apply IH. intros x Hx. apply Hl. right. exact Hx.
Qed.

Lemma FindGossiper_scan (d : DHT) :
  exists glist : list string,
    Ascend (mkTx (db d) false) "peer" FindGossiper_cb [] = Returned (glist, None)
    /\ Forall (known_peer d) glist.
Proof.
  unfold Ascend. cbn [index_prefix String.eqb Ascii.eqb Bool.eqb].
  match goal with
  | |- context [iterate FindGossiper_cb ?items []] =>
      destruct (iterate_invariant (Forall (known_peer d)) FindGossiper_cb items [])
        as (glist & Hit & Hg)
  end.
  - constructor.
  - intros k v a Hin Ha.
    rewrite merge_sort_Permutation in Hin.
    apply list_elem_of_filter in Hin as [Hpre Hin]. cbn [fst] in Hpre.
    apply Is_true_true in Hpre. apply elem_of_map_to_list in Hin. cbn [tx_db] in Hin.
    destruct (Split_peer_key k Hpre) as [x1 Hx1].
    unfold FindGossiper_cb. rewrite Hx1.
    destruct (IDB58Decode x1) as [g [e|]] eqn:Hdec; [eauto|].
    eexists _, _. split; [reflexivity|]. apply Forall_app. split; [exact Ha|].
    apply Forall_singleton. exists k, v, x1. auto.
  - exists glist. rewrite Hit. split; [reflexivity | exact Hg].
Qed.

(** X17: the peer FindGossiper picks is one whose printed ID is the second field
    of a key stored under [peer:], and gossip puts one request for that
    peer on the channel; with an error nothing is queued. *)
Theorem FindGossiper_known (d : DHT) (g : string) :
  (FindGossiper d = Returned (g, None) -> known_peer d g)
  /\ (forall d', gossip d = Returned (d', None) ->
        exists g', known_peer d g' /\ d' = chan_send d (mkGossipWithReq g'))
  /\ (forall d' e, gossip d = Returned (d', Some e) -> d' = d).
Proof.
  assert (Hfind : forall g0, FindGossiper d = Returned (g0, None) -> known_peer d g0).
  { intros g0. unfold FindGossiper, View.
    destruct (FindGossiper_scan d) as (glist & Hscan & Hknown). rewrite Hscan.
    destruct (_ =? 0); [discriminate|].
    destruct (_ <? 0); [discriminate|].
    destruct (glist !! _) as [g1|] eqn:Hg1; [|discriminate].
    intros [= <-]. rewrite Forall_forall in Hknown. apply Hknown.
    eapply list_elem_of_lookup_2. exact Hg1. }
  split; [apply Hfind|]. split.
  - intros d'. unfold gossip.
    destruct (FindGossiper d) as [[g0 [e|]]|] eqn:HF; try discriminate.
    intros [= <-]. exists g0. split; [apply Hfind; reflexivity | reflexivity].
  - intros d' e. unfold gossip.
    destruct (FindGossiper d) as [[g0 [e0|]]|]; try discriminate.
    intros [= <- _]. reflexivity.
Qed.

(** X18: without a key under [peer:] there is nobody to gossip with:
    FindGossiper and gossip return ErrDHTErrNoGossipersAvailable and the
    channel stays as it is.  Reading the cursor of an unknown peer does
    not change that. *)
Theorem FindGossiper_no_peers (d : DHT) (p : string) :
  (forall k v : string, db d !! k = Some v -> String.prefix "peer:" k = false) ->
  FindGossiper d = Returned (EmptyString, Some ErrDHTErrNoGossipersAvailable)
  /\ gossip d = Returned (d, Some ErrDHTErrNoGossipersAvailable)
  /\ FindGossiper (fst (GetGossiper d p))
       = Returned (EmptyString, Some ErrDHTErrNoGossipersAvailable).
Proof.
  intros Hno.
  assert (H : FindGossiper d = Returned (EmptyString, Some ErrDHTErrNoGossipersAvailable)).
  { unfold FindGossiper, View, Ascend.
    cbn [index_prefix String.eqb Ascii.eqb Bool.eqb tx_db].
    rewrite filter_none; [reflexivity|].
    intros [k v] Hin Hp. apply elem_of_map_to_list in Hin.
    cbn [fst] in Hp. apply Is_true_true in Hp.
    rewrite (Hno k v Hin) in Hp. discriminate. }
  split; [exact H|]. split.
  - unfold gossip. rewrite H. reflexivity.
  - rewrite GetGossiper_eq. exact H.
Qed.

(** X19: when the random source keeps to its range and every key under [peer:]
    decodes, one stored peer is enough for FindGossiper to pick a peer and
    for gossip to queue a request. *)
Theorem FindGossiper_picks (d : DHT) (k v : string) :
  (forall n : Z, 0 < n -> 0 <= Intn n < n) ->
  (forall k' v' x1 : string,
      db d !! k' = Some v' -> String.prefix "peer:" k' = true ->
      Split k' ":" !! 1%nat = Some x1 -> snd (IDB58Decode x1) = None) ->
  db d !! k = Some v ->
  String.prefix "peer:" k = true ->
  exists g : string,
    FindGossiper d = Returned (g, None)
    /\ gossip d = Returned (chan_send d (mkGossipWithReq g), None).
Proof.
  intros Hrand Hdec Hkv Hpre.
  assert (H : exists g, FindGossiper d = Returned (g, None)).
  { unfold FindGossiper, View, Ascend.
    cbn [index_prefix String.eqb Ascii.eqb Bool.eqb tx_db].
    match goal with
    | |- context [iterate FindGossiper_cb ?items []] =>
        destruct (iterate_collects
                    (fun k v => match Split k ":" !! 1%nat with
                                | Some x1 => [fst (IDB58Decode x1)]
                                | None => []
                                end)
                    FindGossiper_cb items [])
          as (glist & Hit & Hall);
        [|assert (Hin : (k, v) ∈ items)]
    end.
    - intros k' v' a Hin. rewrite merge_sort_Permutation in Hin.
      apply list_elem_of_filter in Hin as [Hp Hin]. cbn [fst] in Hp.
      apply Is_true_true in Hp. apply elem_of_map_to_list in Hin.
      destruct (Split_peer_key k' Hp) as [x1 Hx1].
      unfold FindGossiper_cb. rewrite Hx1.
      pose proof (Hdec k' v' x1 Hin Hp Hx1) as Hd.
      destruct (IDB58Decode x1) as [g e]. cbn [snd] in Hd. subst e. reflexivity.
    - rewrite merge_sort_Permutation. apply list_elem_of_filter. split.
      + cbn [fst]. apply Is_true_true. exact Hpre.
      + apply elem_of_map_to_list. exact Hkv.
    - rewrite Hit. cbn [app].
      destruct (Split_peer_key k Hpre) as [x1 Hx1].
      assert (Hg : fst (IDB58Decode x1) ∈ glist).
      { apply (Hall k v); [exact Hin|]. rewrite Hx1. left. }
      assert (Hlen : (0 < length glist)%nat).
      { destruct glist; [inversion Hg | cbn; lia]. }
      destruct (Z.eqb_spec (Z.of_nat (length glist)) 0) as [|_]; [lia|].
      pose proof (Hrand (Z.of_nat (length glist)) ltac:(lia)) as Hr.
      destruct (Z.ltb_spec (Intn (Z.of_nat (length glist))) 0) as [|_]; [lia|].
      destruct (lookup_lt_is_Some_2 glist (Z.to_nat (Intn (Z.of_nat (length glist))))
                  ltac:(lia)) as [g Hlook].
      rewrite Hlook. eauto. }
  destruct H as [g Hg]. exists g. split; [exact Hg|].
  unfold gossip. rewrite Hg. reflexivity.
Qed.

End ChoosingFacts.

(** ** More facts about the ribosome *)

Lemma append_cons (a : ascii) (s t : string) : String a s +:+ t = String a (s +:+ t).
Proof. reflexivity. Qed.

Lemma append_nil (t : string) : EmptyString +:+ t = t.
Proof. reflexivity. Qed.

Lemma has_char_append (c : ascii) (s t : string) :
  has_char c (s +:+ t) = has_char c s || has_char c t.
Proof.
  induction s as [|a s IH]; [reflexivity|].
  rewrite append_cons. cbn [has_char]. rewrite IH, orb_assoc. reflexivity.
Qed.

(** After [Replace], the replaced character occurs only where the
    replacement brings it. *)
Lemma Replace_removes (s : string) (old : ascii) (new : string) :
  has_char old new = false -> has_char old (Replace s old new) = false.
Proof.
  intros Hnew. induction s as [|a s IH]; [reflexivity|].
  cbn [Replace]. destruct (Ascii.eqb a old) eqn:Ha.
  - rewrite has_char_append, Hnew, IH. reflexivity.
  - cbn [has_char]. rewrite Ha, IH. reflexivity.
Qed.

Lemma Replace_keeps_absent (s : string) (c old : ascii) (new : string) :
  has_char c s = false -> has_char c new = false ->
  has_char c (Replace s old new) = false.
Proof.
  intros Hs Hnew. induction s as [|a s IH]; [reflexivity|].
  cbn [has_char] in Hs. apply orb_false_elim in Hs as [Ha Hs].
  cbn [Replace]. destruct (Ascii.eqb a old).
  - rewrite has_char_append, Hnew, (IH Hs). reflexivity.
  - cbn [has_char]. rewrite Ha, (IH Hs). reflexivity.
Qed.

Lemma Replace_absent (s : string) (old : ascii) (new : string) :
  has_char old s = false -> Replace s old new = s.
Proof.
  induction s as [|a s IH]; [reflexivity|].
  cbn [has_char]. intros H. apply orb_false_elim in H as [Ha Hs].
  cbn [Replace]. rewrite Ha, (IH Hs). reflexivity.
Qed.

(** X20: what jsSanitizeString returns contains no line feed and no carriage
    return. *)
Theorem jsSanitizeString_no_newline (s : string) :
  has_char (ascii_of_nat 10) (jsSanitizeString s) = false
  /\ has_char (ascii_of_nat 13) (jsSanitizeString s) = false.
Proof.
  unfold jsSanitizeString. split.
  - apply Replace_keeps_absent; [|reflexivity].
    apply Replace_keeps_absent; [|reflexivity].
    apply Replace_removes. reflexivity.
  - apply Replace_keeps_absent; [|reflexivity].
    apply Replace_removes. reflexivity.
Qed.

Lemma Replace_quotes_escaped (s : string) (esc : bool) :
  quotes_escaped esc (Replace s (ascii_of_nat 34) ("\" +:+ dq)) = true.
Proof.
  revert esc. induction s as [|a s IH]; intros esc; [reflexivity|].
  cbn [Replace]. destruct (Ascii.eqb a (ascii_of_nat 34)) eqn:Ha.
  - change (("\" +:+ dq) +:+ Replace s (ascii_of_nat 34) ("\" +:+ dq))
      with (String "\" (String (ascii_of_nat 34)
                          (Replace s (ascii_of_nat 34) ("\" +:+ dq)))).
    cbn [quotes_escaped]. rewrite Ascii.eqb_refl.
    change (Ascii.eqb "\" (ascii_of_nat 34)) with false. cbn [andb].
    apply IH.
  - cbn [quotes_escaped]. rewrite Ha. apply IH.
Qed.

(** X21: in what jsSanitizeString returns every double quote comes right after a
    backslash. *)
Theorem jsSanitizeString_quotes_escaped (s : string) :
  quotes_escaped false (jsSanitizeString s) = true.
Proof. unfold jsSanitizeString. apply Replace_quotes_escaped. Qed.

(** X22: jsSanitizeString changes nothing else: a string without line feed,
    carriage return and double quote comes back as it is, backslashes
    included. *)
Theorem jsSanitizeString_clean (s : string) :
  has_char (ascii_of_nat 10) s = false ->
  has_char (ascii_of_nat 13) s = false ->
  has_char (ascii_of_nat 34) s = false ->
  jsSanitizeString s = s.
Proof.
  intros H10 H13 H34. unfold jsSanitizeString.
  rewrite (Replace_absent s _ _ H10), (Replace_absent s _ _ H13).
  apply Replace_absent, H34.
Qed.

Section MoreRibosomeFacts.

Context `{JSExt : JSExternals} `{AExt : ActionExternals}.

Variable Action_Name : Action -> string.

Lemma IsBoolean_true (v : Value) : IsBoolean v = true -> exists b, v = VBoolean b.
Proof. destruct v; try discriminate. eauto. Qed.

(** X23: runValidate returns nil exactly when the VM ran the code without error
    and the value is the boolean true. *)
Theorem runValidate_nil_iff (jsr : JSRibosome) (fnName code : string) :
  snd (runValidate jsr fnName code) = None
  <-> exists vm', vm_Run (vm jsr) code = (vm', (VBoolean true, None)).
Proof.
  unfold runValidate. destruct (vm_Run (vm jsr) code) as [vm' [v [e|]]].
  - split; [discriminate | intros [vm'' [=]]].
  - destruct (IsBoolean v) eqn:Hb.
    + destruct (IsBoolean_true v Hb) as [[|] ->]; cbn.
      * split; [eauto | reflexivity].
      * split; [discriminate | intros [vm'' [=]]].
    + split; [discriminate|]. intros [vm'' [= -> ->]]. discriminate.
Qed.

(** X24: ChainGenesis returns nil exactly when [genesis()] ran without error and
    returned the boolean true. *)
Theorem ChainGenesis_nil_iff (jsr : JSRibosome) :
  snd (ChainGenesis jsr) = None
  <-> exists vm', vm_Run (vm jsr) "genesis()" = (vm', (VBoolean true, None)).
Proof.
  unfold ChainGenesis. destruct (vm_Run (vm jsr) "genesis()") as [vm' [v [e|]]].
  - split; [discriminate | intros [vm'' [=]]].
  - destruct (IsBoolean v) eqn:Hb.
    + destruct (IsBoolean_true v Hb) as [[|] ->]; cbn.
      * split; [eauto | reflexivity].
      * split; [discriminate | intros [vm'' [=]]].
    + split; [discriminate|]. intros [vm'' [= -> ->]]. discriminate.
Qed.

(** X25: with a string entry of a supported format and a header, validateEntry
    accepts exactly when the script's function returns true for the call it
    builds. *)
Theorem validateEntry_nil_iff (jsr : JSRibosome) (fnName : string) (def : EntryDef)
    (c : string) (header : Header) (sources : list string) (e srcs : string) :
  prepareJSValidateEntryArgs def (ContentString c) sources = Returned (e, srcs, None) ->
  snd (validateEntry jsr fnName def (ContentString c) (Some header) sources) = Returned None
  <-> exists vm',
        vm_Run (vm jsr) (validate_call fnName (Name def) e (header_object header) srcs)
          = (vm', (VBoolean true, None)).
Proof.
  intros Hargs. rewrite <- (runValidate_nil_iff jsr fnName).
  unfold validateEntry. rewrite Hargs.
  destruct (runValidate jsr fnName _) as [jsr' [err|]]; cbn [snd is_nil negb andb].
  - split; [|discriminate]. destruct (is_err _ _); discriminate.
  - split; reflexivity.
Qed.

(** X26: an entry of a data format that is not one of the four is refused before
    the VM is used: the error names the format and the ribosome is as
    before. *)
Theorem validateEntry_unknown_format (jsr : JSRibosome) (fnName : string)
    (def : EntryDef) (c : string) (header : option Header) (sources : list string) :
  DataFormat def <> DataFormatRawJS ->
  DataFormat def <> DataFormatString ->
  DataFormat def <> DataFormatLinks ->
  DataFormat def <> DataFormatJSON ->
  validateEntry jsr fnName def (ContentString c) header sources
    = (jsr, Returned (Some (Errorf ("data format not implemented: " +:+ DataFormat def)))).
Proof.
  intros H1 H2 H3 H4. unfold validateEntry, prepareJSValidateEntryArgs.
  apply String.eqb_neq in H1, H2, H3, H4. rewrite H1, H2, H3, H4. reflexivity.
Qed.

(** X27: prepareJSEntryArgs renders an entry as prepareJSValidateEntryArgs does
    and appends the header object; where validateEntry dereferences a nil
    header, prepareJSEntryArgs writes the header object whose fields
    EntryLink, Type and Time are empty strings. *)
Theorem prepareJSEntryArgs_agrees (def : EntryDef) (c : string) (sources : list string)
    (e srcs : string) :
  prepareJSValidateEntryArgs def (ContentString c) sources = Returned (e, srcs, None) ->
  (forall header : Header,
      prepareJSEntryArgs def (ContentString c) (Some header)
        = Returned (e +:+ "," +:+ header_object header, None))
  /\ prepareJSEntryArgs def (ContentString c) None
       = Returned (e +:+ "," +:+
                   ("{" +:+ quoted "EntryLink" +:+ ":" +:+ quoted EmptyString
                    +:+ "," +:+ quoted "Type" +:+ ":" +:+ quoted EmptyString
                    +:+ "," +:+ quoted "Time" +:+ ":" +:+ quoted EmptyString +:+ "}"),
                   None)
  /\ (forall (jsr : JSRibosome) (fnName : string),
        validateEntry jsr fnName def (ContentString c) None sources = (jsr, Panicked)).
Proof.
  intros Hargs. unfold prepareJSEntryArgs, validateEntry. rewrite Hargs.
  unfold prepareJSValidateEntryArgs in Hargs.
  destruct (String.eqb (DataFormat def) DataFormatRawJS).
  { injection Hargs as <- <-. split; [reflexivity|]. split; reflexivity. }
  destruct (String.eqb (DataFormat def) DataFormatString).
  { injection Hargs as <- <-. split; [reflexivity|]. split; reflexivity. }
  destruct (String.eqb (DataFormat def) DataFormatLinks
            || String.eqb (DataFormat def) DataFormatJSON); [|discriminate].
  injection Hargs as <- <-. split; [reflexivity|]. split; reflexivity.
Qed.

(** X28: ValidateAction accepts exactly when the script returns true for the
    call it builds, and hands a refusal on as ValidationFailedErr itself,
    where validateEntry makes an "Invalid entry" error of it. *)
Theorem ValidateAction_nil_iff (jsr : JSRibosome) (action : Action) (def : EntryDef)
    (pkg : option ValidationPackage) (sources : list string) (code : string) :
  buildJSValidateAction Action_Name action def pkg sources = Returned (code, None) ->
  (snd (ValidateAction Action_Name jsr action def pkg sources) = Returned None
   <-> exists vm', vm_Run (vm jsr) code = (vm', (VBoolean true, None)))
  /\ (forall vm', vm_Run (vm jsr) code = (vm', (VBoolean false, None)) ->
        snd (ValidateAction Action_Name jsr action def pkg sources)
          = Returned (Some ValidationFailedErr)).
Proof.
  intros Hcode. unfold ValidateAction. rewrite Hcode. split.
  - rewrite <- (runValidate_nil_iff jsr (Action_Name action)).
    destruct (runValidate jsr (Action_Name action) code) as [jsr' [err|]]; cbn [snd].
    + split; discriminate.
    + split; reflexivity.
  - intros vm' Hrun. rewrite (runValidate_false jsr _ code vm' Hrun). reflexivity.
Qed.

(** X29: what the called function returns decides the result of Call: an error
    value made by mkOttoErr comes back as an error with the same message
    and no result, a string comes back as the result, and an error of the
    VM itself is handed on. *)
Theorem Call_result (jsr : JSRibosome) (fn : FunctionDef) (params : Content)
    (code : string) (vm' : VM) (v : Value) (err : option error) :
  Call_code fn params = Returned (Some code) ->
  vm_Run (vm jsr) code = (vm', (v, err)) ->
  (forall e, err = Some e -> snd (Call jsr fn params) = Returned (None, Some e))
  /\ (forall msg, err = None -> v = mkOttoErr jsr msg ->
        snd (Call jsr fn params) = Returned (None, Some (Errorf msg)))
  /\ (forall s, err = None -> v = VString s ->
        snd (Call jsr fn params) = Returned (Some s, None)).
Proof.
  intros Hcode Hrun. unfold Call. rewrite Hcode, Hrun. split; [|split].
  - intros e ->. reflexivity.
  - intros msg -> ->. reflexivity.
  - intros s -> ->. reflexivity.
Qed.

Lemma find_snoc {A : Type} (f : A -> bool) (l : list A) (a : A) :
  List.find f (l ++ [a])%list =
    match List.find f l with
    | Some x => Some x
    | None => if f a then Some a else None
    end.
Proof.
  induction l as [|b l IH]; [reflexivity|].
  cbn. destruct (f b); [reflexivity | exact IH].
Qed.

(** X30: an exposed function is found under its name, by the first interface
    registered with that name: exposing a name again does not replace what
    GetInterface returns for it, a name never exposed is not found, and
    what is found has the name asked for. *)
Theorem expose_then_GetInterface (z : JSNucleus) (i : Interface) :
  (forall n x, GetInterface z n = (Some x, None) ->
     GetInterface (fst (expose z i)) n = (Some x, None))
  /\ (fst (GetInterface z (Interface_Name i)) = None ->
      GetInterface (fst (expose z i)) (Interface_Name i) = (Some i, None))
  /\ (forall n, n <> Interface_Name i -> fst (GetInterface z n) = None ->
        GetInterface (fst (expose z i)) n
          = (None, Some (Errorf ("couldn't find exposed function: " +:+ n))))
  /\ (forall n x, GetInterface z n = (Some x, None) -> Interface_Name x = n).
Proof.
  unfold GetInterface, expose. cbn [fst interfaces]. split; [|split; [|split]].
  - intros n x. rewrite find_snoc.
    destruct (List.find _ (interfaces z)); [trivial | discriminate].
  - rewrite find_snoc.
    destruct (List.find _ (interfaces z)); [discriminate|].
    intros _. rewrite String.eqb_refl. reflexivity.
  - intros n Hn. rewrite find_snoc.
    destruct (List.find _ (interfaces z)); [discriminate|].
    intros _. destruct (String.eqb_spec (Interface_Name i) n); [congruence | reflexivity].
  - intros n x. destruct (List.find _ (interfaces z)) as [y|] eqn:Hfind; [|discriminate].
    intros [= <-]. apply List.find_some in Hfind as [_ Hy].
    apply String.eqb_eq. exact Hy.
Qed.

End MoreRibosomeFacts.

(** ** The sample instance at work *)

Import Sample.

Example Atoi_signs :
  Atoi "42" = (42, None) /\ Atoi "-7" = (-7, None) /\ Atoi "+7" = (7, None)
  /\ Atoi "007" = (7, None) /\ Atoi "-" = (0, Some (ErrSyntax "-"))
  /\ Atoi "4x" = (0, Some (ErrSyntax "4x")).
Proof. repeat split. Qed.

Example Atoi_out_of_range :
  Atoi "9223372036854775807" = (MaxInt, None)
  /\ Atoi "9223372036854775808" = (MaxInt, Some (ErrRange "9223372036854775808"))
  /\ Atoi "-9223372036854775808" = (MinInt, None).
Proof. repeat split. Qed.

Example FormatInt_signs : FormatInt 0 = "0" /\ FormatInt 120 = "120" /\ FormatInt (-3) = "-3".
Proof. repeat split. Qed.

Example Split_key : Split "idx:12" ":" = ["idx"; "12"] /\ Split "_idx" ":" = ["_idx"].
Proof. split; reflexivity. Qed.

Example jsSanitizeString_quote :
  jsSanitizeString ("a" +:+ dq +:+ "b" +:+ String (ascii_of_nat 10) "c") = "a\" +:+ dq +:+ "bc".
Proof. reflexivity. Qed.

(** A first message gets index 1; the log then holds one put from 1 on and
    none from 2 on. *)
Example first_append :
  let tx := fst (incIdx (mkTx ∅ true) (Some (msg "one"))) in
  snd (incIdx (mkTx ∅ true) (Some (msg "one"))) = ("1", None)
  /\ tx_db tx = one_db
  /\ GetIdx (with_db one_db) = (1, None)
  /\ GetFingerprint (with_db one_db) "mone" = (1, None)
  /\ GetFingerprint (with_db one_db) "mtwo" = (-1, None)
  /\ GetPuts (with_db one_db) 1
       = Returned ([mkPut 1 (mkMessage 0 0 EmptyString (BodyOther "one"))], None)
  /\ GetPuts (with_db one_db) 2 = Returned ([], None).
Proof. cbv zeta. repeat split; vm_compute; reflexivity. Qed.

(** A request from a peer that is ahead of what is known of it is answered
    and queues a gossip back. *)
Example request_queues_gossip_back :
  match GossipReceiver (with_db one_db)
          (mkMessage 9 0 "peerB" (BodyGossipReq (mkGossipReq 4 2))) with
  | Returned (d, (RespGossip g, None)) =>
      Puts g = [] /\ gchan d = [mkGossipWithReq "peerB"]
  | _ => False
  end.
Proof. vm_compute. split; reflexivity. Qed.

(** ** The claims on the sample instance *)

Lemma incIdx_duplicate_appends_witness :
  snd (incIdx (mkTx one_db true) (Some (msg "one"))) = ("2", None)
  /\ getIntVal "_idx" (fst (incIdx (mkTx one_db true) (Some (msg "one")))) = (2, None).
Proof.
  pose proof (incIdx_duplicate_appends (mkTx one_db true) (msg "one") 1 "mone" "mone"
                eq_refl eq_refl eq_refl eq_refl ltac:(vm_compute; eauto)) as H.
  cbv zeta in H. destruct H as (H1 & H2 & _). split; [exact H1 | exact H2].
Defined.

(** C1 as the specification words it fails on the log [one_db], which
    records the fingerprint of the message with payload ["one"]: appending
    that message again succeeds with index 2, moves [_idx] from 1 to 2 and
    overwrites the fingerprint's record. *)
Lemma incIdx_duplicate_counterexample :
  fingerprint_recorded (mkTx one_db true) (msg "one")
  /\ ~ fails_as_duplicate (mkTx one_db true) (msg "one")
  /\ ~ idx_not_advanced (mkTx one_db true) (msg "one")
  /\ ~ log_keys_kept (mkTx one_db true) (msg "one").
Proof.
  repeat split.
  - vm_compute. eauto.
  - intros H. apply H. vm_compute. reflexivity.
  - intros H. vm_compute in H. discriminate.
  - intros H. specialize (H "f:mone" (or_intror eq_refl) ltac:(vm_compute; eauto)).
    vm_compute in H. discriminate.
Qed.

Lemma UpdateGossiper_lower_ignored_witness :
  snd (GetGossiper (fst (UpdateGossiper (fst (UpdateGossiper empty "peerB" 5)) "peerB" 3))
         "peerB") = (5, None).
Proof.
  pose proof (UpdateGossiper_lower_ignored empty "peerB" 5 3 0
                ltac:(int_range) ltac:(lia) eq_refl) as H.
  cbv zeta in H. destruct H as (_ & _ & _ & _ & H). apply H. lia.
Defined.

(** C4 as the specification words it fails when the cursor is already above
    [x]: with the cursor of [peerB] at 10, updating to 5 and then to 3
    leaves it at 10, not at 5. *)
Lemma UpdateGossiper_counterexample :
  let d := with_db (<["peer:peerB" := "10"]> ∅) in
  3 < 5
  /\ snd (GetGossiper (fst (UpdateGossiper (fst (UpdateGossiper d "peerB" 5)) "peerB" 3))
            "peerB") = (10, None)
  /\ snd (GetGossiper (fst (UpdateGossiper (fst (UpdateGossiper d "peerB" 5)) "peerB" 3))
            "peerB") <> (5, None).
Proof.
  cbv zeta. split; [lia|]. split.
  - vm_compute. reflexivity.
  - vm_compute. discriminate.
Qed.

Lemma GetGossiper_unknown_not_added_witness :
  GetGossiper empty "peerB" = (empty, (0, None))
  /\ db (fst (GetGossiper empty "peerB")) !! "peer:peerB" = None.
Proof.
  apply (GetGossiper_unknown_not_added empty "peerB"). reflexivity.
Defined.

Lemma GetIdxMessage_decode_error_dropped_witness :
  snd (ByteDecoder "???" zeroMessage) = Some (Errorf "cannot decode")
  /\ GetIdxMessage (with_db corrupt_db) 2 = (zeroMessage, None).
Proof.
  split; [reflexivity|].
  apply (GetIdxMessage_decode_error_dropped (with_db corrupt_db) 2 "???" zeroMessage
           (Errorf "cannot decode")); reflexivity.
Defined.

(** C3: GetPuts never returns an error, whatever the store holds.  On the
    log [corrupt_db], whose record under [idx:2] does not decode, the scan
    from 0 stops at that record and GetPuts returns the one put before it
    together with a nil error. *)
Theorem GetPuts_decode_error_lost :
  (forall (E : Externals) (d : DHT) (s : Z),
      exists puts, @GetPuts E d s = Returned (puts, None))
  /\ corrupt_db !! "idx:2" = Some "???"
  /\ snd (ByteDecoder "???" zeroMessage) = Some (Errorf "cannot decode")
  /\ GetPuts (with_db corrupt_db) 0 =
       Returned ([mkPut 1 (mkMessage 0 0 EmptyString (BodyOther "one"))], None).
Proof.
  split.
  - intros E d s. destruct (@GetPuts_returns E d s) as (puts & H & _). eauto.
  - split; [|split]; vm_compute; reflexivity.
Qed.

Lemma receive_keeps_cursor (s : gmap string string) (m : Message) :
  fst (receive s m) !! "peer:peerB" = s !! "peer:peerB".
Proof.
  unfold receive. destruct (Body m) as [| |payload]; try reflexivity.
  destruct (String.eqb payload "bad"); [reflexivity|].
  cbn [fst]. apply lookup_insert_ne. discriminate.
Qed.

Lemma gossipWith_batch_witness :
  put_logged (glog (fst (gossipWith empty "peerB")))
    (fst (run_puts empty 0 0 0 [mkPut 0 (msg "one")]))
    (fst (run_puts empty 0 0 0 [mkPut 0 (msg "one"); mkPut 0 (msg "bad")]))
    2 (mkPut 0 (msg "bad"))
  /\ LogActionReceiverReturned 2 RespNil (Some (Errorf "rejected"))
       ∈ glog (fst (gossipWith empty "peerB"))
  /\ LogErrFingerprint (mkPut 0 zeroMessage) ∈ glog (fst (gossipWith empty "peerB"))
  /\ snd (gossipWith empty "peerB") = Returned None
  /\ inspections (glog (fst (gossipWith empty "peerB"))) = 3%nat
  /\ snd (GetGossiper (fst (gossipWith empty "peerB")) "peerB") = (3, None).
Proof.
  destruct (gossipWith_batch (Ext := ext) empty "peerB" 0 0 answer
              eq_refl eq_refl eq_refl eq_refl
              ltac:(discriminate))
    as (H1 & H2 & _ & _ & _ & _ & _ & _ & H9).
  pose proof (H1 [mkPut 0 (msg "one")] (mkPut 0 (msg "bad")) [mkPut 0 zeroMessage]
                eq_refl) as P2.
  pose proof (H1 [mkPut 0 (msg "one"); mkPut 0 (msg "bad")] (mkPut 0 zeroMessage) []
                eq_refl) as P3.
  destruct H9 as [H9a H9b]; [vm_compute; discriminate | exact receive_keeps_cursor |].
  split; [exact P2|]. split; [|split; [|split; [exact H9a | split; [exact H2 | exact H9b]]]].
  - unfold put_logged in P2. cbn in P2. destruct P2 as (_ & _ & P & _). exact P.
  - unfold put_logged in P3. cbn in P3. destruct P3 as (P & _). exact P.
Defined.

(** C7 as the specification words it fails on the batch [answer], whose last
    put has no fingerprint: the highest index with a successful inspection
    is 2, and the cursor of the peer is set to 3. *)
Lemma gossipWith_batch_counterexample :
  Send "peerB" GOSSIP_REQUEST (mkGossipReq 0 1) = (RespGossip (mkGossip answer), None)
  /\ highest_inspected 0 0 answer = 2
  /\ snd (GetGossiper (fst (gossipWith empty "peerB")) "peerB") = (3, None)
  /\ snd (GetGossiper (fst (gossipWith empty "peerB")) "peerB")
       <> (highest_inspected 0 0 answer, None).
Proof.
  split; [reflexivity|]. split; [reflexivity|]. split.
  - vm_compute. reflexivity.
  - vm_compute. discriminate.
Qed.

Lemma gossipWith_in_flight_witness :
  gossipWith (mkDHT ∅ {["peerB" := true]} [] [] []) "peerB"
    = (mkDHT ∅ {["peerB" := true]} [LogWith "peerB"] [] [], Returned None)
  /\ gossips (fst (gossipWith empty "peerB")) !! "peerB" = None
  /\ net (fst (gossipWith_during (fun d' => fst (gossipWith d' "peerB")) empty "peerB"))
       = [("peerB", 9, mkGossipReq 0 1)].
Proof.
  split; [|split].
  - destruct (gossipWith_in_flight (mkDHT ∅ {["peerB" := true]} [] [] []) "peerB")
      as [H _].
    destruct H as [H _]; [vm_compute; eauto | exact H].
  - destruct (gossipWith_in_flight empty "peerB") as (_ & H & _).
    destruct (H eq_refl) as (_ & _ & H'). exact H'.
  - destruct (gossipWith_in_flight empty "peerB") as (_ & _ & _ & _ & H).
    destruct (H eq_refl) as (_ & (_ & _ & _ & Hnet) & _).
    rewrite Hnet. vm_compute. reflexivity.
Defined.

Lemma GossipReceiver_request_witness :
  exists (puts : list Put) (d' : DHT),
    GetPuts (with_db one_db) 1 = Returned (puts, None)
    /\ GossipReceiver (with_db one_db) (mkMessage 9 0 "peerB" (BodyGossipReq (mkGossipReq 4 1)))
       = Returned (d', (RespGossip (mkGossip puts), None))
    /\ db d' = one_db
    /\ ((exists cur, snd (GetGossiper (with_db one_db) "peerB") = (cur, None) /\ cur < 4)
        <-> gchan d' = [mkGossipWithReq "peerB"])
    /\ (~ (exists cur, snd (GetGossiper (with_db one_db) "peerB") = (cur, None) /\ cur < 4)
        -> gchan d' = []).
Proof.
  exact (GossipReceiver_request (with_db one_db)
           (mkMessage 9 0 "peerB" (BodyGossipReq (mkGossipReq 4 1)))
           (mkGossipReq 4 1) eq_refl eq_refl).
Defined.

Lemma validate_false_or_not_boolean_witness :
  snd (runValidate jsr "validateCommit" "validateCommit(number)")
    = Some (Errorf "validateCommit should return boolean, got: 7")
  /\ snd (runValidate jsr "validateCommit" "validateCommit(post)")
    = Some ValidationFailedErr
  /\ snd (validateEntry jsr "validateCommit" post (ContentString "hello") (Some header) ["peerA"])
    = Returned (Some (Errorf "Invalid entry: hello"))
  /\ commit jsr
       (Commit_Do
          (fun _ entryStr =>
             snd (validateEntry jsr "validateCommit" post (ContentString entryStr)
                    (Some header) ["peerA"]))
          (fun _ _ => (Some "QmNew", None)))
       None "post" "hello"
    = Returned (VError "HolochainError" "Invalid entry: hello")
  /\ commit jsr
       (Commit_Do
          (fun _ entryStr =>
             snd (ValidateAction Fixture.action_name jsr
                    (ActionCommit (ContentString entryStr) (Some header))
                    post None ["peerA"]))
          (fun _ _ => (Some "QmNew", None)))
       None "post" "hello"
    = Returned (VError "HolochainError" "Invalid entry: hello").
Proof.
  destruct (validate_false_or_not_boolean (JSExt := jsext) (AExt := Fixture.aext)
              Fixture.action_name jsr "validateCommit") as (H1 & H2 & H3 & H4).
  destruct (H3 post "hello" header ["peerA"] (quoted "hello") (mkJSSources ["peerA"]) tt
              eq_refl eq_refl) as [H3a H3b].
  destruct (H4 post "hello" (Some header) None ["peerA"] _ tt eq_refl eq_refl)
    as [_ H4b].
  split; [|split; [|split; [|split]]].
  - apply (H1 "validateCommit(number)" tt (VNumber 7)); reflexivity.
  - apply (H2 "validateCommit(post)" tt). reflexivity.
  - exact H3a.
  - apply H3b.
  - apply H4b.
Defined.

(** ** The further facts on the sample instances *)

Import Fixture.

Lemma one_db_list :
  map_to_list one_db = [("_idx", "1"); ("idx:1", "mone"); ("f:mone", "1")].
Proof. vm_compute. reflexivity. Qed.

Lemma peers_db_list :
  map_to_list peers_db = [("peer:peerA", "7"); ("peer:peerB", "3")].
Proof. vm_compute. reflexivity. Qed.

Lemma append_then_lookup_witness :
  snd (append_message empty (msg "one")) = ("1", None)
  /\ GetIdx (fst (append_message empty (msg "one"))) = (1, None)
  /\ GetFingerprint (fst (append_message empty (msg "one"))) "mone" = (1, None)
  /\ HaveFingerprint (fst (append_message empty (msg "one"))) "mone" = (true, None).
Proof.
  exact (append_then_lookup empty (msg "one") 0 "mone" "mone"
           eq_refl eq_refl eq_refl eq_refl).
Defined.

Lemma append_then_GetIdxMessage_witness :
  GetIdxMessage
    (fst (append_message empty (mkMessage 0 0 EmptyString (BodyOther "one")))) 1
    = (mkMessage 0 0 EmptyString (BodyOther "one"), None).
Proof.
  exact (proj1 (append_then_GetIdxMessage empty
                  (mkMessage 0 0 EmptyString (BodyOther "one")) 0 "mone" "mone"
                  eq_refl eq_refl eq_refl eq_refl eq_refl)).
Defined.

Lemma append_failure_rolled_back_witness :
  db (fst (append_message (with_db one_db) zeroMessage)) = one_db
  /\ snd (snd (append_message (with_db one_db) zeroMessage))
       = Some (Errorf "cannot encode body")
  /\ tx_db (fst (incIdx (mkTx one_db true) (Some zeroMessage))) !! "_idx" = Some "2".
Proof.
  exact (append_failure_rolled_back (with_db one_db) zeroMessage 1
           (Errorf "cannot encode body") eq_refl (or_introl eq_refl)).
Defined.

Lemma append_keeps_other_records_witness :
  GetIdxMessage (fst (append_message (with_db one_db) (msg "two"))) 1
    = GetIdxMessage (with_db one_db) 1
  /\ GetFingerprint (fst (append_message (with_db one_db) (msg "two"))) "mone"
       = GetFingerprint (with_db one_db) "mone".
Proof.
  destruct (append_keeps_other_records (Ext := ext) (with_db one_db) (msg "two") 1
              "mtwo" "mtwo" eq_refl eq_refl eq_refl eq_refl) as [H1 H2].
  split.
  - apply H1; [int_range | lia].
  - apply H2. discriminate.
Defined.

Lemma GetPuts_complete_witness :
  exists puts : list Put,
    GetPuts (with_db one_db) 1 = Returned (puts, None)
    /\ put_of_record "idx:1" "mone" ∈ puts.
Proof.
  apply (GetPuts_complete (with_db one_db) 1 "idx:1" "mone").
  - intros k v Hkv Hpre. apply elem_of_map_to_list in Hkv.
    cbn [db with_db] in Hkv. rewrite one_db_list in Hkv.
    repeat (apply elem_of_cons in Hkv as [[= -> ->]|Hkv]);
      try discriminate; [right; reflexivity | inversion Hkv].
  - reflexivity.
  - reflexivity.
  - reflexivity.
  - vm_compute. discriminate.
Defined.

Lemma UpdateGossiper_all_max_witness :
  snd (GetGossiper (UpdateGossiper_all empty "peerB" [5; 3; 9]) "peerB") = (9, None)
  /\ 0 <= 9.
Proof.
  apply (UpdateGossiper_all_max [5; 3; 9] empty "peerB" 0).
  - repeat constructor; int_range.
  - reflexivity.
Defined.

Lemma UpdateGossiper_other_keys_witness :
  db (fst (UpdateGossiper (with_db peers_db) "peerB" 9)) !! "peer:peerA" = Some "7".
Proof.
  rewrite (UpdateGossiper_other_keys (with_db peers_db) "peerB" 9 "peer:peerA").
  - reflexivity.
  - discriminate.
Defined.

Lemma UpdateGossiper_unreadable_witness :
  let d := with_db (<["peer:peerB" := "abc"]> ∅) in
  snd (snd (GetGossiper d "peerB")) = Some (ErrSyntax "abc")
  /\ snd (UpdateGossiper d "peerB" 4) = Some (ErrSyntax "abc")
  /\ db (fst (UpdateGossiper d "peerB" 4)) = db d.
Proof.
  exact (UpdateGossiper_unreadable (with_db (<["peer:peerB" := "abc"]> ∅)) "peerB" 4
           "abc" (ErrSyntax "abc") eq_refl eq_refl).
Defined.

Lemma gossipWith_local_error_witness :
  let d := with_db (<["_idx" := "x"]> ∅) in
  snd (gossipWith d "peerB") = Returned (Some (ErrSyntax "x"))
  /\ net (fst (gossipWith d "peerB")) = []
  /\ db (fst (gossipWith d "peerB")) = db d.
Proof.
  exact (gossipWith_local_error (with_db (<["_idx" := "x"]> ∅)) "peerB" (ErrSyntax "x")
           eq_refl (or_introl eq_refl)).
Defined.

Lemma gossipWith_request_witness :
  net (fst (gossipWith (with_db one_db) "peerB")) = [("peerB", 9, mkGossipReq 1 1)].
Proof.
  exact (gossipWith_request (with_db one_db) "peerB" 1 0 eq_refl eq_refl eq_refl).
Defined.

Lemma gossipWith_transport_error_witness :
  snd (gossipWith (Ext := down) (with_db one_db) "peerB")
    = Returned (Some (Errorf "timeout"))
  /\ db (fst (gossipWith (Ext := down) (with_db one_db) "peerB")) = one_db
  /\ snd (GetGossiper (Ext := down)
            (fst (gossipWith (Ext := down) (with_db one_db) "peerB")) "peerB")
       = (0, None).
Proof.
  exact (gossipWith_transport_error (Ext := down) (with_db one_db) "peerB" 1 0 RespNil
           (Errorf "timeout") eq_refl eq_refl eq_refl eq_refl).
Defined.

Lemma gossipWith_no_puts_witness :
  (db (fst (gossipWith (Ext := quiet) (with_db one_db) "peerB")) = one_db
   /\ snd (gossipWith (Ext := quiet) (with_db one_db) "peerB") = Returned None)
  /\ (db (fst (gossipWith (Ext := confused) (with_db one_db) "peerB")) = one_db
      /\ snd (gossipWith (Ext := confused) (with_db one_db) "peerB") = Panicked).
Proof.
  split.
  - apply (gossipWith_no_puts (Ext := quiet) (with_db one_db) "peerB" 1 0
             (RespGossip (mkGossip [])) eq_refl eq_refl eq_refl eq_refl).
    intros g [= <-]. reflexivity.
  - apply (gossipWith_no_puts (Ext := confused) (with_db one_db) "peerB" 1 0
             (RespOther "pong") eq_refl eq_refl eq_refl eq_refl).
    intros g [=].
Defined.

Lemma gossipWith_known_puts_witness :
  snd (gossipWith (Ext := again) (with_db one_db) "peerB") = Returned None
  /\ db (fst (gossipWith (Ext := again) (with_db one_db) "peerB"))
       = <["peer:peerB" := "1"]> one_db.
Proof.
  apply (gossipWith_known_puts (Ext := again) (with_db one_db) "peerB" 1 0
           [mkPut 0 (msg "one")] eq_refl eq_refl eq_refl eq_refl).
  - discriminate.
  - vm_compute. discriminate.
  - repeat constructor. exists "mone". split; reflexivity.
Defined.

Lemma FindGossiper_no_peers_witness :
  FindGossiper (with_db one_db)
    = Returned (EmptyString, Some ErrDHTErrNoGossipersAvailable)
  /\ gossip (with_db one_db)
       = Returned (with_db one_db, Some ErrDHTErrNoGossipersAvailable)
  /\ FindGossiper (fst (GetGossiper (with_db one_db) "peerB"))
       = Returned (EmptyString, Some ErrDHTErrNoGossipersAvailable).
Proof.
  apply (FindGossiper_no_peers (with_db one_db) "peerB").
  intros k v Hkv. apply elem_of_map_to_list in Hkv.
  cbn [db with_db] in Hkv. rewrite one_db_list in Hkv.
  repeat (apply elem_of_cons in Hkv as [[= -> ->]|Hkv]); try reflexivity.
  inversion Hkv.
Defined.

Lemma FindGossiper_picks_witness :
  exists g : string,
    FindGossiper (with_db peers_db) = Returned (g, None)
    /\ gossip (with_db peers_db)
         = Returned (chan_send (with_db peers_db) (mkGossipWithReq g), None).
Proof.
  apply (FindGossiper_picks (with_db peers_db) "peer:peerA" "7").
  - intros n Hn. cbn [Intn pext]. lia.
  - intros k v x1 Hkv _ Hx1. apply elem_of_map_to_list in Hkv.
    cbn [db with_db] in Hkv. rewrite peers_db_list in Hkv.
    repeat (apply elem_of_cons in Hkv as [[= -> ->]|Hkv]);
      [injection Hx1 as <-; reflexivity | injection Hx1 as <-; reflexivity
      | inversion Hkv].
  - reflexivity.
  - reflexivity.
Defined.

Lemma jsSanitizeString_clean_witness :
  jsSanitizeString "a\b" = "a\b".
Proof.
  apply (jsSanitizeString_clean "a\b"); reflexivity.
Defined.

Lemma validateEntry_nil_iff_witness :
  snd (validateEntry (JSExt := scripted) scripted_jsr "validateCommit"
         (mkEntryDef "post" "string") (ContentString "good") (Some Sample.header) ["peerA"])
    = Returned None.
Proof.
  eapply (validateEntry_nil_iff (JSExt := scripted)); [reflexivity|].
  exists tt. reflexivity.
Defined.

Lemma validateEntry_unknown_format_witness :
  validateEntry jsr "validateCommit" (mkEntryDef "post" "zygo") (ContentString "hello")
    None ["peerA"]
    = (jsr, Returned (Some (Errorf "data format not implemented: zygo"))).
Proof.
  apply (validateEntry_unknown_format jsr "validateCommit" (mkEntryDef "post" "zygo"));
    discriminate.
Defined.

Lemma prepareJSEntryArgs_agrees_witness :
  prepareJSEntryArgs post (ContentString "hello") (Some header)
    = Returned (quoted "hello" +:+ "," +:+ header_object header, None)
  /\ prepareJSEntryArgs post (ContentString "hello") None
       = Returned (quoted "hello" +:+ "," +:+
                   ("{" +:+ quoted "EntryLink" +:+ ":" +:+ quoted EmptyString
                    +:+ "," +:+ quoted "Type" +:+ ":" +:+ quoted EmptyString
                    +:+ "," +:+ quoted "Time" +:+ ":" +:+ quoted EmptyString +:+ "}"),
                   None)
  /\ validateEntry jsr "validateCommit" post (ContentString "hello") None ["peerA"]
       = (jsr, Panicked).
Proof.
  destruct (prepareJSEntryArgs_agrees (JSExt := jsext) post "hello"
              ["peerA"] (quoted "hello") (mkJSSources ["peerA"]) eq_refl)
    as (H1 & H2 & H3).
  split; [apply H1 | split; [exact H2 | apply H3]].
Defined.

Lemma ValidateAction_nil_iff_witness :
  snd (ValidateAction (JSExt := scripted) action_name scripted_jsr
         (ActionCommit (ContentString "good") (Some Sample.header))
         (mkEntryDef "post" "string") None ["peerA"])
    = Returned None
  /\ snd (ValidateAction action_name jsr
            (ActionCommit (ContentString "hello") (Some header)) post None ["peerA"])
       = Returned (Some ValidationFailedErr).
Proof.
  split.
  - eapply (ValidateAction_nil_iff (JSExt := scripted)); [reflexivity|].
    exists tt. reflexivity.
  - eapply (ValidateAction_nil_iff action_name jsr); reflexivity.
Defined.

Lemma Call_result_witness :
  snd (Call (JSExt := scripted) scripted_jsr (mkFunctionDef "fail" "string")
         (ContentString "x"))
    = Returned (None, Some (Errorf "boom"))
  /\ snd (Call (JSExt := scripted) scripted_jsr (mkFunctionDef "f" "json")
            (ContentString EmptyString))
       = Returned (Some "done", None).
Proof.
  split.
  - eapply (Call_result (JSExt := scripted)); reflexivity.
  - eapply (Call_result (JSExt := scripted)); reflexivity.
Defined.
